(** * Logistics agent: the shipment tools and the request entrypoint

    A shallow embedding of [agent-mocked-tools/agent.py] (the in-memory
    variant) and [agent/agent.py] (the database variant), with the
    properties of the two tools, of the configuration and connection caches
    and of the entrypoint.

    Conventions of the embedding.
    - A Python [str] is a [string]; its characters stand for the code points
      below 256.
    - A Python [dict] with string keys is an association list in insertion
      order, the order [items()] walks it in.
    - An exception is an instance of a subclass of [Exception]; it carries
      [type(e).__name__] and [str(e)].
    - Module globals, the state of the remote services and the list of calls
      made to them (log records included) are threaded explicitly; a raise
      keeps the assignments made before it. *)

From Stdlib Require Import String Ascii List ZArith Bool Lia.
From Stdlib Require Import Permutation Sorted Orders Mergesort.
From Stdlib Require Import DecimalString.
Import ListNotations.
Open Scope string_scope.

Set Implicit Arguments.
Set Warnings "-register-all".

(** ** Python strings *)

Definition dquote : string := String "034"%char EmptyString.
Definition newline : string := String "010"%char EmptyString.

(** [sep.join(parts)] *)
Fixpoint join (sep : string) (parts : list string) : string :=
  match parts with
  | [] => EmptyString
  | [p] => p
  | p :: rest => p ++ sep ++ join sep rest
  end.

(** [' ' * n] *)
Fixpoint spaces (n : nat) : string :=
  match n with
  | O => EmptyString
  | S k => String " "%char (spaces k)
  end.

(** [s.startswith(p)] *)
Fixpoint startswith (p s : string) : bool :=
  match p, s with
  | EmptyString, _ => true
  | String a p', String b s' => Ascii.eqb a b && startswith p' s'
  | String _ _, EmptyString => false
  end.

(** [sub in s] *)
Fixpoint contains (sub s : string) : bool :=
  startswith sub s ||
  match s with
  | EmptyString => false
  | String _ s' => contains sub s'
  end.

(** ** Exceptions and results *)

Inductive exn : Type :=
| Exn (type_name : string) (message : string).

Definition exn_type_name (e : exn) : string :=
  match e with Exn t _ => t end.

(** [str(e)] *)
Definition exn_str (e : exn) : string :=
  match e with Exn _ m => m end.

Inductive res (A : Type) : Type :=
| Ok (a : A)
| Raise (e : exn).

Arguments Ok {A} a.
Arguments Raise {A} e.

(** [KeyError(k)]: [str] of it is [repr(k)]; used on literal keys only. *)
Definition KeyError (k : string) : exn :=
  Exn "KeyError" ("'" ++ k ++ "'").

Definition IndexError_list : exn :=
  Exn "IndexError" "list index out of range".

(** ** Dictionaries with string keys *)

Definition dict (V : Type) : Type := list (string * V).

(** [d.get(k)] *)
Fixpoint dict_get {V} (k : string) (d : dict V) : option V :=
  match d with
  | [] => None
  | (k', v) :: d' => if String.eqb k k' then Some v else dict_get k d'
  end.

(** [k in d] *)
Definition dict_contains {V} (k : string) (d : dict V) : bool :=
  match dict_get k d with Some _ => true | None => false end.

(** [d[k]] *)
Definition dict_getitem {V} (d : dict V) (k : string) : res V :=
  match dict_get k d with
  | Some v => Ok v
  | None => Raise (KeyError k)
  end.

(** [d[k] = v]: overwrite in place, or append a new key. *)
Fixpoint dict_setitem {V} (k : string) (v : V) (d : dict V) : dict V :=
  match d with
  | [] => [(k, v)]
  | (k', v') :: d' =>
      if String.eqb k k' then (k, v) :: d' else (k', v') :: dict_setitem k v d'
  end.

(** [{k: v for (k, v) in pairs}] *)
Definition dict_of_pairs {V} (pairs : list (string * V)) : dict V :=
  fold_left (fun d kv => dict_setitem (fst kv) (snd kv) d) pairs [].

(** ** Python values that a decoded JSON document can hold *)

Inductive pyval : Type :=
| PNone
| PBool (b : bool)
| PInt (z : Z)
| PStr (s : string)
| PList (l : list pyval)
| PDict (d : list (string * pyval)).

(** [bool(v)] *)
Definition truthy (v : pyval) : bool :=
  match v with
  | PNone => false
  | PBool b => b
  | PInt z => negb (Z.eqb z 0)
  | PStr s => negb (String.eqb s EmptyString)
  | PList l => match l with [] => false | _ => true end
  | PDict d => match d with [] => false | _ => true end
  end.

(** [type(v).__name__] *)
Definition py_type_name (v : pyval) : string :=
  match v with
  | PNone => "NoneType"
  | PBool _ => "bool"
  | PInt _ => "int"
  | PStr _ => "str"
  | PList _ => "list"
  | PDict _ => "dict"
  end.

(** [v.get(k, default)]: only a [dict] has the method. *)
Definition py_get (v : pyval) (k : string) (default : pyval) : res pyval :=
  match v with
  | PDict d =>
      Ok (match dict_get k d with Some x => x | None => default end)
  | _ =>
      Raise (Exn "AttributeError"
               ("'" ++ py_type_name v ++ "' object has no attribute 'get'"))
  end.

(** [v[k]] for a string [k]. *)
Definition py_getitem (v : pyval) (k : string) : res pyval :=
  match v with
  | PDict d => dict_getitem d k
  | PStr _ =>
      Raise (Exn "TypeError" "string indices must be integers, not 'str'")
  | PList _ =>
      Raise (Exn "TypeError" "list indices must be integers or slices, not str")
  | _ =>
      Raise (Exn "TypeError"
               ("'" ++ py_type_name v ++ "' object is not subscriptable"))
  end.

(** ** [json.dumps(obj, indent=2)] *)

Inductive json : Type :=
| JNull
| JStr (s : string)
| JArr (items : list json)
| JObj (members : list (string * json)).

Definition hex_digit (n : nat) : ascii :=
  match n with
  | 0 => "0" | 1 => "1" | 2 => "2" | 3 => "3" | 4 => "4" | 5 => "5"
  | 6 => "6" | 7 => "7" | 8 => "8" | 9 => "9" | 10 => "a" | 11 => "b"
  | 12 => "c" | 13 => "d" | 14 => "e" | _ => "f"
  end%char.

(** One character of [py_encode_basestring_ascii]: the short escapes, the
    printable ASCII range as it is, [\u00xx] for the rest. *)
Definition escape_char (c : ascii) : string :=
  let n := nat_of_ascii c in
  if Nat.eqb n 34 then "\" ++ dquote
  else if Nat.eqb n 92 then "\\"
  else if Nat.eqb n 10 then "\n"
  else if Nat.eqb n 13 then "\r"
  else if Nat.eqb n 9 then "\t"
  else if Nat.eqb n 8 then "\b"
  else if Nat.eqb n 12 then "\f"
  else if Nat.leb 32 n && Nat.leb n 126 then String c EmptyString
  else "\u00" ++ String (hex_digit (n / 16))
                   (String (hex_digit (n mod 16)) EmptyString).

Fixpoint escape_chars (s : string) : string :=
  match s with
  | EmptyString => EmptyString
  | String c s' => escape_char c ++ escape_chars s'
  end.

Definition encode_basestring_ascii (s : string) : string :=
  dquote ++ escape_chars s ++ dquote.

(** [newline_indent] of the encoder at nesting level [lvl], indent 2. *)
Definition newline_indent (lvl : nat) : string :=
  newline ++ spaces (2 * lvl).

Fixpoint iterencode (lvl : nat) (j : json) : string :=
  match j with
  | JNull => "null"
  | JStr s => encode_basestring_ascii s
  | JArr [] => "[]"
  | JArr items =>
      "[" ++ newline_indent (S lvl)
          ++ join ("," ++ newline_indent (S lvl))
                  (map (iterencode (S lvl)) items)
          ++ newline_indent lvl ++ "]"
  | JObj [] => "{}"
  | JObj members =>
      "{" ++ newline_indent (S lvl)
          ++ join ("," ++ newline_indent (S lvl))
                  (map (fun kv =>
                          match kv with
                          | (k, v) =>
                              encode_basestring_ascii k ++ ": "
                                ++ iterencode (S lvl) v
                          end) members)
          ++ newline_indent lvl ++ "}"
  end.

Definition json_dumps (j : json) : string := iterencode 0 j.

(** A dict of strings, and a list of them, as JSON documents. *)
Definition json_of_dict (d : dict string) : json :=
  JObj (map (fun kv => (fst kv, JStr (snd kv))) d).

Definition json_of_dicts (l : list (dict string)) : json :=
  JArr (map json_of_dict l).

(** ** Rows of the relational store *)

(** A column value as the driver hands it over: SQL NULL, text, or a
    timestamp (microseconds since the epoch). *)
Inductive sqlval : Type :=
| SqlNull
| SqlText (s : string)
| SqlTimestamp (t : Z).

(** A row is the list of its column values, in SELECT order. *)
Definition row : Type := list sqlval.

(** ** The answer of the reasoning loop *)

(** One content block of the final message: its ['text'] entry, when it has
    one. *)
Record content_block : Type := { text : option string }.

(** [result.message]: its ['content'] list. *)
Record message : Type := { content : list content_block }.

(** What the reasoning loop does during one call of the agent: it uses the
    two tools any number of times, each time continuing from the tool's
    text, and ends with a final message or with an exception. A call that
    comes back has made finitely many uses, hence an inductive type. *)
Inductive plan : Type :=
| Answer (r : res message)
| UseGetShipmentStatus (reference_no : string) (k : string -> plan)
| UseFindDelayedShipments (k : string -> plan).

(** ** The services outside the program *)

Class Externals : Type := {
  (** the state of the remote services *)
  ext : Type;
  (** [pg8000.native.Connection] handles *)
  conn : Type;
  (** [OpenAIModel] and [Agent] objects *)
  model : Type;
  agent : Type;
  (** [boto3.client('ssm').get_parameters(Names=...)['Parameters']] as
      (Name, Value) pairs *)
  ssm_get_parameters :
    list string -> ext -> ext * res (list (string * string));
  (** [boto3.client('secretsmanager').get_secret_value(SecretId=...)
      ['SecretString']] *)
  secrets_get_secret_value : string -> ext -> ext * res string;
  (** [json.loads] *)
  json_loads : string -> res pyval;
  (** [pg8000.native.Connection(host, database, user, password, timeout)] *)
  pg8000_Connection :
    string -> string -> pyval -> pyval -> Z -> ext -> ext * res conn;
  (** [conn.run(query, **params)] *)
  conn_run :
    conn -> string -> list (string * string) -> ext -> ext * res (list row);
  (** [str(t)] and [t.isoformat()] of a [datetime] *)
  datetime_str : Z -> string;
  datetime_isoformat : Z -> string;
  (** [OpenAIModel(client_args={'api_key': k}, model_id=m, params=...)] *)
  OpenAIModel : pyval -> string -> ext -> ext * res model;
  (** [Agent(name='logistics_agent', model=m, tools=..., system_prompt=p,
      callback_handler=None)] *)
  Agent : model -> string -> ext -> ext * res agent;
  (** [agent(query)]: what the reasoning loop goes on to do *)
  agent_call : agent -> pyval -> ext -> ext * plan
}.

(** ** Calls, log records and the state-and-exception monad *)

Section Runtime.
Context `{X : Externals}.

Inductive event : Type :=
| EvGetParameters (names : list string)
| EvGetSecretValue (secret_id : string)
| EvConnect (host database : string) (user password : pyval)
| EvRun (c : conn) (query : string) (params : list (string * string))
| EvOpenAIModel (model_id : string)
| EvAgent
| EvAgentCall (query : pyval)
| EvLogError (msg : string)
| EvLogInfo (msg : string).

(** [G] is the record of the module's globals. *)
Variable G : Type.

Record Runtime : Type := {
  globals : G;
  world : ext;
  trace : list event   (* oldest first *)
}.

Definition M (A : Type) : Type := Runtime -> Runtime * res A.

Definition ret {A} (a : A) : M A := fun st => (st, Ok a).

Definition raise {A} (e : exn) : M A := fun st => (st, Raise e).

Definition bind {A B} (c : M A) (f : A -> M B) : M B :=
  fun st =>
    match c st with
    | (st', Ok a) => f a st'
    | (st', Raise e) => (st', Raise e)
    end.

(** [try: c  except Exception as e: h e] *)
Definition try_except {A} (c : M A) (h : exn -> M A) : M A :=
  fun st =>
    match c st with
    | (st', Ok a) => (st', Ok a)
    | (st', Raise e) => h e st'
    end.

Definition lift {A} (r : res A) : M A := fun st => (st, r).

Definition get_globals : M G := fun st => (st, Ok (globals st)).

Definition modify_globals (f : G -> G) : M unit :=
  fun st =>
    ({| globals := f (globals st); world := world st; trace := trace st |},
     Ok tt).

Definition record (ev : event) (st : Runtime) : Runtime :=
  {| globals := globals st; world := world st;
     trace := (trace st ++ [ev])%list |}.

(** The runtime after a call to a remote service was recorded as [ev] and the
    services moved to [w]. *)
Definition after_call (ev : event) (w : ext) (st : Runtime) : Runtime :=
  {| globals := globals st; world := w; trace := (trace st ++ [ev])%list |}.

(** A call to a remote service: recorded, then answered by the service. *)
Definition external {A} (ev : event) (f : ext -> ext * res A) : M A :=
  fun st =>
    match f (world st) with
    | (w, r) => (after_call ev w st, r)
    end.

(** [logger.error(msg, ...)] and [logger.info(msg)] *)
Definition logger_error (msg : string) : M unit :=
  fun st => (record (EvLogError msg) st, Ok tt).

Definition logger_info (msg : string) : M unit :=
  fun st => (record (EvLogInfo msg) st, Ok tt).

(** [result.message['content'][0]['text']] *)
Definition message_text (m : message) : res string :=
  match content m with
  | [] => Raise IndexError_list
  | b :: _ =>
      match text b with
      | Some t => Ok t
      | None => Raise (KeyError "text")
      end
  end.

(** The reasoning loop run against the two tools. *)
Fixpoint run_plan (get_shipment_status : string -> M string)
    (find_delayed_shipments : M string) (p : plan) : M message :=
  match p with
  | Answer r => lift r
  | UseGetShipmentStatus reference_no k =>
      bind (get_shipment_status reference_no)
           (fun out => run_plan get_shipment_status
                         find_delayed_shipments (k out))
  | UseFindDelayedShipments k =>
      bind find_delayed_shipments
           (fun out => run_plan get_shipment_status
                         find_delayed_shipments (k out))
  end.

(** [agent(query)] *)
Definition agent_run (get_shipment_status : string -> M string)
    (find_delayed_shipments : M string) (a : agent) (query : pyval)
    : M message :=
  fun st =>
    match agent_call a query (world st) with
    | (w, p) =>
        run_plan get_shipment_status find_delayed_shipments p
          (after_call (EvAgentCall query) w st)
    end.

End Runtime.

Arguments ret {X G A} a.
Arguments raise {X G A} e.
Arguments lift {X G A} r.
Arguments get_globals {X G}.
Arguments logger_error {X G} msg.
Arguments logger_info {X G} msg.

Declare Scope py_scope.
Delimit Scope py_scope with py.
Notation "x <- c ;; k" := (bind c (fun x => k))
  (at level 61, c at next level, right associativity) : py_scope.
Notation "c ;;; k" := (bind c (fun _ => k))
  (at level 61, right associativity) : py_scope.

(** ** Constants shared by the two variants *)

Definition OPENAI_SECRET_NAME : string := "openai-api-key".

(** The reply to a request without a question. *)
Definition USAGE_HINT : string :=
  "Please provide a query in the format: {" ++ dquote ++ "query" ++ dquote
    ++ ": " ++ dquote ++ "your question here" ++ dquote ++ "}".

(** [r >>= f] on plain results *)
Definition res_bind {A B} (r : res A) (f : A -> res B) : res B :=
  match r with
  | Ok a => f a
  | Raise e => Raise e
  end.

(** [o == s] for the result [o] of a [dict.get] *)
Definition opt_str_eqb (o : option string) (s : string) : bool :=
  match o with
  | Some x => String.eqb x s
  | None => false
  end.

(** * The in-memory variant: [agent-mocked-tools/agent.py] *)

Module Mock.

(** [timedelta(days=d)] and [timedelta(hours=h)], in microseconds *)
Definition days (d : Z) : Z := (d * 86400000000)%Z.
Definition hours (h : Z) : Z := (h * 3600000000)%Z.

(** The test of the loop of [find_delayed_shipments] on one item of the
    dict. *)
Definition at_risk_item (kv : string * dict string) : bool :=
  opt_str_eqb (dict_get "status" (snd kv)) "AT_RISK".

Section Tools.
Context `{X : Externals}.

(** The fixture; [now1], [now2], [now3] are the three readings of
    [datetime.now()] taken while the module loads. *)
Definition MOCK_SHIPMENTS (now1 now2 now3 : Z) : dict (dict string) :=
  [ ("SHIP-REF-1001",
     [ ("reference_no", "SHIP-REF-1001");
       ("status", "IN_TRANSIT");
       ("event", "DEPARTED");
       ("current_location", "Port of Los Angeles");
       ("unlocode", "USLAX");
       ("occurred_at", datetime_isoformat (now1 - days 2));
       ("details", "Container loaded on vessel MSC MAYA") ]);
    ("SHIP-REF-1002",
     [ ("reference_no", "SHIP-REF-1002");
       ("status", "DELIVERED");
       ("event", "DELIVERED");
       ("current_location", "Shanghai Distribution Center");
       ("unlocode", "CNSHA");
       ("occurred_at", datetime_isoformat (now2 - hours 6));
       ("details", "Delivered to consignee") ]);
    ("SHIP-REF-1003",
     [ ("reference_no", "SHIP-REF-1003");
       ("status", "AT_RISK");
       ("event", "DELAYED");
       ("current_location", "Port of Singapore");
       ("unlocode", "SGSIN");
       ("occurred_at", datetime_isoformat (now3 - hours 12));
       ("details", "Vessel delayed due to weather conditions") ]) ].

Record Globals : Type := {
  _openai_model : option model;
  _agent : option agent
}.

Definition initial_globals : Globals :=
  {| _openai_model := None; _agent := None |}.

Definition set_openai_model (m : option model) (g : Globals) : Globals :=
  {| _openai_model := m; _agent := _agent g |}.

Definition set_agent (a : option agent) (g : Globals) : Globals :=
  {| _openai_model := _openai_model g; _agent := a |}.

(** The tools read the module global [MOCK_SHIPMENTS]; it is their first
    argument [shipments] here. *)

(** The body of the [try] of [get_shipment_status]. *)
Definition get_shipment_status_body (shipments : dict (dict string))
    (reference_no : string) : res string :=
  if dict_contains reference_no shipments then
    res_bind (dict_getitem shipments reference_no)
      (fun shipment => Ok (json_dumps (json_of_dict shipment)))
  else
    Ok ("Shipment " ++ reference_no ++ " not found").

Definition get_shipment_status (shipments : dict (dict string))
    (reference_no : string) : M Globals string :=
  try_except
    (lift (get_shipment_status_body shipments reference_no))
    (fun e =>
       (logger_error ("Error in get_shipment_status: " ++ exn_type_name e
                        ++ ": " ++ exn_str e) ;;;
        ret ("Error retrieving shipment status: " ++ exn_str e))%py).

(** The [for] loop of [find_delayed_shipments] over [shipments.items()];
    [delayed] is the list built so far. *)
Fixpoint collect_delayed (items : list (string * dict string))
    (delayed : list (dict string)) : res (list (dict string)) :=
  match items with
  | [] => Ok delayed
  | (ref_no, shipment) :: rest =>
      if opt_str_eqb (dict_get "status" shipment) "AT_RISK" then
        res_bind (dict_getitem shipment "status") (fun status =>
        res_bind (dict_getitem shipment "current_location") (fun loc =>
        res_bind (dict_getitem shipment "event") (fun ev =>
        res_bind (dict_getitem shipment "occurred_at") (fun occurred =>
        res_bind (dict_getitem shipment "details") (fun details =>
        collect_delayed rest
          (delayed ++ [ [ ("reference_no", ref_no);
                          ("status", status);
                          ("current_location", loc);
                          ("event", ev);
                          ("occurred_at", occurred);
                          ("details", details) ] ])%list)))))
      else collect_delayed rest delayed
  end.

(** The body of the [try] of [find_delayed_shipments]. *)
Definition find_delayed_shipments_body (shipments : dict (dict string))
    : res string :=
  res_bind (collect_delayed shipments [])
    (fun delayed =>
       match delayed with
       | [] => Ok "No delayed shipments found"
       | _ => Ok (json_dumps (json_of_dicts delayed))
       end).

Definition find_delayed_shipments (shipments : dict (dict string))
    : M Globals string :=
  try_except
    (lift (find_delayed_shipments_body shipments))
    (fun e =>
       (logger_error ("Error in find_delayed_shipments: " ++ exn_type_name e
                        ++ ": " ++ exn_str e) ;;;
        ret ("Error finding delayed shipments: " ++ exn_str e))%py).

Definition _get_openai_model : M Globals model :=
  (g <- get_globals ;;
   match _openai_model g with
   | Some m => ret m
   | None =>
       try_except
         (secret <- external (EvGetSecretValue OPENAI_SECRET_NAME)
                      (secrets_get_secret_value OPENAI_SECRET_NAME) ;;
          secret_data <- lift (json_loads secret) ;;
          api_key <- lift (py_get secret_data "openai-api-key"
                             (PStr "Not found")) ;;
          m <- external (EvOpenAIModel "gpt-4o-mini")
                 (OpenAIModel api_key "gpt-4o-mini") ;;
          modify_globals (set_openai_model (Some m)) ;;;
          logger_info "OpenAI model initialized successfully" ;;;
          ret m)
         (fun e =>
            logger_error ("Failed to initialize OpenAI model: " ++ exn_str e)
              ;;; raise e)
   end)%py.

Definition SYSTEM_PROMPT : string :=
"You are a logistics tracking assistant with access to a shipment tracking system.

You can help users:
- Track shipment status and location
- View complete shipment routes
- Identify delayed shipments
- Check container history
- Monitor customs holds

When answering questions:
- Be concise and focus on the most relevant information
- Include reference numbers, locations, and timestamps
- Explain any issues or delays clearly
- Suggest next steps when appropriate
".

Definition _initialize_agent : M Globals agent :=
  (g <- get_globals ;;
   match _agent g with
   | Some a => ret a
   | None =>
       openai_model <- _get_openai_model ;;
       a <- external EvAgent (Agent openai_model SYSTEM_PROMPT) ;;
       modify_globals (set_agent (Some a)) ;;;
       ret a
   end)%py.

Definition logistics_query (shipments : dict (dict string))
    (payload : pyval) : M Globals string :=
  (user_query <- lift (py_get payload "query" PNone) ;;
   if negb (truthy user_query) then ret USAGE_HINT
   else
     try_except
       (a <- _initialize_agent ;;
        result <- agent_run (get_shipment_status shipments)
                    (find_delayed_shipments shipments) a user_query ;;
        lift (message_text result))
       (fun e =>
          logger_error ("Query failed: " ++ exn_type_name e ++ ": "
                          ++ exn_str e) ;;;
          ret ("Query failed: " ++ exn_str e)))%py.

End Tools.
End Mock.

(** * The database variant: [agent/agent.py] *)

Module Persisted.

(** ** The tables the two queries read

    Each record has the columns the queries name; a column is [None] when it
    is SQL NULL. *)

Record shipment : Type := {
  s_shipment_id : option Z;
  s_reference_no : option string;
  s_status : option string
}.

Record latest_event : Type := {
  le_shipment_id : option Z;
  le_event : option string;
  le_location_id : option Z;
  le_occurred_at : option Z;
  le_details : option string
}.

Record location : Type := {
  loc_location_id : option Z;
  loc_name : option string;
  loc_unlocode : option string
}.

Record eta_risk : Type := {
  r_reference_no : option string;
  r_eta : option Z;
  r_eta_final : option Z;
  r_eta_status : option string
}.

Record database : Type := {
  shipments : list shipment;
  v_shipment_latest_event : list latest_event;
  locations : list location;
  mv_eta_risk : list eta_risk
}.

(** SQL [a = b] used as a condition: true only when both sides are not NULL
    and equal. *)
Definition sql_eq_Z (a b : option Z) : bool :=
  match a, b with
  | Some x, Some y => Z.eqb x y
  | _, _ => false
  end.

Definition sql_eq_text (a b : option string) : bool :=
  match a, b with
  | Some x, Some y => String.eqb x y
  | _, _ => false
  end.

Definition text_col (o : option string) : sqlval :=
  match o with Some s => SqlText s | None => SqlNull end.

Definition timestamp_col (o : option Z) : sqlval :=
  match o with Some t => SqlTimestamp t | None => SqlNull end.

(** [LEFT JOIN logistics.locations loc ON loc.location_id = le.location_id] *)
Definition left_join_locations (le : latest_event) (locs : list location)
    : list (option location) :=
  match filter (fun loc => sql_eq_Z (loc_location_id loc) (le_location_id le))
               locs with
  | [] => [None]
  | matches => map Some matches
  end.

(** [FROM logistics.shipments s JOIN logistics.v_shipment_latest_event le
     ON le.shipment_id = s.shipment_id LEFT JOIN ...] *)
Definition joined (db : database)
    : list (shipment * latest_event * option location) :=
  flat_map (fun s =>
    flat_map (fun le =>
      if sql_eq_Z (le_shipment_id le) (s_shipment_id s) then
        map (fun loc => (s, le, loc))
            (left_join_locations le (locations db))
      else [])
      (v_shipment_latest_event db))
    (shipments db).

(** The SELECT list of the status query. *)
Definition select_status (j : shipment * latest_event * option location)
    : row :=
  match j with
  | (s, le, loc) =>
      [ text_col (s_reference_no s);
        text_col (s_status s);
        text_col (le_event le);
        match loc with
        | Some l => text_col (loc_name l)
        | None => SqlNull
        end;
        match loc with
        | Some l => text_col (loc_unlocode l)
        | None => SqlNull
        end;
        timestamp_col (le_occurred_at le);
        text_col (le_details le) ]
  end.

(** [WHERE s.reference_no = :reference_no] *)
Definition where_reference_no (reference_no : string)
    (j : shipment * latest_event * option location) : bool :=
  match j with
  | (s, _, _) => sql_eq_text (s_reference_no s) (Some reference_no)
  end.

(** The rows of the status query of [get_shipment_status], in the order
    of the tables. The query has no ORDER BY clause: a store may answer
    with these rows in any order. *)
Definition status_query_rows (db : database) (reference_no : string)
    : list row :=
  map select_status (filter (where_reference_no reference_no) (joined db)).

(** [ORDER BY r.eta DESC NULLS LAST]: [r1] may stand before [r2]. *)
Definition eta_desc_nulls_last (r1 r2 : eta_risk) : bool :=
  match r_eta r1, r_eta r2 with
  | Some a, Some b => Z.leb b a
  | Some _, None => true
  | None, Some _ => false
  | None, None => true
  end.

(** The same order as a relation. *)
Definition eta_before (r1 r2 : eta_risk) : Prop :=
  eta_desc_nulls_last r1 r2 = true.

Fixpoint insert_by_eta (r : eta_risk) (l : list eta_risk) : list eta_risk :=
  match l with
  | [] => [r]
  | x :: l' =>
      if eta_desc_nulls_last r x then r :: x :: l'
      else x :: insert_by_eta r l'
  end.

Fixpoint order_by_eta (l : list eta_risk) : list eta_risk :=
  match l with
  | [] => []
  | r :: l' => insert_by_eta r (order_by_eta l')
  end.

(** [WHERE r.eta_status = 'AT_RISK'] *)
Definition where_at_risk (r : eta_risk) : bool :=
  sql_eq_text (r_eta_status r) (Some "AT_RISK").

(** The SELECT list of the risk query. *)
Definition select_risk (r : eta_risk) : row :=
  [ text_col (r_reference_no r);
    timestamp_col (r_eta r);
    timestamp_col (r_eta_final r);
    text_col (r_eta_status r) ].

(** The entries of the risk view that the query of
    [find_delayed_shipments] yields, in one of the orders that its ORDER BY
    clause allows: entries with the same ETA are left in the order of the
    view, where a store may answer with them in any order. *)
Definition risk_query_entries (db : database) : list eta_risk :=
  order_by_eta (filter where_at_risk (mv_eta_risk db)).

Definition risk_query_rows (db : database) : list row :=
  map select_risk (risk_query_entries db).

(** ** The program *)

Definition STATUS_QUERY : string :=
"
        SELECT 
            s.reference_no,
            s.status,
            le.event,
            loc.name AS current_location,
            loc.unlocode,
            le.occurred_at,
            le.details
        FROM logistics.shipments s
        JOIN logistics.v_shipment_latest_event le ON le.shipment_id = s.shipment_id
        LEFT JOIN logistics.locations loc ON loc.location_id = le.location_id
        WHERE s.reference_no = :reference_no
        ".

Definition RISK_QUERY : string :=
"
        SELECT 
            r.reference_no,
            r.eta,
            r.eta_final,
            r.eta_status
        FROM logistics.mv_eta_risk r
        WHERE r.eta_status = 'AT_RISK'
        ORDER BY r.eta DESC NULLS LAST
        ".

Definition SYSTEM_PROMPT : string :=
"You are a logistics tracking assistant with access to a real-time shipment database.

You can help users:
- Track shipment status and location
- View complete shipment routes
- Identify delayed shipments
- Check container history
- Monitor customs holds

When answering questions:
- Be concise and focus on the most relevant information
- Include reference numbers, locations, and timestamps
- Explain any issues or delays clearly
- Suggest next steps when appropriate".

Record db_config : Type := {
  endpoint : string;
  database_name : string;
  secret_arn : string
}.

Section Tools.
Context `{X : Externals}.

Record Globals : Type := {
  _db_config : option db_config;
  _db_credentials : pyval;
  _db_connection : option conn;
  _agent : option agent;
  _openai_model : option model
}.

Definition initial_globals : Globals :=
  {| _db_config := None; _db_credentials := PNone; _db_connection := None;
     _agent := None; _openai_model := None |}.

Definition set_db_config (c : option db_config) (g : Globals) : Globals :=
  {| _db_config := c; _db_credentials := _db_credentials g;
     _db_connection := _db_connection g; _agent := _agent g;
     _openai_model := _openai_model g |}.

Definition set_db_credentials (v : pyval) (g : Globals) : Globals :=
  {| _db_config := _db_config g; _db_credentials := v;
     _db_connection := _db_connection g; _agent := _agent g;
     _openai_model := _openai_model g |}.

Definition set_db_connection (c : option conn) (g : Globals) : Globals :=
  {| _db_config := _db_config g; _db_credentials := _db_credentials g;
     _db_connection := c; _agent := _agent g;
     _openai_model := _openai_model g |}.

Definition set_agent (a : option agent) (g : Globals) : Globals :=
  {| _db_config := _db_config g; _db_credentials := _db_credentials g;
     _db_connection := _db_connection g; _agent := a;
     _openai_model := _openai_model g |}.

Definition set_openai_model (m : option model) (g : Globals) : Globals :=
  {| _db_config := _db_config g; _db_credentials := _db_credentials g;
     _db_connection := _db_connection g; _agent := _agent g;
     _openai_model := m |}.

Definition PARAMETER_NAMES : list string :=
  [ "/agentcore/rds/endpoint";
    "/agentcore/rds/database";
    "/agentcore/rds/secret-arn" ].

Definition _load_db_config : M Globals (db_config * pyval) :=
  (g <- get_globals ;;
   match _db_config g with
   | Some cfg => ret (cfg, _db_credentials g)
   | None =>
       try_except
         (response <- external (EvGetParameters PARAMETER_NAMES)
                        (ssm_get_parameters PARAMETER_NAMES) ;;
          let params := dict_of_pairs response in
          ep <- lift (dict_getitem params "/agentcore/rds/endpoint") ;;
          db <- lift (dict_getitem params "/agentcore/rds/database") ;;
          arn <- lift (dict_getitem params "/agentcore/rds/secret-arn") ;;
          let cfg := {| endpoint := ep; database_name := db;
                        secret_arn := arn |} in
          modify_globals (set_db_config (Some cfg)) ;;;
          secret <- external (EvGetSecretValue arn)
                      (secrets_get_secret_value arn) ;;
          credentials <- lift (json_loads secret) ;;
          modify_globals (set_db_credentials credentials) ;;;
          ret (cfg, credentials))
         (fun e =>
            logger_error ("Failed to load database configuration: "
                            ++ exn_str e) ;;;
            raise e)
   end)%py.

Definition get_db_connection : M Globals conn :=
  (g <- get_globals ;;
   match _db_connection g with
   | Some c => ret c
   | None =>
       try_except
         (cc <- _load_db_config ;;
          let config := fst cc in
          let credentials := snd cc in
          user <- lift (py_getitem credentials "username") ;;
          password <- lift (py_getitem credentials "password") ;;
          c <- external
                 (EvConnect (endpoint config) (database_name config)
                    user password)
                 (pg8000_Connection (endpoint config) (database_name config)
                    user password 30) ;;
          modify_globals (set_db_connection (Some c)) ;;;
          ret c)
         (fun e =>
            logger_error ("Database connection failed: " ++ exn_type_name e
                            ++ ": " ++ exn_str e) ;;;
            raise e)
   end)%py.

(** [json.dumps(..., default=str, indent=2)] of a row and of a list of rows:
    [default] turns a timestamp into its [str]. *)
Definition json_of_sqlval (v : sqlval) : json :=
  match v with
  | SqlNull => JNull
  | SqlText s => JStr s
  | SqlTimestamp t => JStr (datetime_str t)
  end.

Definition json_of_row (r : row) : json := JArr (map json_of_sqlval r).

Definition json_of_rows (rs : list row) : json := JArr (map json_of_row rs).

Definition get_shipment_status (reference_no : string) : M Globals string :=
  try_except
    (c <- get_db_connection ;;
     result <- external
                 (EvRun c STATUS_QUERY [("reference_no", reference_no)])
                 (conn_run c STATUS_QUERY [("reference_no", reference_no)]) ;;
     match result with
     | first :: _ => ret (json_dumps (json_of_row first))
     | [] => ret ("Shipment " ++ reference_no ++ " not found")
     end)%py
    (fun e =>
       (logger_error ("Error in get_shipment_status: " ++ exn_type_name e
                        ++ ": " ++ exn_str e) ;;;
        ret ("Error retrieving shipment status: " ++ exn_str e))%py).

Definition find_delayed_shipments : M Globals string :=
  try_except
    (c <- get_db_connection ;;
     results <- external (EvRun c RISK_QUERY []) (conn_run c RISK_QUERY []) ;;
     match results with
     | [] => ret "No delayed shipments found"
     | _ => ret (json_dumps (json_of_rows results))
     end)%py
    (fun e =>
       (logger_error ("Error in find_delayed_shipments: " ++ exn_type_name e
                        ++ ": " ++ exn_str e) ;;;
        ret ("Error finding delayed shipments: " ++ exn_str e))%py).

Definition _get_openai_model : M Globals model :=
  (g <- get_globals ;;
   match _openai_model g with
   | Some m => ret m
   | None =>
       try_except
         (secret <- external (EvGetSecretValue OPENAI_SECRET_NAME)
                      (secrets_get_secret_value OPENAI_SECRET_NAME) ;;
          secret_data <- lift (json_loads secret) ;;
          api_key <- lift (py_get secret_data "openai-api-key"
                             (PStr "Not found")) ;;
          m <- external (EvOpenAIModel "gpt-4o")
                 (OpenAIModel api_key "gpt-4o") ;;
          modify_globals (set_openai_model (Some m)) ;;;
          logger_info "OpenAI model initialized successfully" ;;;
          ret m)
         (fun e =>
            logger_error ("Failed to initialize OpenAI model: " ++ exn_str e)
              ;;; raise e)
   end)%py.

Definition _initialize_agent : M Globals agent :=
  (g <- get_globals ;;
   match _agent g with
   | Some a => ret a
   | None =>
       openai_model <- _get_openai_model ;;
       a <- external EvAgent (Agent openai_model SYSTEM_PROMPT) ;;
       modify_globals (set_agent (Some a)) ;;;
       ret a
   end)%py.

Definition logistics_query (payload : pyval) : M Globals string :=
  (user_query <- lift (py_get payload "query" PNone) ;;
   if negb (truthy user_query) then ret USAGE_HINT
   else
     try_except
       (a <- _initialize_agent ;;
        result <- agent_run get_shipment_status find_delayed_shipments
                    a user_query ;;
        lift (message_text result))
       (fun e =>
          logger_error ("Query failed: " ++ exn_type_name e ++ ": "
                          ++ exn_str e) ;;;
          ret ("Query failed: " ++ exn_str e)))%py.

End Tools.
End Persisted.

(** ** Sequences of tool uses, and the faults of the store *)

Module Ops.
Section Ops.
Context `{X : Externals}.

(** One use of a tool of the database variant. *)
Inductive op : Type :=
| OpStatus (reference_no : string)
| OpDelayed.

Definition run_op (o : op) : M Persisted.Globals string :=
  match o with
  | OpStatus reference_no => Persisted.get_shipment_status reference_no
  | OpDelayed => Persisted.find_delayed_shipments
  end.

(** The tools used one after the other; a tool that raised would stop the
    sequence. *)
Fixpoint run_ops (os : list op) : M Persisted.Globals (list string) :=
  match os with
  | [] => ret []
  | o :: rest =>
      (out <- run_op o ;;
       outs <- run_ops rest ;;
       ret (out :: outs))%py
  end.

Definition op_query (o : op) : string :=
  match o with
  | OpStatus _ => Persisted.STATUS_QUERY
  | OpDelayed => Persisted.RISK_QUERY
  end.

Definition op_params (o : op) : list (string * string) :=
  match o with
  | OpStatus reference_no => [("reference_no", reference_no)]
  | OpDelayed => []
  end.

(** The text a tool answers with when [e] was raised inside it. *)
Definition op_error_text (o : op) (e : exn) : string :=
  match o with
  | OpStatus _ => "Error retrieving shipment status: " ++ exn_str e
  | OpDelayed => "Error finding delayed shipments: " ++ exn_str e
  end.

(** The record a tool logs when [e] was raised inside it. *)
Definition op_log_text (o : op) (e : exn) : string :=
  match o with
  | OpStatus _ =>
      "Error in get_shipment_status: " ++ exn_type_name e ++ ": " ++ exn_str e
  | OpDelayed =>
      "Error in find_delayed_shipments: " ++ exn_type_name e ++ ": "
        ++ exn_str e
  end.

(** An event that is a call to a service, not a log record. *)
Definition is_call (ev : event) : bool :=
  match ev with
  | EvLogError _ => false
  | EvLogInfo _ => false
  | _ => true
  end.

(** The store fails [get_shipment_status reference_no] started in [st] with
    [e]: either no connection can be had, or the query on it raises. *)
Definition status_fault (st : Runtime Persisted.Globals)
    (reference_no : string) (e : exn) : Prop :=
  (exists st1, Persisted.get_db_connection st = (st1, Raise e)) \/
  (exists st1 c w,
      Persisted.get_db_connection st = (st1, Ok c) /\
      conn_run c Persisted.STATUS_QUERY [("reference_no", reference_no)]
        (world st1) = (w, Raise e)).

(** [reference_no] is in the directory: the joined tables hold a record
    with that reference. *)
Definition present (db : Persisted.database) (reference_no : string) : bool :=
  existsb (Persisted.where_reference_no reference_no) (Persisted.joined db).

End Ops.
End Ops.

(** ** A small instance of the services, to run the program on *)

Module Demo.

(** Which services answer. *)
Record services : Type := {
  parameters_up : bool;
  secrets_up : bool;
  database_up : bool;
  queries_up : bool
}.

Definition all_up : services :=
  {| parameters_up := true; secrets_up := true; database_up := true;
     queries_up := true |}.

Definition secrets_down : services :=
  {| parameters_up := true; secrets_up := false; database_up := true;
     queries_up := true |}.

Definition queries_down : services :=
  {| parameters_up := true; secrets_up := true; database_up := true;
     queries_up := false |}.

Definition db : Persisted.database :=
  {| Persisted.shipments :=
       [ {| Persisted.s_shipment_id := Some 1%Z;
            Persisted.s_reference_no := Some "ACME-REF-1001";
            Persisted.s_status := Some "IN_TRANSIT" |};
         {| Persisted.s_shipment_id := Some 2%Z;
            Persisted.s_reference_no := Some "ACME-REF-1002";
            Persisted.s_status := Some "AT_RISK" |} ];
     Persisted.v_shipment_latest_event :=
       [ {| Persisted.le_shipment_id := Some 1%Z;
            Persisted.le_event := Some "DEPARTED";
            Persisted.le_location_id := Some 10%Z;
            Persisted.le_occurred_at := Some 1700000000000000%Z;
            Persisted.le_details := None |};
         {| Persisted.le_shipment_id := Some 2%Z;
            Persisted.le_event := Some "DELAYED";
            Persisted.le_location_id := None;
            Persisted.le_occurred_at := Some 1700000500000000%Z;
            Persisted.le_details := Some "Weather" |} ];
     Persisted.locations :=
       [ {| Persisted.loc_location_id := Some 10%Z;
            Persisted.loc_name := Some "Port of Los Angeles";
            Persisted.loc_unlocode := Some "USLAX" |} ];
     Persisted.mv_eta_risk :=
       [ {| Persisted.r_reference_no := Some "ACME-REF-1003";
            Persisted.r_eta := None;
            Persisted.r_eta_final := None;
            Persisted.r_eta_status := Some "AT_RISK" |};
         {| Persisted.r_reference_no := Some "ACME-REF-1001";
            Persisted.r_eta := Some 1700000900000000%Z;
            Persisted.r_eta_final := Some 1700000900000000%Z;
            Persisted.r_eta_status := Some "ON_TIME" |};
         {| Persisted.r_reference_no := Some "ACME-REF-1002";
            Persisted.r_eta := Some 1700000100000000%Z;
            Persisted.r_eta_final := None;
            Persisted.r_eta_status := Some "AT_RISK" |};
         {| Persisted.r_reference_no := Some "ACME-REF-1004";
            Persisted.r_eta := Some 1700000700000000%Z;
            Persisted.r_eta_final := None;
            Persisted.r_eta_status := Some "AT_RISK" |} ] |}.

Definition unreachable (what : string) : exn :=
  Exn "ConnectionError" (what ++ " unreachable").

Definition demo_run (q : string) (params : list (string * string))
    : res (list row) :=
  if String.eqb q Persisted.STATUS_QUERY then
    match params with
    | [(_, reference_no)] => Ok (Persisted.status_query_rows db reference_no)
    | _ => Raise (Exn "InterfaceError" "bad parameters")
    end
  else if String.eqb q Persisted.RISK_QUERY then
    Ok (Persisted.risk_query_rows db)
  else Raise (Exn "DatabaseError" "syntax error").

#[local] Instance externals : Externals := {|
  ext := services;
  conn := nat;
  model := unit;
  agent := unit;
  ssm_get_parameters := fun _ w =>
    (w, if parameters_up w then
          Ok [ ("/agentcore/rds/endpoint", "db.internal");
               ("/agentcore/rds/database", "logistics");
               ("/agentcore/rds/secret-arn", "arn:demo") ]
        else Raise (unreachable "parameter store"));
  secrets_get_secret_value := fun id w =>
    (w, if secrets_up w then Ok id
        else Raise (unreachable "secret store"));
  json_loads := fun s =>
    if String.eqb s "arn:demo" then
      Ok (PDict [("username", PStr "agent"); ("password", PStr "pw")])
    else Ok (PDict [("openai-api-key", PStr "sk")]);
  pg8000_Connection := fun _ _ _ _ _ w =>
    (w, if database_up w then Ok 7
        else Raise (unreachable "database"));
  conn_run := fun _ q params w =>
    (w, if queries_up w then demo_run q params
        else Raise (unreachable "database"));
  datetime_str := fun _ => "2023-11-14 22:13:20";
  datetime_isoformat := fun _ => "2023-11-14T22:13:20";
  OpenAIModel := fun _ _ w => (w, Ok tt);
  Agent := fun _ _ w => (w, Ok tt);
  agent_call := fun _ _ w =>
    (w, UseFindDelayedShipments
          (fun out => Answer (Ok {| content := [ {| text := Some out |} ] |})))
|}.

(** The runtime of the database variant when the module has just loaded. *)
Definition fresh (w : services) : Runtime Persisted.Globals :=
  {| globals := Persisted.initial_globals; world := w; trace := [] |}.

(** The same with an established connection. *)
Definition connected (w : services) : Runtime Persisted.Globals :=
  {| globals := Persisted.set_db_connection (Some 7)
                  Persisted.initial_globals;
     world := w; trace := [] |}.

(** A later request: the globals are what an earlier request left, the
    services are in state [w], the list of calls starts anew. *)
Definition later (g : Persisted.Globals) (w : services)
    : Runtime Persisted.Globals :=
  {| globals := g; world := w; trace := [] |}.

Definition fresh_mock (w : services) : Runtime Mock.Globals :=
  {| globals := Mock.initial_globals; world := w; trace := [] |}.

End Demo.

(** ** What a computation leaves in place *)

Module Cache.
Section Frames.
Context `{X : Externals}.
Variable G : Type.

(** [keep] relates the globals before and after; [allowed] tells which
    events may be recorded. *)
Variable keep : G -> G -> Prop.
Variable allowed : event -> bool.

(** [st'] comes after [st]: the globals are related by [keep] and the trace
    grew by allowed events only. *)
Definition extends (st st' : Runtime G) : Prop :=
  keep (globals st) (globals st') /\
  exists evs,
    trace st' = (trace st ++ evs)%list /\ forallb allowed evs = true.

(** A computation every run of which extends the runtime it starts in. *)
Definition steady {A : Type} (c : M G A) : Prop :=
  forall st, extends st (fst (c st)).

End Frames.

Section Init.
Context `{X : Externals}.

(** The construction of a model or of an agent. *)
Definition is_init (ev : event) : bool :=
  match ev with
  | EvOpenAIModel _ => true
  | EvAgent => true
  | _ => false
  end.

Definition not_init (ev : event) : bool := negb (is_init ev).

(** The call of the agent. *)
Definition is_agent_call (ev : event) : bool :=
  match ev with
  | EvAgentCall _ => true
  | _ => false
  end.

(** A read of the parameters or of a secret. *)
Definition is_config_read (ev : event) : bool :=
  match ev with
  | EvGetParameters _ => true
  | EvGetSecretValue _ => true
  | _ => false
  end.

(** The model and the agent cached by the database variant and by the
    in-memory variant are the same before and after. *)
Definition same_agent (g g' : Persisted.Globals) : Prop :=
  Persisted._agent g' = Persisted._agent g /\
  Persisted._openai_model g' = Persisted._openai_model g.

Definition same_agent_mock (g g' : Mock.Globals) : Prop :=
  Mock._agent g' = Mock._agent g /\
  Mock._openai_model g' = Mock._openai_model g.

(** The store fails [find_delayed_shipments] started in [st] with [e]. *)
Definition delayed_fault (st : Runtime Persisted.Globals) (e : exn) : Prop :=
  (exists st1, Persisted.get_db_connection st = (st1, Raise e)) \/
  (exists st1 c w,
      Persisted.get_db_connection st = (st1, Ok c) /\
      conn_run c Persisted.RISK_QUERY [] (world st1) = (w, Raise e)).

(** The question of a request. *)
Definition question (d : list (string * pyval)) : pyval :=
  match dict_get "query" d with
  | Some q => q
  | None => PNone
  end.

End Init.
End Cache.

(** ** Entries of the in-memory at-risk list *)

Module Listing.

(** The fields [find_delayed_shipments] copies from a shipment record. *)
Definition COPIED_FIELDS : list string :=
  [ "status"; "current_location"; "event"; "occurred_at"; "details" ].

(** [d] is the entry made for the item [kv] of the directory: its
    reference is the item's key, its other five fields are the record's,
    and it has no further key. *)
Definition entry_of (kv : string * dict string) (d : dict string) : Prop :=
  map fst d = "reference_no" :: COPIED_FIELDS /\
  dict_get "reference_no" d = Some (fst kv) /\
  forall field,
    In field COPIED_FIELDS ->
    dict_get field d = dict_get field (snd kv) /\
    dict_get field d <> None.

End Listing.

(** * The deployment scripts: [cdk/app.py] and [cdk/scripts/create_zip.py] *)

Module CdkApp.

(** [not value] for a value read with [os.environ.get]: unset, or the empty
    string. *)
Definition unset (o : option string) : bool :=
  match o with
  | None => true
  | Some s => String.eqb s EmptyString
  end.

(** The keyword arguments [app.py] hands to [LogisticsAgentRuntimeStack]
    and to [cdk.Environment]; a value read with [os.environ.get] may be
    [None]. *)
Record stack_arguments : Type := {
  vpc_id : option string;
  private_subnet_ids : list (option string);
  runtime_security_group_id : option string;
  db_secret_arn : option string;
  openai_secret_arn : option string;
  account : option string;
  region : string
}.

(** The keys of [required_vars], in the order the dict is written. *)
Definition REQUIRED_NAMES : list string :=
  [ "AGENTCORE_VPC_ID";
    "AGENTCORE_SUBNET_1";
    "AGENTCORE_SUBNET_2";
    "AGENTCORE_RUNTIME_SG_ID";
    "AGENTCORE_DB_SECRET_ARN";
    "AGENTCORE_OPENAI_SECRET_ARN" ].

Definition ACCOUNT_MESSAGE : string :=
  "CDK_DEFAULT_ACCOUNT environment variable must be set".

Definition missing_message (missing_vars : list string) : string :=
  "Missing required environment variables: " ++ join ", " missing_vars
    ++ newline
    ++ "Please run the setup script to export these values from your CloudFormation stack.".

(** The module body of [app.py] up to the construction of the stack: the
    arguments it passes on, or the [ValueError] it raises. *)
Definition app (environ : dict string) : res stack_arguments :=
  let account := dict_get "CDK_DEFAULT_ACCOUNT" environ in
  let region :=
    match dict_get "CDK_DEFAULT_REGION" environ with
    | Some r => r
    | None => "us-east-1"
    end in
  if unset account then Raise (Exn "ValueError" ACCOUNT_MESSAGE)
  else
    let vpc_id := dict_get "AGENTCORE_VPC_ID" environ in
    let subnet_1 := dict_get "AGENTCORE_SUBNET_1" environ in
    let subnet_2 := dict_get "AGENTCORE_SUBNET_2" environ in
    let runtime_sg_id := dict_get "AGENTCORE_RUNTIME_SG_ID" environ in
    let db_secret_arn := dict_get "AGENTCORE_DB_SECRET_ARN" environ in
    let openai_secret_arn := dict_get "AGENTCORE_OPENAI_SECRET_ARN" environ in
    let required_vars :=
      [ ("AGENTCORE_VPC_ID", vpc_id);
        ("AGENTCORE_SUBNET_1", subnet_1);
        ("AGENTCORE_SUBNET_2", subnet_2);
        ("AGENTCORE_RUNTIME_SG_ID", runtime_sg_id);
        ("AGENTCORE_DB_SECRET_ARN", db_secret_arn);
        ("AGENTCORE_OPENAI_SECRET_ARN", openai_secret_arn) ] in
    let missing_vars :=
      map fst (filter (fun nv => unset (snd nv)) required_vars) in
    match missing_vars with
    | [] =>
        Ok {| vpc_id := vpc_id;
              private_subnet_ids := [subnet_1; subnet_2];
              runtime_security_group_id := runtime_sg_id;
              db_secret_arn := db_secret_arn;
              openai_secret_arn := openai_secret_arn;
              account := account;
              region := region |}
    | _ => Raise (Exn "ValueError" (missing_message missing_vars))
    end.

(** [name] is set to a value that is not empty. *)
Definition provided (environ : dict string) (name : string) : Prop :=
  exists v, dict_get name environ = Some v /\ v <> EmptyString.

End CdkApp.

Module CreateZip.

(** A bundle directory: regular files and directories, by name. *)
Inductive node : Type :=
| File (data : string)
| Dir (entries : list (string * node)).

Definition ignore_dirs : list string :=
  [ "__pycache__"; ".git"; ".venv"; "node_modules" ].

(** [d in ignore_dirs] *)
Definition ignored (d : string) : bool :=
  existsb (String.eqb d) ignore_dirs.

Definition is_file (n : node) : bool :=
  match n with
  | File _ => true
  | Dir _ => false
  end.

(** The [files] that [os.walk] reports of a directory. *)
Definition file_names (entries : list (string * node)) : list string :=
  map fst (filter (fun e => is_file (snd e)) entries).

(** [os.walk(bundle_dir)] with the loop's pruning
    [dirs[:] = [d for d in dirs if d not in ignore_dirs]]: top down, each
    directory with its path below the bundle directory and its files, then
    the directories left in [dirs], in their order. A path that is not a
    directory yields nothing. *)
Fixpoint walk (root : list string) (n : node) {struct n}
    : list (list string * list string) :=
  match n with
  | File _ => []
  | Dir entries =>
      (root, file_names entries) ::
      (fix descend (es : list (string * node))
         : list (list string * list string) :=
         match es with
         | [] => []
         | (d, child) :: es' =>
             match child with
             | File _ => descend es'
             | Dir _ =>
                 if ignored d then descend es'
                 else (walk (root ++ [d]) child ++ descend es')%list
             end
         end) entries
  end.



(** The files the loop reaches, as paths below the bundle directory, and
    their member names, in the order of the loop. *)
Definition paths_below (root : list string) (n : node)
    : list (list string) :=
  flat_map (fun rf => map (fun f => (fst rf ++ [f])%list) (snd rf))
    (walk root n).


Definition member_paths (top : node) : list (list string) :=
  paths_below [] top.















End CreateZip.

(** * The permissions of the runtime role:
      [cdk/logistics_agent_runtime_stack.py] *)

Module Stack.

(** An [iam.PolicyStatement] with effect ALLOW: its actions, its resources
    and its conditions (operator, key, value). *)
Record policy_statement : Type := {
  actions : list string;
  resources : list string;
  conditions : list (string * string * string)
}.

(** The statements [__init__] adds to the runtime role with
    [add_to_policy], in the order it adds them; [region] and [account] are
    [self.region] and [self.account]. *)
Definition runtime_role_statements (region account : string)
    (db_secret_arn openai_secret_arn : string) : list policy_statement :=
  [ {| actions := [ "logs:DescribeLogStreams"; "logs:CreateLogGroup" ];
       resources :=
         [ "arn:aws:logs:" ++ region ++ ":" ++ account
             ++ ":log-group:/aws/bedrock-agentcore/runtimes/*" ];
       conditions := [] |};
    {| actions := [ "logs:DescribeLogGroups" ];
       resources :=
         [ "arn:aws:logs:" ++ region ++ ":" ++ account
             ++ ":log-group:/aws/bedrock-agentcore/*" ];
       conditions := [] |};
    {| actions := [ "logs:CreateLogStream"; "logs:PutLogEvents" ];
       resources :=
         [ "arn:aws:logs:" ++ region ++ ":" ++ account
             ++ ":log-group:/aws/bedrock-agentcore/runtimes/*:log-stream:*" ];
       conditions := [] |};
    {| actions := [ "xray:PutTraceSegments"; "xray:PutTelemetryRecords";
                    "xray:GetSamplingRules"; "xray:GetSamplingTargets" ];
       resources := [ "arn:aws:xray:" ++ region ++ ":" ++ account ++ ":*" ];
       conditions := [] |};
    {| actions := [ "cloudwatch:PutMetricData" ];
       resources := [ "*" ];
       conditions :=
         [ ("StringEquals", "cloudwatch:namespace", "bedrock-agentcore") ] |};
    {| actions := [ "ssm:GetParameter"; "ssm:GetParameters" ];
       resources :=
         [ "arn:aws:ssm:" ++ region ++ ":" ++ account
             ++ ":parameter/agentcore/rds/endpoint";
           "arn:aws:ssm:" ++ region ++ ":" ++ account
             ++ ":parameter/agentcore/rds/database";
           "arn:aws:ssm:" ++ region ++ ":" ++ account
             ++ ":parameter/agentcore/rds/secret-arn" ];
       conditions := [] |};
    {| actions := [ "secretsmanager:GetSecretValue" ];
       resources := [ db_secret_arn; openai_secret_arn ];
       conditions := [] |} ].

(** The ARN of the parameter [name] (a name that starts with a slash). *)
Definition parameter_arn (region account name : string) : string :=
  "arn:aws:ssm:" ++ region ++ ":" ++ account ++ ":parameter" ++ name.

(** The statements allow [action] on [resource]. (The statements that name
    the action ask for no condition and their resources hold no wildcard
    when the region and the account hold none.) *)
Definition allows (statements : list policy_statement)
    (action resource : string) : Prop :=
  exists st,
    In st statements /\ In action (actions st) /\ In resource (resources st).

(** [AWS_REGION] of [agent/agent.py]: the region of the SSM client that
    [_load_db_config] makes, in whatever region the stack is deployed. *)
Definition AWS_REGION : string := "us-east-1".

(** A region name has no colon in it. *)
Fixpoint has_colon (s : string) : bool :=
  match s with
  | EmptyString => false
  | String c s' => Ascii.eqb c ":"%char || has_colon s'
  end.

End Stack.

(** ** Sample inputs for the deployment scripts and the tools *)

Module Samples.



(** A complete environment for [app.py], without a region. *)
Definition environment : dict string :=
  [ ("CDK_DEFAULT_ACCOUNT", "123456789012");
    ("AGENTCORE_VPC_ID", "vpc-1");
    ("AGENTCORE_SUBNET_1", "subnet-a");
    ("AGENTCORE_SUBNET_2", "subnet-b");
    ("AGENTCORE_RUNTIME_SG_ID", "sg-1");
    ("AGENTCORE_DB_SECRET_ARN", "arn:db");
    ("AGENTCORE_OPENAI_SECRET_ARN", "arn:openai") ].

(** The same with an empty subnet and no OpenAI secret. *)
Definition incomplete_environment : dict string :=
  [ ("CDK_DEFAULT_ACCOUNT", "123456789012");
    ("AGENTCORE_VPC_ID", "vpc-1");
    ("AGENTCORE_SUBNET_1", EmptyString);
    ("AGENTCORE_SUBNET_2", "subnet-b");
    ("AGENTCORE_RUNTIME_SG_ID", "sg-1");
    ("AGENTCORE_DB_SECRET_ARN", "arn:db") ].

(** The runtime of the database variant after a first request that was
    answered: the agent is cached. *)
Definition warm : Runtime Persisted.Globals :=
  fst (Persisted.logistics_query (PDict [("query", PStr "hello")])
         (Demo.fresh Demo.all_up)).

(** The services with a database that refuses connections. *)
Definition database_down : Demo.services :=
  {| Demo.parameters_up := true; Demo.secrets_up := true;
     Demo.database_up := false; Demo.queries_up := true |}.

End Samples.

(** * The client script: [cdk/invoke_agent.py] *)

Module InvokeAgent.

(** How an f-string prints a value read with [os.environ.get]. *)
Definition format (o : option string) : string :=
  match o with
  | Some s => s
  | None => "None"
  end.

(** [runtime_arn]: the variable, [or] the ARN made from the account. *)
Definition runtime_arn (environ : dict string) : string :=
  let made :=
    "arn:aws:bedrock-agentcore:us-east-1:"
      ++ format (dict_get "CDK_DEFAULT_ACCOUNT" environ)
      ++ ":runtime/RUNTIME_ID" in
  match dict_get "AGENT_RUNTIME_ARN" environ with
  | Some s => if String.eqb s EmptyString then made else s
  | None => made
  end.

(** [session_id], from the text of [uuid.uuid4()]. *)
Definition session_id (uuid4 : string) : string :=
  uuid4 ++ "-demo-session".

(** The keyword arguments of [client.invoke_agent_runtime]; the payload is
    kept as the mapping that [json.dumps] encodes. *)
Record request : Type :=
  { agentRuntimeArn : string;
    runtimeSessionId : string;
    payload : dict pyval;
    qualifier : string }.

Definition invocation (environ : dict string) (uuid4 : string) : request :=
  {| agentRuntimeArn := runtime_arn environ;
     runtimeSessionId := session_id uuid4;
     payload :=
       [("query", PStr "What shipments are at risk of being delayed?")];
     qualifier := "DEFAULT" |}.

End InvokeAgent.

(** * The text of the queries, read as SQL *)

Module Sql.

(** ** Values and tables *)

(** A column value in the store: NULL, text, an integer, or a timestamp
    (microseconds since the epoch). *)
Inductive value : Type :=
| VNull
| VText (s : string)
| VInt (n : Z)
| VTimestamp (t : Z).

(** A value as the driver hands it over. *)
Definition of_sqlval (v : sqlval) : value :=
  match v with
  | SqlNull => VNull
  | SqlText s => VText s
  | SqlTimestamp t => VTimestamp t
  end.

Definition to_sqlval (v : value) : option sqlval :=
  match v with
  | VNull => Some SqlNull
  | VText s => Some (SqlText s)
  | VTimestamp t => Some (SqlTimestamp t)
  | VInt _ => None
  end.

(** A table or view: the names of its columns and its tuples, each with
    one value per column. *)
Record table : Type := {
  columns : list string;
  tuples : list (list value)
}.

(** ** The queries that are read

    [SELECT a.x [AS n], ... FROM t a {[LEFT] JOIN t a ON a.x = b.y}
     [WHERE a.x = b.y | :param | 'text']
     [ORDER BY a.x [ASC | DESC] [NULLS FIRST | NULLS LAST]]],
    with the key words in capitals and every column written with the alias
    of its table. *)

Record column_ref : Type := {
  qualifier : string;
  column : string
}.

Inductive operand : Type :=
| OColumn (c : column_ref)
| OParam (name : string)
| OText (s : string).

(** [left = right] *)
Record comparison : Type := {
  left_side : column_ref;
  right_side : operand
}.

Record join_clause : Type := {
  outer : bool;
  join_table : string;
  join_alias : string;
  on : comparison
}.

Record ordering : Type := {
  key : column_ref;
  descending : bool;
  nulls_last : bool
}.

Record query : Type := {
  select : list column_ref;
  from_table : string;
  from_alias : string;
  joins : list join_clause;
  where_ : option comparison;
  order_by : option ordering
}.

(** ** Reading the text *)

Inductive keyword : Type :=
| SELECT | FROM | JOIN | LEFT | ON | WHERE | ORDER | BY
| DESC | ASC | NULLS | LAST | FIRST | AS.

Inductive token : Type :=
| TKeyword (k : keyword)
| TName (s : string)
| TComma
| TEquals
| TParam (name : string)
| TText (s : string).

Definition keywords : list (string * keyword) :=
  [ ("SELECT", SELECT); ("FROM", FROM); ("JOIN", JOIN); ("LEFT", LEFT);
    ("ON", ON); ("WHERE", WHERE); ("ORDER", ORDER); ("BY", BY);
    ("DESC", DESC); ("ASC", ASC); ("NULLS", NULLS); ("LAST", LAST);
    ("FIRST", FIRST); ("AS", AS) ].

Definition word_token (w : string) : token :=
  match dict_get w keywords with
  | Some k => TKeyword k
  | None => TName w
  end.

Definition is_space (c : ascii) : bool :=
  let n := nat_of_ascii c in
  Nat.eqb n 32 || Nat.eqb n 10 || Nat.eqb n 9 || Nat.eqb n 13.

(** A character of a name: a letter, a digit, [_] or [.]. *)
Definition is_name_char (c : ascii) : bool :=
  let n := nat_of_ascii c in
  (Nat.leb 48 n && Nat.leb n 57) || (Nat.leb 65 n && Nat.leb n 90)
  || (Nat.leb 97 n && Nat.leb n 122) || Nat.eqb n 95 || Nat.eqb n 46.

(** Where the reader stands: between tokens, or inside a word, a parameter
    or a quoted text, with the characters read of it. *)
Inductive reading : Type :=
| Between
| InWord (w : string)
| InParam (p : string)
| InText (t : string).

Definition snoc (s : string) (c : ascii) : string :=
  s ++ String c EmptyString.

(** The token that ends when a space or a sign follows. *)
Definition finish (r : reading) : option (list token) :=
  match r with
  | Between => Some []
  | InWord w => Some [word_token w]
  | InParam EmptyString => None
  | InParam p => Some [TParam p]
  | InText _ => None
  end.

Definition then_ (first : option (list token)) (rest : option (list token))
    : option (list token) :=
  match first, rest with
  | Some a, Some b => Some (a ++ b)%list
  | _, _ => None
  end.

Fixpoint lex (s : string) (r : reading) : option (list token) :=
  match s with
  | EmptyString => finish r
  | String c s' =>
      match r with
      | InText t =>
          if Ascii.eqb c "'"%char then then_ (Some [TText t]) (lex s' Between)
          else lex s' (InText (snoc t c))
      | _ =>
          if is_space c then then_ (finish r) (lex s' Between)
          else if Ascii.eqb c ","%char then
            then_ (finish r) (then_ (Some [TComma]) (lex s' Between))
          else if Ascii.eqb c "="%char then
            then_ (finish r) (then_ (Some [TEquals]) (lex s' Between))
          else if Ascii.eqb c "'"%char then
            match r with
            | Between => lex s' (InText EmptyString)
            | _ => None
            end
          else if Ascii.eqb c ":"%char then
            match r with
            | Between => lex s' (InParam EmptyString)
            | _ => None
            end
          else if is_name_char c then
            match r with
            | Between => lex s' (InWord (String c EmptyString))
            | InWord w => lex s' (InWord (snoc w c))
            | InParam p => lex s' (InParam (snoc p c))
            | InText _ => None
            end
          else None
      end
  end.

(** [a.x] as a column of the table with alias [a]. *)
Fixpoint split_at_dot (s : string) (before : string)
    : option (string * string) :=
  match s with
  | EmptyString => None
  | String c s' =>
      if Ascii.eqb c "."%char then Some (before, s')
      else split_at_dot s' (snoc before c)
  end.

Definition column_of (w : string) : option column_ref :=
  match split_at_dot w EmptyString with
  | Some (a, x) =>
      match a, x, split_at_dot x EmptyString with
      | String _ _, String _ _, None =>
          Some {| qualifier := a; column := x |}
      | _, _, _ => None
      end
  | None => None
  end.

Definition operand_of (t : token) : option operand :=
  match t with
  | TName w => option_map OColumn (column_of w)
  | TParam p => Some (OParam p)
  | TText s => Some (OText s)
  | _ => None
  end.

Definition comparison_of (l : string) (r : token) : option comparison :=
  match column_of l, operand_of r with
  | Some c, Some o => Some {| left_side := c; right_side := o |}
  | _, _ => None
  end.

(** The SELECT list, up to FROM. *)
Fixpoint parse_columns (ts : list token)
    : option (list column_ref * list token) :=
  match ts with
  | TName w :: rest =>
      match column_of w with
      | None => None
      | Some c =>
          match rest with
          | TComma :: rest' =>
              match parse_columns rest' with
              | Some (cs, after) => Some (c :: cs, after)
              | None => None
              end
          | TKeyword AS :: TName _ :: TComma :: rest' =>
              match parse_columns rest' with
              | Some (cs, after) => Some (c :: cs, after)
              | None => None
              end
          | TKeyword AS :: TName _ :: rest' => Some ([c], rest')
          | _ => Some ([c], rest)
          end
      end
  | _ => None
  end.

Fixpoint parse_joins (ts : list token)
    : option (list join_clause * list token) :=
  match ts with
  | TKeyword JOIN :: TName t :: TName a :: TKeyword ON
      :: TName l :: TEquals :: r :: rest =>
      match comparison_of l r, parse_joins rest with
      | Some cmp, Some (js, after) =>
          Some ({| outer := false; join_table := t; join_alias := a;
                   on := cmp |} :: js, after)
      | _, _ => None
      end
  | TKeyword LEFT :: TKeyword JOIN :: TName t :: TName a :: TKeyword ON
      :: TName l :: TEquals :: r :: rest =>
      match comparison_of l r, parse_joins rest with
      | Some cmp, Some (js, after) =>
          Some ({| outer := true; join_table := t; join_alias := a;
                   on := cmp |} :: js, after)
      | _, _ => None
      end
  | _ => Some ([], ts)
  end.

Definition parse_where (ts : list token)
    : option (option comparison * list token) :=
  match ts with
  | TKeyword WHERE :: TName l :: TEquals :: r :: rest =>
      match comparison_of l r with
      | Some cmp => Some (Some cmp, rest)
      | None => None
      end
  | TKeyword WHERE :: _ => None
  | _ => Some (None, ts)
  end.

(** The end of the text: ORDER BY, or nothing. Without [DESC] the order is
    ascending; without [NULLS ...] the NULLs come last in ascending and
    first in descending order. *)
Definition parse_order (ts : list token) : option (option ordering) :=
  match ts with
  | [] => Some None
  | TKeyword ORDER :: TKeyword BY :: TName w :: rest =>
      match column_of w with
      | None => None
      | Some c =>
          let made d n :=
            Some (Some {| key := c; descending := d; nulls_last := n |}) in
          match rest with
          | [] => made false true
          | [TKeyword ASC] => made false true
          | [TKeyword DESC] => made true false
          | [TKeyword NULLS; TKeyword LAST] => made false true
          | [TKeyword NULLS; TKeyword FIRST] => made false false
          | [TKeyword ASC; TKeyword NULLS; TKeyword LAST] => made false true
          | [TKeyword ASC; TKeyword NULLS; TKeyword FIRST] => made false false
          | [TKeyword DESC; TKeyword NULLS; TKeyword LAST] => made true true
          | [TKeyword DESC; TKeyword NULLS; TKeyword FIRST] => made true false
          | _ => None
          end
      end
  | _ => None
  end.

Definition parse_tokens (ts : list token) : option query :=
  match ts with
  | TKeyword SELECT :: rest =>
      match parse_columns rest with
      | Some (cols, TKeyword FROM :: TName t :: TName a :: rest1) =>
          match parse_joins rest1 with
          | Some (js, rest2) =>
              match parse_where rest2 with
              | Some (w, rest3) =>
                  match parse_order rest3 with
                  | Some o =>
                      Some {| select := cols; from_table := t;
                              from_alias := a; joins := js; where_ := w;
                              order_by := o |}
                  | None => None
                  end
              | None => None
              end
          | None => None
          end
      | _ => None
      end
  | _ => None
  end.

Definition parse (text : string) : option query :=
  match lex text Between with
  | Some ts => parse_tokens ts
  | None => None
  end.

(** ** What a query yields *)

(** A tuple of a table under its alias; [None] stands for the NULLs that a
    LEFT JOIN supplies when no tuple matches. *)
Record binding : Type := {
  b_alias : string;
  b_columns : list string;
  b_tuple : option (list value)
}.

Definition env : Type := list binding.

Fixpoint find_binding (a : string) (e : env) : option binding :=
  match e with
  | [] => None
  | b :: e' => if String.eqb a (b_alias b) then Some b else find_binding a e'
  end.

Fixpoint index_of (x : string) (cols : list string) : option nat :=
  match cols with
  | [] => None
  | y :: cols' =>
      if String.eqb x y then Some O else option_map S (index_of x cols')
  end.

Definition column_value (c : column_ref) (e : env) : option value :=
  match find_binding (qualifier c) e with
  | None => None
  | Some b =>
      match index_of (column c) (b_columns b) with
      | None => None
      | Some i =>
          Some (match b_tuple b with
                | Some t => nth i t VNull
                | None => VNull
                end)
      end
  end.

(** A parameter is bound to the text passed under its name. *)
Definition operand_value (params : list (string * string)) (o : operand)
    (e : env) : option value :=
  match o with
  | OColumn c => column_value c e
  | OParam name => option_map VText (dict_get name params)
  | OText s => Some (VText s)
  end.

(** [a = b] is true: both are not NULL and equal. (Values of different
    types are not compared by the queries read here.) *)
Definition value_eqb (a b : value) : bool :=
  match a, b with
  | VText x, VText y => String.eqb x y
  | VInt x, VInt y => Z.eqb x y
  | VTimestamp x, VTimestamp y => Z.eqb x y
  | _, _ => false
  end.

Definition holds (params : list (string * string)) (cmp : comparison)
    (e : env) : bool :=
  match column_value (left_side cmp) e,
        operand_value params (right_side cmp) e with
  | Some a, Some b => value_eqb a b
  | _, _ => false
  end.

Definition bind_tuple (alias : string) (t : table) (tu : option (list value))
    : binding :=
  {| b_alias := alias; b_columns := columns t; b_tuple := tu |}.

(** One row of the left side joined with the table [t]. *)
Definition join_one (params : list (string * string)) (j : join_clause)
    (t : table) (e : env) : list env :=
  match filter (holds params (on j))
               (map (fun tu => (e ++ [bind_tuple (join_alias j) t (Some tu)])
                               %list)
                    (tuples t)) with
  | [] => if outer j then [(e ++ [bind_tuple (join_alias j) t None])%list]
          else []
  | matches => matches
  end.

Fixpoint join_all (tables : dict table) (params : list (string * string))
    (js : list join_clause) (envs : list env) : option (list env) :=
  match js with
  | [] => Some envs
  | j :: js' =>
      match dict_get (join_table j) tables with
      | None => None
      | Some t =>
          join_all tables params js' (flat_map (join_one params j t) envs)
      end
  end.

(** The joined rows that pass the WHERE clause, before they are ordered;
    [None] when a table is not there. *)
Definition candidates (tables : dict table) (params : list (string * string))
    (q : query) : option (list env) :=
  match dict_get (from_table q) tables with
  | None => None
  | Some t =>
      match join_all tables params (joins q)
              (map (fun tu => [bind_tuple (from_alias q) t (Some tu)])
                   (tuples t)) with
      | None => None
      | Some envs =>
          Some (match where_ q with
                | Some cmp => filter (holds params cmp) envs
                | None => envs
                end)
      end
  end.

(** The names in scope: every alias with the columns of its table. *)
Definition scope : Type := list (string * list string).

Definition column_known (sc : scope) (c : column_ref) : bool :=
  match dict_get (qualifier c) sc with
  | Some cols => existsb (String.eqb (column c)) cols
  | None => false
  end.

Definition operand_known (sc : scope) (params : list (string * string))
    (o : operand) : bool :=
  match o with
  | OColumn c => column_known sc c
  | OParam name => dict_contains name params
  | OText _ => true
  end.

Definition comparison_known (sc : scope) (params : list (string * string))
    (cmp : comparison) : bool :=
  column_known sc (left_side cmp)
  && operand_known sc params (right_side cmp).

(** The tables of the joins are there, no alias is used twice, and each ON
    clause names columns of the tables joined so far. *)
Fixpoint joins_known (tables : dict table) (params : list (string * string))
    (js : list join_clause) (sc : scope) : option scope :=
  match js with
  | [] => Some sc
  | j :: js' =>
      match dict_get (join_table j) tables with
      | None => None
      | Some t =>
          let sc' := (sc ++ [(join_alias j, columns t)])%list in
          if negb (dict_contains (join_alias j) sc)
             && comparison_known sc' params (on j)
          then joins_known tables params js' sc'
          else None
      end
  end.

(** The store accepts the query: every table, column and parameter it
    names is there. *)
Definition accepted (tables : dict table) (params : list (string * string))
    (q : query) : bool :=
  match dict_get (from_table q) tables with
  | None => false
  | Some t =>
      match joins_known tables params (joins q)
              [(from_alias q, columns t)] with
      | None => false
      | Some sc =>
          forallb (column_known sc) (select q)
          && match where_ q with
             | Some cmp => comparison_known sc params cmp
             | None => true
             end
          && match order_by q with
             | Some o => column_known sc (key o)
             | None => true
             end
      end
  end.

Definition value_or_null (o : option value) : value :=
  match o with
  | Some v => v
  | None => VNull
  end.

(** The SELECT list of one row. *)
Definition project (cols : list column_ref) (e : env) : list value :=
  map (fun c => value_or_null (column_value c e)) cols.

(** Where a value stands under the ordering: the NULLs before or after
    all other values; integers and timestamps by their number, upwards or
    downwards. Texts are all given the same place: their order is the
    collation's and is left open. *)
Definition place (o : ordering) (v : value) : Z * Z :=
  let by_number n := (1, if descending o then (- n) else n)%Z in
  match v with
  | VNull => (if nulls_last o then 2 else 0, 0)%Z
  | VInt n => by_number n
  | VTimestamp t => by_number t
  | VText _ => (1, 0)%Z
  end.

(** [a] may stand before [b]. *)
Definition may_precede (o : ordering) (a b : value) : bool :=
  let pa := place o a in
  let pb := place o b in
  Z.ltb (fst pa) (fst pb)
  || (Z.eqb (fst pa) (fst pb) && Z.leb (snd pa) (snd pb)).

Definition row_may_precede (o : ordering) (e1 e2 : env) : bool :=
  may_precede o (value_or_null (column_value (key o) e1))
                (value_or_null (column_value (key o) e2)).

Definition in_order (o : option ordering) (envs : list env) : Prop :=
  match o with
  | Some ord =>
      StronglySorted (fun e1 e2 => row_may_precede ord e1 e2 = true) envs
  | None => True
  end.

(** [rows] is a result of the query on the tables: the store accepts it,
    and the rows are the SELECT lists of the joined rows that pass the
    WHERE clause, each once, in an order that the ORDER BY clause allows
    (any order when there is none, and any order among rows that the
    clause does not tell apart). *)
Definition result (tables : dict table) (params : list (string * string))
    (q : query) (rows : list (list value)) : Prop :=
  accepted tables params q = true /\
  exists envs sorted,
    candidates tables params q = Some envs /\
    Permutation sorted envs /\
    in_order (order_by q) sorted /\
    rows = map (project (select q)) sorted.

(** One result, computed: the joined rows in the order of the tables,
    sorted by insertion when there is an ORDER BY clause. *)
Fixpoint insert_row (o : ordering) (e : env) (l : list env) : list env :=
  match l with
  | [] => [e]
  | x :: l' =>
      if row_may_precede o e x then e :: x :: l'
      else x :: insert_row o e l'
  end.

Fixpoint sort_rows (o : ordering) (l : list env) : list env :=
  match l with
  | [] => []
  | e :: l' => insert_row o e (sort_rows o l')
  end.

Fixpoint all_some {A} (l : list (option A)) : option (list A) :=
  match l with
  | [] => Some []
  | Some x :: l' => option_map (cons x) (all_some l')
  | None :: _ => None
  end.

Definition to_row (vs : list value) : option row :=
  all_some (map to_sqlval vs).

Definition execute (tables : dict table) (text : string)
    (params : list (string * string)) : res (list row) :=
  match parse text with
  | None => Raise (Exn "DatabaseError" "syntax error")
  | Some q =>
      if accepted tables params q then
        match candidates tables params q with
        | None => Raise (Exn "DatabaseError" "relation does not exist")
        | Some envs =>
            let sorted :=
              match order_by q with
              | Some o => sort_rows o envs
              | None => envs
              end in
            match all_some (map (fun e => to_row (project (select q) e))
                                sorted) with
            | Some rows => Ok rows
            | None => Raise (Exn "NotSupportedError" "integer column")
            end
        end
      else Raise (Exn "DatabaseError" "undefined name")
  end.

End Sql.

(** ** The store of the database variant as tables *)

Module Store.

Definition text_value (o : option string) : Sql.value :=
  match o with Some s => Sql.VText s | None => Sql.VNull end.

Definition int_value (o : option Z) : Sql.value :=
  match o with Some n => Sql.VInt n | None => Sql.VNull end.

Definition timestamp_value (o : option Z) : Sql.value :=
  match o with Some t => Sql.VTimestamp t | None => Sql.VNull end.

Definition shipment_tuple (s : Persisted.shipment) : list Sql.value :=
  [ int_value (Persisted.s_shipment_id s);
    text_value (Persisted.s_reference_no s);
    text_value (Persisted.s_status s) ].

Definition latest_event_tuple (le : Persisted.latest_event)
    : list Sql.value :=
  [ int_value (Persisted.le_shipment_id le);
    text_value (Persisted.le_event le);
    int_value (Persisted.le_location_id le);
    timestamp_value (Persisted.le_occurred_at le);
    text_value (Persisted.le_details le) ].

Definition location_tuple (loc : Persisted.location) : list Sql.value :=
  [ int_value (Persisted.loc_location_id loc);
    text_value (Persisted.loc_name loc);
    text_value (Persisted.loc_unlocode loc) ].

Definition eta_risk_tuple (r : Persisted.eta_risk) : list Sql.value :=
  [ text_value (Persisted.r_reference_no r);
    timestamp_value (Persisted.r_eta r);
    timestamp_value (Persisted.r_eta_final r);
    text_value (Persisted.r_eta_status r) ].

Definition shipments_table (db : Persisted.database) : Sql.table :=
  {| Sql.columns := ["shipment_id"; "reference_no"; "status"];
     Sql.tuples := map shipment_tuple (Persisted.shipments db) |}.

Definition latest_event_table (db : Persisted.database) : Sql.table :=
  {| Sql.columns :=
       ["shipment_id"; "event"; "location_id"; "occurred_at"; "details"];
     Sql.tuples :=
       map latest_event_tuple (Persisted.v_shipment_latest_event db) |}.

Definition locations_table (db : Persisted.database) : Sql.table :=
  {| Sql.columns := ["location_id"; "name"; "unlocode"];
     Sql.tuples := map location_tuple (Persisted.locations db) |}.

Definition eta_risk_table (db : Persisted.database) : Sql.table :=
  {| Sql.columns := ["reference_no"; "eta"; "eta_final"; "eta_status"];
     Sql.tuples := map eta_risk_tuple (Persisted.mv_eta_risk db) |}.

(** The tables and views of the schema [logistics] that the queries name,
    with the columns they name. *)
Definition tables_of (db : Persisted.database) : dict Sql.table :=
  [ ("logistics.shipments", shipments_table db);
    ("logistics.v_shipment_latest_event", latest_event_table db);
    ("logistics.locations", locations_table db);
    ("logistics.mv_eta_risk", eta_risk_table db) ].

(** [reference_no] is in the directory: there is a shipment with that
    reference, and a latest event of that shipment. *)
Definition known (db : Persisted.database) (reference_no : string) : Prop :=
  exists s le,
    In s (Persisted.shipments db) /\
    In le (Persisted.v_shipment_latest_event db) /\
    Persisted.s_reference_no s = Some reference_no /\
    Persisted.sql_eq_Z (Persisted.le_shipment_id le)
      (Persisted.s_shipment_id s) = true.

(** A tuple of the risk view as a row of the risk query, and a joined
    record as a row of the status query. *)
Definition risk_env (r : Persisted.eta_risk) : Sql.env :=
  [ {| Sql.b_alias := "r";
       Sql.b_columns := ["reference_no"; "eta"; "eta_final"; "eta_status"];
       Sql.b_tuple := Some (eta_risk_tuple r) |} ].

Definition joined_env
    (j : Persisted.shipment * Persisted.latest_event
         * option Persisted.location) : Sql.env :=
  match j with
  | (s, le, loc) =>
      [ {| Sql.b_alias := "s";
           Sql.b_columns := ["shipment_id"; "reference_no"; "status"];
           Sql.b_tuple := Some (shipment_tuple s) |};
        {| Sql.b_alias := "le";
           Sql.b_columns :=
             ["shipment_id"; "event"; "location_id"; "occurred_at";
              "details"];
           Sql.b_tuple := Some (latest_event_tuple le) |};
        {| Sql.b_alias := "loc";
           Sql.b_columns := ["location_id"; "name"; "unlocode"];
           Sql.b_tuple := option_map location_tuple loc |} ]
  end.

Section Speaks.
Context `{X : Externals}.

(** The store behind the connection [c], in the state [w] of the services,
    holds [db] and answers in SQL: whatever text is run on [c], when it is
    a query that can be read here and rows come back, the rows are a result
    of that query on [db]. *)
Definition speaks_sql (c : conn) (w : ext) (db : Persisted.database)
    : Prop :=
  forall text params q w' rows,
    Sql.parse text = Some q ->
    conn_run c text params w = (w', Ok rows) ->
    Sql.result (tables_of db) params q (map (map Sql.of_sqlval) rows).

End Speaks.

End Store.

Module SqlSamples.

(** The small instance with a store that runs the text it is sent on the
    tables of [Demo.db]. *)
#[local] Instance sql_store : Externals := {|
  ext := Demo.services;
  conn := nat;
  model := unit;
  agent := unit;
  ssm_get_parameters := @ssm_get_parameters Demo.externals;
  secrets_get_secret_value := @secrets_get_secret_value Demo.externals;
  json_loads := @json_loads Demo.externals;
  pg8000_Connection := @pg8000_Connection Demo.externals;
  conn_run := fun _ text params w =>
    (w, if Demo.queries_up w
        then Sql.execute (Store.tables_of Demo.db) text params
        else Raise (Demo.unreachable "database"));
  datetime_str := @datetime_str Demo.externals;
  datetime_isoformat := @datetime_isoformat Demo.externals;
  OpenAIModel := @OpenAIModel Demo.externals;
  Agent := @Agent Demo.externals;
  agent_call := @agent_call Demo.externals
|}.

Definition sql_fresh (w : Demo.services)
    : @Runtime sql_store (@Persisted.Globals sql_store) :=
  {| globals := Persisted.initial_globals; world := w; trace := [] |}.

End SqlSamples.

(** * Properties *)

(** ** The model on small inputs *)

Example json_dumps_empty_list : json_dumps (JArr []) = "[]".
Proof. reflexivity. Qed.

Example json_dumps_list :
  json_dumps (JArr [JStr "a"; JNull])
  = "[" ++ newline ++ "  " ++ dquote ++ "a" ++ dquote ++ "," ++ newline
        ++ "  null" ++ newline ++ "]".
Proof. reflexivity. Qed.

Example json_dumps_nested :
  json_dumps (json_of_dicts [[("a", "b")]])
  = "[" ++ newline ++ "  {" ++ newline
        ++ "    " ++ dquote ++ "a" ++ dquote ++ ": " ++ dquote ++ "b" ++ dquote
        ++ newline ++ "  }" ++ newline ++ "]".
Proof. reflexivity. Qed.

Example escape_chars_sample :
  escape_chars ("b\c" ++ newline ++ String "127"%char (String "233"%char
                                                       EmptyString))
  = "b\\c\n\u007f\u00e9".
Proof. reflexivity. Qed.

Example usage_hint_length : String.length USAGE_HINT = 69.
Proof. reflexivity. Qed.

Example dict_of_pairs_last_wins :
  dict_get "k" (dict_of_pairs [("k", 1); ("j", 2); ("k", 3)]) = Some 3.
Proof. reflexivity. Qed.

Example truthy_samples :
  map truthy [PNone; PStr EmptyString; PStr "x"; PInt 0; PList []; PDict []]
  = [false; false; true; false; false; false].
Proof. reflexivity. Qed.

Example risk_query_on_sample :
  map Persisted.r_reference_no (Persisted.risk_query_entries Demo.db)
  = [Some "ACME-REF-1004"; Some "ACME-REF-1002"; Some "ACME-REF-1003"].
Proof. reflexivity. Qed.

Example status_query_on_sample :
  Persisted.status_query_rows Demo.db "ACME-REF-1002"
  = [ [ SqlText "ACME-REF-1002"; SqlText "AT_RISK"; SqlText "DELAYED";
        SqlNull; SqlNull; SqlTimestamp 1700000500000000; SqlText "Weather" ] ].
Proof. reflexivity. Qed.

(** ** Strings and the encoder *)

Lemma startswith_app (p s : string) : startswith p (p ++ s) = true.
Proof.
  induction p as [|a p IH]; simpl.
  - reflexivity.
  - rewrite Ascii.eqb_refl, IH. reflexivity.
Qed.

Lemma contains_startswith (p s : string) :
  startswith p s = true -> contains p s = true.
Proof.
  intros H. destruct s; simpl in *; rewrite H; reflexivity.
Qed.

(** An encoded dict opens with a brace, an encoded list with a bracket. *)
Lemma json_dumps_dict_head (d : dict string) :
  exists tail, json_dumps (json_of_dict d) = String "{"%char tail.
Proof.
  destruct d as [|kv d]; simpl; eexists; reflexivity.
Qed.

Lemma json_dumps_dicts_head (l : list (dict string)) :
  exists tail, json_dumps (json_of_dicts l) = String "["%char tail.
Proof.
  destruct l as [|d l]; simpl; eexists; reflexivity.
Qed.

(** ** Dictionaries *)

Lemma dict_contains_getitem {V} (d : dict V) (k : string) :
  dict_contains k d = true -> exists v, dict_get k d = Some v.
Proof.
  unfold dict_contains. destruct (dict_get k d) as [v|]; intros H.
  - exists v. reflexivity.
  - discriminate.
Qed.

(** ** The monad *)

(** A [try] whose handler always returns a value returns a value. *)
Lemma try_except_total `{X : Externals} {G A : Type} (c : M G A)
    (h : exn -> M G A) (st : Runtime G) :
  (forall e st0, exists st' a, h e st0 = (st', Ok a)) ->
  exists st' a, try_except c h st = (st', Ok a).
Proof.
  intros Hh. unfold try_except.
  destruct (c st) as [st1 [a|e]].
  - exists st1, a. reflexivity.
  - apply Hh.
Qed.

(** ** The in-memory variant *)

Section MockProperties.
Context `{X : Externals}.

(** The lookup never raises: a key that is in the dict can be read. *)
Lemma mock_status_body_cases (shipments : dict (dict string))
    (reference_no : string) :
  (dict_get reference_no shipments = None /\
   Mock.get_shipment_status_body shipments reference_no
     = Ok ("Shipment " ++ reference_no ++ " not found")) \/
  (exists shipment,
      dict_get reference_no shipments = Some shipment /\
      Mock.get_shipment_status_body shipments reference_no
        = Ok (json_dumps (json_of_dict shipment))).
Proof.
  unfold Mock.get_shipment_status_body, dict_contains, dict_getitem.
  destruct (dict_get reference_no shipments) as [shipment|].
  - right. exists shipment. split; reflexivity.
  - left. split; reflexivity.
Qed.

(** A tool whose body does not raise returns the body's text and leaves the
    runtime as it was: nothing is logged. *)
Lemma mock_status_of_body shipments reference_no s
    (st : Runtime Mock.Globals) :
  Mock.get_shipment_status_body shipments reference_no = Ok s ->
  Mock.get_shipment_status shipments reference_no st = (st, Ok s).
Proof.
  intros H. unfold Mock.get_shipment_status, try_except, lift.
  rewrite H. reflexivity.
Qed.

Lemma mock_delayed_of_body shipments s (st : Runtime Mock.Globals) :
  Mock.find_delayed_shipments_body shipments = Ok s ->
  Mock.find_delayed_shipments shipments st = (st, Ok s).
Proof.
  intros H. unfold Mock.find_delayed_shipments, try_except, lift.
  rewrite H. reflexivity.
Qed.

(** The loop keeps what it had and appends, in order, one entry for each
    item whose status is AT_RISK; the entries carry that status and no ETA. *)
Lemma collect_delayed_spec (items : list (string * dict string)) :
  forall acc delayed,
    Mock.collect_delayed items acc = Ok delayed ->
    exists added,
      delayed = (acc ++ added)%list /\
      map (dict_get "reference_no") added
        = map (fun kv => Some (fst kv)) (filter Mock.at_risk_item items) /\
      Forall (fun d => dict_get "status" d = Some "AT_RISK"
                       /\ dict_get "eta" d = None) added.
Proof.
  induction items as [|[ref_no shipment] rest IH]; intros acc delayed H.
  - simpl in H. injection H as <-. exists []. rewrite app_nil_r.
    repeat split; constructor.
  - simpl in H. unfold Mock.at_risk_item at 1. simpl.
    destruct (opt_str_eqb (dict_get "status" shipment) "AT_RISK") eqn:Hs.
    + unfold dict_getitem in H.
      destruct (dict_get "status" shipment) as [status|] eqn:E1;
        [|discriminate].
      simpl in Hs. apply String.eqb_eq in Hs. subst status.
      destruct (dict_get "current_location" shipment); [|discriminate].
      destruct (dict_get "event" shipment); [|discriminate].
      destruct (dict_get "occurred_at" shipment); [|discriminate].
      destruct (dict_get "details" shipment); [|discriminate].
      simpl in H. apply IH in H. destruct H as (added & -> & Hrefs & Hall).
      eexists (_ :: added). rewrite <- app_assoc. simpl.
      split; [reflexivity|]. split.
      * simpl. rewrite Hrefs. reflexivity.
      * constructor; [split; reflexivity | exact Hall].
    + apply IH in H. destruct H as (added & -> & Hrefs & Hall).
      exists added. auto.
Qed.

(** Without a qualifying item the loop cannot raise and adds nothing. *)
Lemma collect_delayed_none (items : list (string * dict string)) :
  forall acc,
    filter Mock.at_risk_item items = [] ->
    Mock.collect_delayed items acc = Ok acc.
Proof.
  induction items as [|[ref_no shipment] rest IH]; intros acc H.
  - reflexivity.
  - simpl in *. unfold Mock.at_risk_item at 1 in H. simpl in H.
    destruct (opt_str_eqb (dict_get "status" shipment) "AT_RISK").
    + discriminate.
    + apply IH. exact H.
Qed.

(** C1: on the fixture, [find_delayed_shipments] returns the encoded list of
    exactly the entries whose status is AT_RISK: the one entry of
    SHIP-REF-1003 (with the six fields the tool copies), whatever the clock
    read when the module loaded; no entry of another status is in it. *)
Theorem mock_find_delayed_exactly_at_risk (now1 now2 now3 : Z)
    (st : Runtime Mock.Globals) :
  let shipments := Mock.MOCK_SHIPMENTS now1 now2 now3 in
  exists delayed,
    Mock.find_delayed_shipments shipments st
      = (st, Ok (json_dumps (json_of_dicts delayed))) /\
    delayed = [ [ ("reference_no", "SHIP-REF-1003");
                  ("status", "AT_RISK");
                  ("current_location", "Port of Singapore");
                  ("event", "DELAYED");
                  ("occurred_at", datetime_isoformat (now3 - Mock.hours 12));
                  ("details", "Vessel delayed due to weather conditions") ] ]
    /\
    map (dict_get "reference_no") delayed
      = map (fun kv => Some (fst kv)) (filter Mock.at_risk_item shipments) /\
    Forall (fun d => dict_get "status" d = Some "AT_RISK") delayed /\
    (forall ref_no shipment,
        In (ref_no, shipment) shipments ->
        dict_get "status" shipment <> Some "AT_RISK" ->
        ~ In (Some ref_no) (map (dict_get "reference_no") delayed)).
Proof.
  intros shipments. eexists. split; [reflexivity|].
  split; [reflexivity|]. split; [reflexivity|]. split.
  - repeat constructor.
  - intros ref_no shipment Hin Hst [Heq|[]].
    simpl in Heq. injection Heq as <-.
    destruct Hin as [H|[H|[H|[]]]]; try discriminate H.
    injection H as <-. apply Hst. reflexivity.
Qed.

(** C10: on the fixture, for every string, the bodies of the two tools do
    not raise, so the tools return the body's text with nothing logged, and
    that text is not one of the error strings of the [except] branches. *)
Theorem mock_tools_never_fail (now1 now2 now3 : Z) (reference_no : string)
    (st : Runtime Mock.Globals) :
  let shipments := Mock.MOCK_SHIPMENTS now1 now2 now3 in
  exists s d,
    Mock.get_shipment_status_body shipments reference_no = Ok s /\
    Mock.find_delayed_shipments_body shipments = Ok d /\
    Mock.get_shipment_status shipments reference_no st = (st, Ok s) /\
    Mock.find_delayed_shipments shipments st = (st, Ok d) /\
    startswith "Error retrieving shipment status" s = false /\
    startswith "Error finding delayed shipments" d = false.
Proof.
  intros shipments.
  assert (Hs : exists s,
             Mock.get_shipment_status_body shipments reference_no = Ok s /\
             startswith "Error retrieving shipment status" s = false).
  { destruct (mock_status_body_cases shipments reference_no)
      as [[_ H]|(shipment & _ & H)]; rewrite H; eexists;
      (split; [reflexivity|]).
    - reflexivity.
    - destruct (json_dumps_dict_head shipment) as [tail ->]. reflexivity. }
  destruct Hs as (s & Hs & Hno).
  exists s. eexists.
  split; [exact Hs|]. split; [reflexivity|].
  split; [apply mock_status_of_body; exact Hs|].
  split; [reflexivity|]. split; [exact Hno | reflexivity].
Qed.

End MockProperties.

(** ** The two queries *)

Lemma filter_existsb_true {A} (f : A -> bool) (l : list A) :
  existsb f l = true -> exists a rest, filter f l = a :: rest.
Proof.
  induction l as [|a l IH]; simpl; intros H.
  - discriminate.
  - destruct (f a).
    + eauto.
    + apply IH. exact H.
Qed.

Lemma filter_existsb_false {A} (f : A -> bool) (l : list A) :
  existsb f l = false -> filter f l = [].
Proof.
  induction l as [|a l IH]; simpl; intros H.
  - reflexivity.
  - destruct (f a).
    + discriminate.
    + apply IH. exact H.
Qed.

(** Every row of the status query is the projection of a joined record and
    has the reference asked for in its first column. *)
Lemma status_rows_reference (db : Persisted.database) (reference_no : string)
    (r : row) :
  In r (Persisted.status_query_rows db reference_no) ->
  nth_error r 0 = Some (SqlText reference_no) /\
  In r (map Persisted.select_status (Persisted.joined db)).
Proof.
  unfold Persisted.status_query_rows. intros H.
  apply in_map_iff in H. destruct H as (j & <- & Hj).
  apply filter_In in Hj. destruct Hj as [Hin Hw].
  split; [|apply in_map; exact Hin].
  destruct j as [[s le] loc]. simpl in Hw. unfold Persisted.sql_eq_text in Hw.
  destruct (Persisted.s_reference_no s) as [x|] eqn:E; [|discriminate].
  apply String.eqb_eq in Hw. subst x. simpl. rewrite E. reflexivity.
Qed.

Lemma present_rows (db : Persisted.database) (reference_no : string) :
  Ops.present db reference_no = true ->
  exists r rest, Persisted.status_query_rows db reference_no = r :: rest.
Proof.
  unfold Ops.present, Persisted.status_query_rows. intros H.
  apply filter_existsb_true in H. destruct H as (j & rest & ->).
  simpl. eauto.
Qed.

Lemma absent_rows (db : Persisted.database) (reference_no : string) :
  Ops.present db reference_no = false ->
  Persisted.status_query_rows db reference_no = [].
Proof.
  unfold Ops.present, Persisted.status_query_rows. intros H.
  rewrite (filter_existsb_false _ _ H). reflexivity.
Qed.

Lemma eta_before_total r1 r2 :
  Persisted.eta_desc_nulls_last r1 r2 = false -> Persisted.eta_before r2 r1.
Proof.
  unfold Persisted.eta_before, Persisted.eta_desc_nulls_last.
  destruct (Persisted.r_eta r1), (Persisted.r_eta r2); intros H;
    try discriminate; try reflexivity.
  apply Z.leb_gt in H. apply Z.leb_le. lia.
Qed.

Lemma eta_before_trans : Relations_1.Transitive Persisted.eta_before.
Proof.
  intros r1 r2 r3. unfold Persisted.eta_before, Persisted.eta_desc_nulls_last.
  destruct (Persisted.r_eta r1), (Persisted.r_eta r2), (Persisted.r_eta r3);
    intros H1 H2; try discriminate; try reflexivity.
  apply Z.leb_le in H1, H2. apply Z.leb_le. lia.
Qed.

Lemma insert_by_eta_perm r l :
  Permutation (r :: l) (Persisted.insert_by_eta r l).
Proof.
  induction l as [|x l IH]; simpl.
  - apply Permutation_refl.
  - destruct (Persisted.eta_desc_nulls_last r x).
    + apply Permutation_refl.
    + eapply perm_trans; [apply perm_swap|].
      apply perm_skip. exact IH.
Qed.

Lemma order_by_eta_perm l : Permutation (Persisted.order_by_eta l) l.
Proof.
  induction l as [|r l IH]; simpl.
  - constructor.
  - eapply perm_trans; [apply Permutation_sym, insert_by_eta_perm|].
    apply perm_skip. exact IH.
Qed.

Lemma insert_by_eta_hdrel a r l :
  Persisted.eta_before a r -> HdRel Persisted.eta_before a l ->
  HdRel Persisted.eta_before a (Persisted.insert_by_eta r l).
Proof.
  intros Har Hal. destruct l as [|x l]; simpl.
  - constructor. exact Har.
  - destruct (Persisted.eta_desc_nulls_last r x); constructor.
    + exact Har.
    + inversion Hal. assumption.
Qed.

Lemma insert_by_eta_sorted r l :
  Sorted Persisted.eta_before l ->
  Sorted Persisted.eta_before (Persisted.insert_by_eta r l).
Proof.
  induction l as [|x l IH]; simpl; intros Hs.
  - constructor; constructor.
  - destruct (Persisted.eta_desc_nulls_last r x) eqn:E.
    + constructor; [exact Hs|]. constructor. exact E.
    + inversion Hs as [|? ? Hs' Hhd]; subst.
      constructor; [apply IH; exact Hs'|].
      apply insert_by_eta_hdrel; [apply eta_before_total; exact E | exact Hhd].
Qed.

Lemma order_by_eta_sorted l :
  StronglySorted Persisted.eta_before (Persisted.order_by_eta l).
Proof.
  apply Sorted_StronglySorted; [exact eta_before_trans|].
  induction l as [|r l IH]; simpl.
  - constructor.
  - apply insert_by_eta_sorted. exact IH.
Qed.

(** In a sorted list an earlier element stands before a later one. *)
Lemma strongly_sorted_nth {A} (R : A -> A -> Prop) (l : list A) :
  StronglySorted R l ->
  forall i j a b,
    (i < j)%nat -> nth_error l i = Some a -> nth_error l j = Some b ->
    R a b.
Proof.
  induction 1 as [|x l Hs IH Hall]; intros i j a b Hij Hi Hj.
  - destruct i; discriminate.
  - destruct j as [|j]; [lia|]. simpl in Hj.
    destruct i as [|i]; simpl in Hi.
    + injection Hi as <-. rewrite Forall_forall in Hall.
      apply Hall. eapply nth_error_In. exact Hj.
    + apply (IH i j); [lia | exact Hi | exact Hj].
Qed.

(** ** The queries read as SQL *)

Lemma of_sqlval_injective (a b : sqlval) :
  Sql.of_sqlval a = Sql.of_sqlval b -> a = b.
Proof. destruct a, b; simpl; congruence. Qed.

Lemma rows_of_values (rows rows' : list row) :
  map (map Sql.of_sqlval) rows = map (map Sql.of_sqlval) rows' ->
  rows = rows'.
Proof.
  revert rows'. induction rows as [|r rows IH]; intros [|r' rows'] H;
    try discriminate; [reflexivity|].
  simpl in H. injection H as Hr Hrows. f_equal; [|apply IH; exact Hrows].
  clear - Hr. revert r' Hr.
  induction r as [|v r IHr]; intros [|v' r'] Hr; try discriminate;
    [reflexivity|].
  simpl in Hr. injection Hr as Hv Hr.
  f_equal; [apply of_sqlval_injective; exact Hv | apply IHr; exact Hr].
Qed.

Lemma to_sqlval_of (v : Sql.value) (x : sqlval) :
  Sql.to_sqlval v = Some x -> Sql.of_sqlval x = v.
Proof. destruct v; simpl; intros H; inversion H; reflexivity. Qed.

Lemma all_some_map {A B} (f : A -> option B) (g : B -> A) (l : list A)
    (out : list B) :
  (forall a b, f a = Some b -> g b = a) ->
  Sql.all_some (map f l) = Some out -> map g out = l.
Proof.
  intros Hfg. revert out.
  induction l as [|a l IH]; simpl; intros out H.
  - inversion H. reflexivity.
  - destruct (f a) as [b|] eqn:Hb; [|discriminate].
    destruct (Sql.all_some (map f l)) as [bs|]; [|discriminate].
    inversion H. simpl. rewrite (Hfg a b Hb), (IH bs eq_refl). reflexivity.
Qed.

(** *** The ordering is a total preorder *)

Lemma may_precede_spec (o : Sql.ordering) (a b : Sql.value) :
  Sql.may_precede o a b = true <->
  (fst (Sql.place o a) < fst (Sql.place o b) \/
   (fst (Sql.place o a) = fst (Sql.place o b) /\
    snd (Sql.place o a) <= snd (Sql.place o b)))%Z.
Proof.
  unfold Sql.may_precede. cbv zeta.
  rewrite orb_true_iff, andb_true_iff, Z.ltb_lt, Z.eqb_eq, Z.leb_le.
  reflexivity.
Qed.

Lemma row_may_precede_total (o : Sql.ordering) (e1 e2 : Sql.env) :
  Sql.row_may_precede o e1 e2 = false -> Sql.row_may_precede o e2 e1 = true.
Proof.
  unfold Sql.row_may_precede. intros H.
  apply not_true_iff_false in H. rewrite may_precede_spec in H.
  apply may_precede_spec. lia.
Qed.

Lemma row_may_precede_trans (o : Sql.ordering) (e1 e2 e3 : Sql.env) :
  Sql.row_may_precede o e1 e2 = true ->
  Sql.row_may_precede o e2 e3 = true ->
  Sql.row_may_precede o e1 e3 = true.
Proof.
  unfold Sql.row_may_precede. rewrite !may_precede_spec. lia.
Qed.

Lemma insert_row_perm (o : Sql.ordering) (e : Sql.env) (l : list Sql.env) :
  Permutation (Sql.insert_row o e l) (e :: l).
Proof.
  induction l as [|x l IH]; simpl; [apply Permutation_refl|].
  destruct (Sql.row_may_precede o e x); [apply Permutation_refl|].
  eapply perm_trans; [apply perm_skip; exact IH | apply perm_swap].
Qed.

Lemma sort_rows_perm (o : Sql.ordering) (l : list Sql.env) :
  Permutation (Sql.sort_rows o l) l.
Proof.
  induction l as [|e l IH]; simpl; [constructor|].
  eapply perm_trans; [apply insert_row_perm | apply perm_skip; exact IH].
Qed.

Lemma insert_row_sorted (o : Sql.ordering) (e : Sql.env)
    (l : list Sql.env) :
  Sql.in_order (Some o) l -> Sql.in_order (Some o) (Sql.insert_row o e l).
Proof.
  simpl. induction l as [|x l IH]; simpl; intros Hs.
  - constructor; constructor.
  - inversion Hs as [|? ? Hl Hx]; subst.
    destruct (Sql.row_may_precede o e x) eqn:E.
    + constructor; [exact Hs|]. constructor; [exact E|].
      eapply Forall_impl; [|exact Hx].
      intros y Hy. exact (row_may_precede_trans o e x y E Hy).
    + constructor; [apply IH; exact Hl|].
      apply (Permutation_Forall (Permutation_sym (insert_row_perm o e l))).
      constructor; [apply row_may_precede_total; exact E | exact Hx].
Qed.

Lemma sort_rows_sorted (o : Sql.ordering) (l : list Sql.env) :
  Sql.in_order (Some o) (Sql.sort_rows o l).
Proof.
  induction l as [|e l IH]; simpl; [constructor|].
  apply insert_row_sorted. exact IH.
Qed.

(** What [Sql.execute] returns is a result of the text. *)
Lemma execute_result (tables : dict Sql.table) (text : string)
    (params : list (string * string)) (q : Sql.query) (rows : list row) :
  Sql.parse text = Some q ->
  Sql.execute tables text params = Ok rows ->
  Sql.result tables params q (map (map Sql.of_sqlval) rows).
Proof.
  intros Hq. unfold Sql.execute. rewrite Hq.
  destruct (Sql.accepted tables params q) eqn:Ha; [|discriminate].
  destruct (Sql.candidates tables params q) as [envs|] eqn:Hc;
    [|discriminate].
  set (sorted := match Sql.order_by q with
                 | Some o => Sql.sort_rows o envs
                 | None => envs
                 end).
  destruct (Sql.all_some
              (map (fun e => Sql.to_row (Sql.project (Sql.select q) e))
                   sorted)) as [out|] eqn:Hout; [|discriminate].
  intros H. injection H as <-.
  split; [exact Ha|]. exists envs, sorted.
  split; [exact Hc|]. split; [|split].
  - subst sorted. destruct (Sql.order_by q); [apply sort_rows_perm|].
    apply Permutation_refl.
  - subst sorted. destruct (Sql.order_by q); [apply sort_rows_sorted|].
    exact I.
  - rewrite <- map_map in Hout.
    apply (all_some_map Sql.to_row (map Sql.of_sqlval)); [|exact Hout].
    intros vs r Hr. unfold Sql.to_row in Hr.
    apply (all_some_map Sql.to_sqlval Sql.of_sqlval); [|exact Hr].
    exact to_sqlval_of.
Qed.

(** *** The two queries of the tools on the tables of the store *)

Lemma filter_of_map {A B} (f : A -> B) (p : B -> bool) (q : A -> bool)
    (l : list A) :
  (forall a, p (f a) = q a) -> filter p (map f l) = map f (filter q l).
Proof.
  intros Hpq. induction l as [|a l IH]; simpl; [reflexivity|].
  rewrite Hpq. destruct (q a); simpl; rewrite IH; reflexivity.
Qed.

Lemma flat_map_of_map {A B C} (f : B -> list C) (g : A -> B) (l : list A) :
  flat_map f (map g l) = flat_map (fun a => f (g a)) l.
Proof.
  induction l as [|a l IH]; simpl; [reflexivity | rewrite IH; reflexivity].
Qed.

Lemma flat_map_twice {A B C} (f : B -> list C) (g : A -> list B)
    (l : list A) :
  flat_map f (flat_map g l) = flat_map (fun a => flat_map f (g a)) l.
Proof.
  induction l as [|a l IH]; simpl; [reflexivity|].
  rewrite flat_map_app, IH. reflexivity.
Qed.

Lemma flat_map_of_filter {A B} (f : A -> list B) (p : A -> bool)
    (l : list A) :
  flat_map f (filter p l) = flat_map (fun a => if p a then f a else []) l.
Proof.
  induction l as [|a l IH]; simpl; [reflexivity|].
  destruct (p a); simpl; rewrite IH; reflexivity.
Qed.

Lemma map_of_flat_map {A B C} (f : B -> C) (g : A -> list B) (l : list A) :
  map f (flat_map g l) = flat_map (fun a => map f (g a)) l.
Proof.
  induction l as [|a l IH]; simpl; [reflexivity|].
  rewrite map_app, IH. reflexivity.
Qed.

(** The risk query reads the risk view and keeps its AT_RISK tuples. *)
Lemma risk_query_candidates (db : Persisted.database) (q : Sql.query) :
  Sql.parse Persisted.RISK_QUERY = Some q ->
  Sql.accepted (Store.tables_of db) [] q = true /\
  Sql.candidates (Store.tables_of db) [] q
    = Some (map Store.risk_env
              (filter Persisted.where_at_risk (Persisted.mv_eta_risk db))) /\
  (forall r,
      Sql.project (Sql.select q) (Store.risk_env r)
        = map Sql.of_sqlval (Persisted.select_risk r)) /\
  exists o,
    Sql.order_by q = Some o /\
    forall r1 r2,
      Sql.row_may_precede o (Store.risk_env r1) (Store.risk_env r2)
        = Persisted.eta_desc_nulls_last r1 r2.
Proof.
  intros Hq. vm_compute in Hq. injection Hq as <-.
  split; [reflexivity|]. split; [|split].
  - unfold Sql.candidates. simpl Sql.from_table. simpl Sql.joins.
    simpl Sql.where_. simpl Sql.from_alias. simpl.
    f_equal. rewrite map_map. apply filter_of_map.
    intros [ref eta eta_final [status|]]; reflexivity.
  - intros [[ref|] [eta|] [eta_final|] [status|]]; reflexivity.
  - eexists. split; [reflexivity|].
    intros [ref1 [eta1|] f1 s1] [ref2 [eta2|] f2 s2];
      unfold Sql.row_may_precede, Persisted.eta_desc_nulls_last; simpl;
      try reflexivity.
    unfold Sql.may_precede. simpl.
    destruct (Z.leb_spec eta2 eta1), (Z.leb_spec (- eta1) (- eta2));
      try reflexivity; lia.
Qed.

(** An inner join keeps the matching pairs. *)
Lemma join_one_inner (params : list (string * string)) (j : Sql.join_clause)
    (t : Sql.table) (e : Sql.env) :
  Sql.outer j = false ->
  Sql.join_one params j t e
  = filter (Sql.holds params (Sql.on j))
      (map (fun tu =>
              (e ++ [Sql.bind_tuple (Sql.join_alias j) t (Some tu)])%list)
           (Sql.tuples t)).
Proof.
  intros Hj. unfold Sql.join_one. rewrite Hj.
  destruct (filter _ _); reflexivity.
Qed.

(** The status query joins the shipments with their latest event and the
    location of that event, and keeps the shipments of the reference. *)
Lemma status_query_candidates (db : Persisted.database)
    (reference_no : string) (q : Sql.query) :
  Sql.parse Persisted.STATUS_QUERY = Some q ->
  Sql.accepted (Store.tables_of db) [("reference_no", reference_no)] q
    = true /\
  Sql.candidates (Store.tables_of db) [("reference_no", reference_no)] q
    = Some (map Store.joined_env
              (filter (Persisted.where_reference_no reference_no)
                 (Persisted.joined db))) /\
  Sql.order_by q = None /\
  forall j,
    Sql.project (Sql.select q) (Store.joined_env j)
      = map Sql.of_sqlval (Persisted.select_status j).
Proof.
  intros Hq. vm_compute in Hq. injection Hq as <-.
  split; [reflexivity|]. split; [|split; [reflexivity|]].
  - unfold Sql.candidates. simpl Sql.from_table. simpl Sql.joins.
    simpl Sql.where_. simpl Sql.from_alias.
    simpl dict_get. unfold Sql.join_all. simpl dict_get.
    cbv beta iota. f_equal.
    rewrite <- filter_of_map
      with (p := Sql.holds [("reference_no", reference_no)]
                   {| Sql.left_side :=
                        {| Sql.qualifier := "s";
                           Sql.column := "reference_no" |};
                      Sql.right_side := Sql.OParam "reference_no" |}).
    2:{ intros [[s le] loc]. destruct s as [sid [ref|] status];
          reflexivity. }
    f_equal. unfold Persisted.joined.
    rewrite map_of_flat_map, flat_map_twice.
    simpl Sql.tuples. rewrite map_map, flat_map_of_map.
    apply flat_map_ext. intros s.
    rewrite join_one_inner by reflexivity.
    simpl Sql.tuples. rewrite map_map.
    rewrite filter_of_map
      with (q := fun le => Persisted.sql_eq_Z (Persisted.le_shipment_id le)
                             (Persisted.s_shipment_id s)).
    2:{ intros le. destruct s as [[sid|] ref status];
          destruct le as [[lid|] ev loc at_ det]; reflexivity. }
    rewrite flat_map_of_map, flat_map_of_filter, map_of_flat_map.
    apply flat_map_ext. intros le.
    destruct (Persisted.sql_eq_Z (Persisted.le_shipment_id le)
                (Persisted.s_shipment_id s)); [|reflexivity].
    unfold Sql.join_one, Persisted.left_join_locations.
    simpl Sql.tuples. rewrite map_map.
    rewrite filter_of_map
      with (q := fun loc => Persisted.sql_eq_Z
                              (Persisted.loc_location_id loc)
                              (Persisted.le_location_id le)).
    2:{ intros loc. destruct le as [lid ev [l|] at_ det];
          destruct loc as [[i|] name code]; reflexivity. }
    destruct (filter _ (Persisted.locations db)) as [|x rest];
      [reflexivity|].
    rewrite !map_map. reflexivity.
  - intros [[s le] loc].
    destruct s as [sid [ref|] [status|]];
      destruct le as [lid [ev|] lloc [at_|] [det|]];
      destruct loc as [[i [name|] [code|]]|]; reflexivity.
Qed.

Lemma sorted_of_map {A B} (f : A -> B) (R : A -> A -> Prop)
    (S : B -> B -> Prop) (l : list A) :
  (forall a b, S (f a) (f b) -> R a b) ->
  StronglySorted S (map f l) -> StronglySorted R l.
Proof.
  intros HRS. induction l as [|a l IH]; simpl; intros H; [constructor|].
  inversion H as [|? ? Hl Ha]; subst.
  constructor; [apply IH; exact Hl|].
  rewrite Forall_forall in *. intros b Hb.
  apply HRS, Ha, in_map, Hb.
Qed.

(** What the store can answer the risk query with: the AT_RISK tuples of
    the risk view, each once, the later ETA first and the tuples without
    ETA last. *)
Lemma risk_query_answer (db : Persisted.database) (q : Sql.query)
    (rows : list row) :
  Sql.parse Persisted.RISK_QUERY = Some q ->
  Sql.result (Store.tables_of db) [] q (map (map Sql.of_sqlval) rows) ->
  exists entries,
    rows = map Persisted.select_risk entries /\
    Permutation entries
      (filter Persisted.where_at_risk (Persisted.mv_eta_risk db)) /\
    StronglySorted Persisted.eta_before entries.
Proof.
  intros Hq (_ & envs & sorted & Hc & Hperm & Hord & Hrows).
  destruct (@risk_query_candidates db q Hq)
    as (_ & Hcand & Hproj & o & Ho & Hcmp).
  rewrite Hcand in Hc. injection Hc as <-.
  destruct (Permutation_map_inv _ _ Hperm) as (entries & -> & Hp).
  exists entries. split; [|split].
  - apply rows_of_values. rewrite Hrows, !map_map.
    apply map_ext. intros r. apply Hproj.
  - apply Permutation_sym. exact Hp.
  - rewrite Ho in Hord. simpl in Hord.
    eapply sorted_of_map; [|exact Hord].
    intros a b Hab. unfold Persisted.eta_before. rewrite <- Hcmp.
    exact Hab.
Qed.

(** What the store can answer the status query with: the joined records
    of the reference, each once, in any order. *)
Lemma status_query_answer (db : Persisted.database) (reference_no : string)
    (q : Sql.query) (rows : list row) :
  Sql.parse Persisted.STATUS_QUERY = Some q ->
  Sql.result (Store.tables_of db) [("reference_no", reference_no)] q
    (map (map Sql.of_sqlval) rows) ->
  Permutation rows (Persisted.status_query_rows db reference_no).
Proof.
  intros Hq (_ & envs & sorted & Hc & Hperm & _ & Hrows).
  destruct (@status_query_candidates db reference_no q Hq)
    as (_ & Hcand & _ & Hproj).
  rewrite Hcand in Hc. injection Hc as <-.
  destruct (Permutation_map_inv _ _ Hperm) as (js & -> & Hp).
  assert (Hr : rows = map Persisted.select_status js).
  { apply rows_of_values. rewrite Hrows, !map_map.
    apply map_ext. intros j. apply Hproj. }
  rewrite Hr. unfold Persisted.status_query_rows.
  apply Permutation_map, Permutation_sym. exact Hp.
Qed.

(** A shipment of the reference with a latest event is a joined record. *)
Lemma known_is_present (db : Persisted.database) (reference_no : string) :
  Store.known db reference_no -> Ops.present db reference_no = true.
Proof.
  intros (s & le & Hs & Hle & Href & Hid).
  unfold Ops.present. apply existsb_exists.
  assert (Hloc : exists loc,
             In loc (Persisted.left_join_locations le
                       (Persisted.locations db))).
  { unfold Persisted.left_join_locations.
    destruct (filter _ (Persisted.locations db)) as [|x rest].
    - exists None. left. reflexivity.
    - exists (Some x). left. reflexivity. }
  destruct Hloc as [loc Hloc].
  exists (s, le, loc). split.
  - unfold Persisted.joined. apply in_flat_map. exists s.
    split; [exact Hs|]. apply in_flat_map. exists le.
    split; [exact Hle|]. rewrite Hid. apply in_map. exact Hloc.
  - simpl. rewrite Href. simpl. apply String.eqb_refl.
Qed.

(** ** The database variant *)

Section PersistedProperties.
Context `{X : Externals}.

Lemma get_db_connection_cached (st : Runtime Persisted.Globals) (c : conn) :
  Persisted._db_connection (globals st) = Some c ->
  Persisted.get_db_connection st = (st, Ok c).
Proof.
  intros H. unfold Persisted.get_db_connection, bind, get_globals.
  rewrite H. reflexivity.
Qed.

(** [get_shipment_status] once the connection is had and the query has been
    answered with [r]. *)
Lemma status_after_run (st st1 : Runtime Persisted.Globals) (c : conn)
    (w : ext)
    (r : res (list row)) (reference_no : string) :
  Persisted.get_db_connection st = (st1, Ok c) ->
  conn_run c Persisted.STATUS_QUERY [("reference_no", reference_no)]
    (world st1) = (w, r) ->
  Persisted.get_shipment_status reference_no st =
    let st2 := after_call (EvRun c Persisted.STATUS_QUERY
                                 [("reference_no", reference_no)]) w st1 in
    match r with
    | Ok (first :: _) =>
        (st2, Ok (json_dumps (Persisted.json_of_row first)))
    | Ok [] => (st2, Ok ("Shipment " ++ reference_no ++ " not found"))
    | Raise e =>
        (record (EvLogError ("Error in get_shipment_status: "
                               ++ exn_type_name e ++ ": " ++ exn_str e)) st2,
         Ok ("Error retrieving shipment status: " ++ exn_str e))
    end.
Proof.
  intros Hc Hr.
  unfold Persisted.get_shipment_status, try_except, bind.
  rewrite Hc. unfold external. rewrite Hr.
  destruct r as [[|first rest]|e]; reflexivity.
Qed.

Lemma delayed_after_run (st st1 : Runtime Persisted.Globals) (c : conn)
    (w : ext)
    (r : res (list row)) :
  Persisted.get_db_connection st = (st1, Ok c) ->
  conn_run c Persisted.RISK_QUERY [] (world st1) = (w, r) ->
  Persisted.find_delayed_shipments st =
    let st2 := after_call (EvRun c Persisted.RISK_QUERY []) w st1 in
    match r with
    | Ok [] => (st2, Ok "No delayed shipments found")
    | Ok results => (st2, Ok (json_dumps (Persisted.json_of_rows results)))
    | Raise e =>
        (record (EvLogError ("Error in find_delayed_shipments: "
                               ++ exn_type_name e ++ ": " ++ exn_str e)) st2,
         Ok ("Error finding delayed shipments: " ++ exn_str e))
    end.
Proof.
  intros Hc Hr.
  unfold Persisted.find_delayed_shipments, try_except, bind.
  rewrite Hc. unfold external. rewrite Hr.
  destruct r as [[|first rest]|e]; reflexivity.
Qed.

(** [get_shipment_status] when no connection can be had. *)
Lemma status_without_connection (st st1 : Runtime Persisted.Globals)
    (e : exn)
    (reference_no : string) :
  Persisted.get_db_connection st = (st1, Raise e) ->
  Persisted.get_shipment_status reference_no st =
    (record (EvLogError ("Error in get_shipment_status: "
                           ++ exn_type_name e ++ ": " ++ exn_str e)) st1,
     Ok ("Error retrieving shipment status: " ++ exn_str e)).
Proof.
  intros Hc.
  unfold Persisted.get_shipment_status, try_except, bind.
  rewrite Hc. reflexivity.
Qed.

(** The two tools and the entrypoint's guarded part always return a text:
    their handlers turn every exception into one. *)
Lemma get_shipment_status_total (reference_no : string)
    (st : Runtime Persisted.Globals) :
  exists st' s, Persisted.get_shipment_status reference_no st = (st', Ok s).
Proof.
  unfold Persisted.get_shipment_status.
  apply try_except_total. intros e st0. eexists; eexists; reflexivity.
Qed.

Lemma find_delayed_shipments_total (st : Runtime Persisted.Globals) :
  exists st' s, Persisted.find_delayed_shipments st = (st', Ok s).
Proof.
  unfold Persisted.find_delayed_shipments.
  apply try_except_total. intros e st0. eexists; eexists; reflexivity.
Qed.

(** C3: a reference that is in the directory gets its own record back.
    In-memory variant: for every key of the fixture the tool returns the
    encoded record stored under it, and that record's [reference_no] is the
    key. Database variant: the connection is had, the store behind it
    answers in SQL over its tables [db], and the directory holds a shipment
    of the reference with a latest event. Then, whichever rows the store
    answers the tool's query with, the tool returns the encoding of the
    first of them, which is a joined record of [db] whose first column,
    [s.reference_no], is the reference asked for: the text of the query
    selects that column first and its WHERE clause keeps no other
    reference. *)
Theorem known_reference_returns_its_record :
  (forall (now1 now2 now3 : Z) (reference_no : string)
          (st : Runtime Mock.Globals),
      dict_contains reference_no (Mock.MOCK_SHIPMENTS now1 now2 now3) = true ->
      exists shipment,
        dict_get reference_no (Mock.MOCK_SHIPMENTS now1 now2 now3)
          = Some shipment /\
        Mock.get_shipment_status (Mock.MOCK_SHIPMENTS now1 now2 now3)
          reference_no st
          = (st, Ok (json_dumps (json_of_dict shipment))) /\
        dict_get "reference_no" shipment = Some reference_no)
  /\
  (forall (db : Persisted.database) (reference_no : string)
          (st st1 : Runtime Persisted.Globals) (c : conn) (w : ext)
          (rows : list row),
      Persisted.get_db_connection st = (st1, Ok c) ->
      Store.speaks_sql c (world st1) db ->
      conn_run c Persisted.STATUS_QUERY [("reference_no", reference_no)]
        (world st1) = (w, Ok rows) ->
      Store.known db reference_no ->
      exists st2 first,
        In first (map Persisted.select_status (Persisted.joined db)) /\
        Persisted.get_shipment_status reference_no st
          = (st2, Ok (json_dumps (Persisted.json_of_row first))) /\
        nth_error first 0 = Some (SqlText reference_no)).
Proof.
  split.
  - intros now1 now2 now3 reference_no st Hin.
    unfold dict_contains in Hin. simpl in Hin. simpl dict_get at 1.
    destruct (String.eqb reference_no "SHIP-REF-1001") eqn:E1;
      [apply String.eqb_eq in E1; subst; eexists;
       repeat split; reflexivity|].
    destruct (String.eqb reference_no "SHIP-REF-1002") eqn:E2;
      [apply String.eqb_eq in E2; subst; eexists;
       repeat split; reflexivity|].
    destruct (String.eqb reference_no "SHIP-REF-1003") eqn:E3;
      [apply String.eqb_eq in E3; subst; eexists;
       repeat split; reflexivity|].
    discriminate.
  - intros db reference_no st st1 c w rows Hc Hs Hr Hk.
    destruct (Sql.parse Persisted.STATUS_QUERY) as [q|] eqn:Hq;
      [|vm_compute in Hq; discriminate].
    pose proof (@status_query_answer db reference_no q rows Hq
                  (Hs _ _ _ _ _ Hq Hr)) as Hperm.
    destruct (present_rows db reference_no (known_is_present Hk))
      as (r0 & rest0 & Hrows).
    destruct rows as [|first rest].
    { rewrite Hrows in Hperm. apply Permutation_nil in Hperm.
      discriminate. }
    destruct (status_rows_reference db reference_no first) as [Hcol Hin].
    { apply (Permutation_in _ Hperm). left. reflexivity. }
    rewrite (status_after_run _ _ Hc Hr).
    eexists. exists first. repeat split; [exact Hin | exact Hcol].
Qed.

(** C4: a reference that is not in the directory gets the not-found text,
    and no exception. In-memory variant: for every dict of shipments (the
    fixture among them) and every key that is not in it. Database variant:
    when the connection is had and the store answers the status query over
    [db], for every reference the joined tables do not hold; and whatever
    the services do, the tool returns a text and does not raise. *)
Theorem unknown_reference_is_not_found :
  (forall (shipments : dict (dict string)) (reference_no : string)
          (st : Runtime Mock.Globals),
      dict_contains reference_no shipments = false ->
      Mock.get_shipment_status shipments reference_no st
        = (st, Ok ("Shipment " ++ reference_no ++ " not found")))
  /\
  (forall (db : Persisted.database) (reference_no : string)
          (st st1 : Runtime Persisted.Globals) (c : conn) (w : ext),
      Persisted.get_db_connection st = (st1, Ok c) ->
      conn_run c Persisted.STATUS_QUERY [("reference_no", reference_no)]
        (world st1) = (w, Ok (Persisted.status_query_rows db reference_no)) ->
      Ops.present db reference_no = false ->
      Persisted.get_shipment_status reference_no st
        = (after_call (EvRun c Persisted.STATUS_QUERY
                         [("reference_no", reference_no)]) w st1,
           Ok ("Shipment " ++ reference_no ++ " not found")))
  /\
  (forall (reference_no : string) (st : Runtime Persisted.Globals),
      exists st' s,
        Persisted.get_shipment_status reference_no st = (st', Ok s)).
Proof.
  split; [|split].
  - intros shipments reference_no st Hin.
    apply mock_status_of_body.
    unfold Mock.get_shipment_status_body. rewrite Hin. reflexivity.
  - intros db reference_no st st1 c w Hc Hr Hp.
    rewrite (status_after_run _ _ Hc Hr), (absent_rows db reference_no Hp).
    reflexivity.
  - intros reference_no st. apply get_shipment_status_total.
Qed.

(** C5: a fault of the store during [get_shipment_status] (no connection
    can be had, or the query raises) comes back as the text ["Error
    retrieving shipment status: "] followed by the fault's message, after
    being logged; the tool returns, it does not raise. *)
Theorem status_store_fault_is_text (st : Runtime Persisted.Globals)
    (reference_no : string) (e : exn) :
  Ops.status_fault st reference_no e ->
  exists st',
    Persisted.get_shipment_status reference_no st
      = (st', Ok ("Error retrieving shipment status: " ++ exn_str e)) /\
    contains "Error retrieving shipment status"
      ("Error retrieving shipment status: " ++ exn_str e) = true /\
    In (EvLogError ("Error in get_shipment_status: " ++ exn_type_name e
                      ++ ": " ++ exn_str e)) (trace st').
Proof.
  intros [(st1 & Hc)|(st1 & c & w & Hc & Hr)]; eexists.
  - rewrite (status_without_connection _ _ Hc).
    split; [reflexivity|]. split; [reflexivity|].
    simpl. apply in_or_app. right. left. reflexivity.
  - rewrite (status_after_run _ _ Hc Hr).
    split; [reflexivity|]. split; [reflexivity|].
    simpl. apply in_or_app. right. left. reflexivity.
Qed.

Lemma mock_find_delayed_total (shipments : dict (dict string))
    (st : Runtime Mock.Globals) :
  exists st' s, Mock.find_delayed_shipments shipments st = (st', Ok s).
Proof.
  unfold Mock.find_delayed_shipments.
  apply try_except_total. intros e st0. eexists; eexists; reflexivity.
Qed.

(** C2: what [find_delayed_shipments] returns, for every content of the
    backing data. Database variant: the connection is had and the store
    behind it answers in SQL over its tables [db]. Then, whichever rows
    the store answers the tool's query with, they are the AT_RISK entries
    of the risk view, each once, the later ETA first and the entries
    without ETA after all the others (entries with the same ETA in any
    order), because the text of the query says so; the tool returns their
    encoding in that order, or the sentinel ["No delayed shipments found"]
    when there is none. In-memory variant: the tool does no ordering and
    its entries carry no ETA at all; they come in the order of the dict,
    and on the fixture, the only data that variant has, there is exactly
    one entry; without a qualifying entry the sentinel is returned. In
    both variants the tool returns a text and does not raise. *)
Theorem find_delayed_is_ordered_or_sentinel :
  (forall (db : Persisted.database) (st st1 : Runtime Persisted.Globals)
          (c : conn) (w : ext) (rows : list row),
      Persisted.get_db_connection st = (st1, Ok c) ->
      Store.speaks_sql c (world st1) db ->
      conn_run c Persisted.RISK_QUERY [] (world st1) = (w, Ok rows) ->
      exists entries,
        rows = map Persisted.select_risk entries /\
        Permutation entries
          (filter Persisted.where_at_risk (Persisted.mv_eta_risk db)) /\
        StronglySorted Persisted.eta_before entries /\
        (forall i j r1 r2,
            (i < j)%nat ->
            nth_error entries i = Some r1 ->
            nth_error entries j = Some r2 ->
            match Persisted.r_eta r1, Persisted.r_eta r2 with
            | Some a, Some b => (b <= a)%Z
            | None, Some _ => False
            | _, None => True
            end) /\
        Persisted.find_delayed_shipments st
          = (after_call (EvRun c Persisted.RISK_QUERY []) w st1,
             Ok (match entries with
                 | [] => "No delayed shipments found"
                 | _ => json_dumps (Persisted.json_of_rows
                                      (map Persisted.select_risk entries))
                 end)) /\
        (filter Persisted.where_at_risk (Persisted.mv_eta_risk db) = [] ->
         Persisted.find_delayed_shipments st
           = (after_call (EvRun c Persisted.RISK_QUERY []) w st1,
              Ok "No delayed shipments found")))
  /\
  (forall (shipments : dict (dict string)) (st : Runtime Mock.Globals),
      (filter Mock.at_risk_item shipments = [] ->
       Mock.find_delayed_shipments shipments st
         = (st, Ok "No delayed shipments found")) /\
      (forall delayed,
          Mock.collect_delayed shipments [] = Ok delayed ->
          delayed <> [] ->
          Mock.find_delayed_shipments shipments st
            = (st, Ok (json_dumps (json_of_dicts delayed))) /\
          Forall (fun d => dict_get "eta" d = None) delayed /\
          map (dict_get "reference_no") delayed
            = map (fun kv => Some (fst kv))
                  (filter Mock.at_risk_item shipments)))
  /\
  (forall (now1 now2 now3 : Z) (st : Runtime Mock.Globals),
      exists d,
        Mock.collect_delayed (Mock.MOCK_SHIPMENTS now1 now2 now3) []
          = Ok [d] /\
        Mock.find_delayed_shipments (Mock.MOCK_SHIPMENTS now1 now2 now3) st
          = (st, Ok (json_dumps (json_of_dicts [d]))))
  /\
  (forall (st : Runtime Persisted.Globals),
      exists st' s, Persisted.find_delayed_shipments st = (st', Ok s))
  /\
  (forall (shipments : dict (dict string)) (st : Runtime Mock.Globals),
      exists st' s, Mock.find_delayed_shipments shipments st = (st', Ok s)).
Proof.
  split; [|split; [|split; [|split]]].
  - intros db st st1 c w rows Hc Hs Hr.
    destruct (Sql.parse Persisted.RISK_QUERY) as [q|] eqn:Hq;
      [|vm_compute in Hq; discriminate].
    destruct (@risk_query_answer db q rows Hq (Hs _ _ _ _ _ Hq Hr))
      as (entries & -> & Hperm & Hsorted).
    exists entries. split; [reflexivity|]. split; [exact Hperm|].
    split; [exact Hsorted|]. split; [|split].
    + intros i j r1 r2 Hij Hi Hj.
      pose proof (strongly_sorted_nth Hsorted Hij Hi Hj) as Hb.
      unfold Persisted.eta_before, Persisted.eta_desc_nulls_last in Hb.
      destruct (Persisted.r_eta r1), (Persisted.r_eta r2);
        try discriminate; try exact I.
      apply Z.leb_le. exact Hb.
    + rewrite (delayed_after_run _ Hc Hr).
      destruct entries; reflexivity.
    + intros Hnone. rewrite Hnone in Hperm.
      apply Permutation_sym, Permutation_nil in Hperm. subst entries.
      rewrite (delayed_after_run _ Hc Hr). reflexivity.
  - intros shipments st. split.
    + intros Hnone. apply mock_delayed_of_body.
      unfold Mock.find_delayed_shipments_body.
      rewrite (collect_delayed_none shipments [] Hnone). reflexivity.
    + intros delayed Hd Hne. split.
      * apply mock_delayed_of_body.
        unfold Mock.find_delayed_shipments_body. rewrite Hd. simpl.
        destruct delayed; [contradiction Hne; reflexivity | reflexivity].
      * destruct (collect_delayed_spec shipments [] Hd)
          as (added & -> & Hrefs & Hall).
        simpl. split; [|exact Hrefs].
        eapply Forall_impl; [|exact Hall].
        intros d [_ H]. exact H.
  - intros now1 now2 now3 st. eexists. split; [reflexivity|].
    apply mock_delayed_of_body. reflexivity.
  - intros st. apply find_delayed_shipments_total.
  - intros shipments st. apply mock_find_delayed_total.
Qed.

(** One use of a tool on a cached connection [c]: the query goes to [c],
    nothing but a log record may follow it, the globals stay as they were
    and the tool returns a text. *)
Lemma run_op_on_cached (o : Ops.op) (st : Runtime Persisted.Globals)
    (c : conn) :
  Persisted._db_connection (globals st) = Some c ->
  exists st' out logs,
    Ops.run_op o st = (st', Ok out) /\
    globals st' = globals st /\
    trace st'
      = (trace st ++ EvRun c (Ops.op_query o) (Ops.op_params o) :: logs)%list
    /\ filter Ops.is_call logs = [].
Proof.
  intros H. pose proof (get_db_connection_cached st H) as Hc.
  destruct o as [reference_no|]; simpl.
  - destruct (conn_run c Persisted.STATUS_QUERY
                [("reference_no", reference_no)] (world st)) as [w r] eqn:Hr.
    rewrite (status_after_run _ _ Hc Hr).
    destruct r as [[|first rest]|e]; simpl;
      eexists; eexists;
      [ exists [] | exists [] | eexists [_] ];
      (split; [reflexivity|]); (split; [reflexivity|]);
      (split; [simpl; rewrite <- ?app_assoc; reflexivity | reflexivity]).
  - destruct (conn_run c Persisted.RISK_QUERY [] (world st))
      as [w r] eqn:Hr.
    rewrite (delayed_after_run _ Hc Hr).
    destruct r as [[|first rest]|e]; simpl;
      eexists; eexists;
      [ exists [] | exists [] | eexists [_] ];
      (split; [reflexivity|]); (split; [reflexivity|]);
      (split; [simpl; rewrite <- ?app_assoc; reflexivity | reflexivity]).
Qed.

(** Any sequence of uses on a cached connection: every use returns, the
    handle stays cached, and the calls made are one query per use, each on
    that handle. *)
Lemma run_ops_on_cached (os : list Ops.op) :
  forall (st : Runtime Persisted.Globals) (c : conn),
    Persisted._db_connection (globals st) = Some c ->
    exists st' outs evs,
      Ops.run_ops os st = (st', Ok outs) /\
      length outs = length os /\
      globals st' = globals st /\
      trace st' = (trace st ++ evs)%list /\
      filter Ops.is_call evs
        = map (fun o => EvRun c (Ops.op_query o) (Ops.op_params o)) os.
Proof.
  induction os as [|o os IH]; intros st c H.
  - exists st, [], []. simpl. rewrite app_nil_r. repeat split; reflexivity.
  - destruct (run_op_on_cached o st H)
      as (st1 & out & logs & Hrun & Hg & Ht & Hlogs).
    assert (H1 : Persisted._db_connection (globals st1) = Some c)
      by (rewrite Hg; exact H).
    destruct (IH st1 c H1)
      as (st2 & outs & evs & Hruns & Hlen & Hg2 & Ht2 & Hevs).
    exists st2, (out :: outs),
      (EvRun c (Ops.op_query o) (Ops.op_params o) :: logs ++ evs)%list.
    simpl Ops.run_ops. unfold bind. rewrite Hrun, Hruns.
    split; [reflexivity|]. split; [simpl; rewrite Hlen; reflexivity|].
    split; [rewrite Hg2; exact Hg|]. split.
    + rewrite Ht2, Ht, <- app_assoc. reflexivity.
    + destruct o; simpl; rewrite filter_app, Hlogs, Hevs; reflexivity.
Qed.

(** C9: a query that raises on a cached connection [c] is answered with the
    tool's error text and leaves the globals, the cached handle among them,
    as they were; from then on, whatever state the services are in, every
    sequence of tool uses sends exactly one query per use, each on [c]:
    no new connection is opened and no configuration is read. *)
Theorem query_fault_keeps_connection (o : Ops.op)
    (st : Runtime Persisted.Globals) (c : conn) (w : ext) (e : exn) :
  Persisted._db_connection (globals st) = Some c ->
  conn_run c (Ops.op_query o) (Ops.op_params o) (world st) = (w, Raise e) ->
  let st' :=
    record (EvLogError (Ops.op_log_text o e))
      (after_call (EvRun c (Ops.op_query o) (Ops.op_params o)) w st) in
  Ops.run_op o st = (st', Ok (Ops.op_error_text o e)) /\
  globals st' = globals st /\
  Persisted._db_connection (globals st') = Some c /\
  forall (later : list Ops.op) (st2 : Runtime Persisted.Globals),
    globals st2 = globals st' ->
    exists st3 outs evs,
      Ops.run_ops later st2 = (st3, Ok outs) /\
      length outs = length later /\
      Persisted._db_connection (globals st3) = Some c /\
      trace st3 = (trace st2 ++ evs)%list /\
      filter Ops.is_call evs
        = map (fun o' => EvRun c (Ops.op_query o') (Ops.op_params o'))
            later.
Proof.
  intros H Hr st'. pose proof (get_db_connection_cached st H) as Hc.
  split; [|split; [|split]].
  - destruct o as [reference_no|]; simpl in *.
    + rewrite (status_after_run _ _ Hc Hr). reflexivity.
    + rewrite (delayed_after_run _ Hc Hr). reflexivity.
  - reflexivity.
  - exact H.
  - intros later st2 Hg. simpl in Hg.
    assert (H2 : Persisted._db_connection (globals st2) = Some c)
      by (rewrite Hg; exact H).
    destruct (run_ops_on_cached later st2 H2)
      as (st3 & outs & evs & Hruns & Hlen & Hg3 & Ht3 & Hevs).
    exists st3, outs, evs. repeat split; try assumption.
    rewrite Hg3. exact H2.
Qed.

(** The configuration load when the parameters are read and the secret
    read raises: the exception goes on to the caller, and the configuration
    stays assigned although no credentials were stored. *)
Lemma load_db_config_secret_failure (st : Runtime Persisted.Globals)
    (w1 w2 : ext) (response : list (string * string)) (ep db arn : string)
    (e : exn) :
  Persisted._db_config (globals st) = None ->
  ssm_get_parameters Persisted.PARAMETER_NAMES (world st)
    = (w1, Ok response) ->
  dict_get "/agentcore/rds/endpoint" (dict_of_pairs response) = Some ep ->
  dict_get "/agentcore/rds/database" (dict_of_pairs response) = Some db ->
  dict_get "/agentcore/rds/secret-arn" (dict_of_pairs response) = Some arn ->
  secrets_get_secret_value arn w1 = (w2, Raise e) ->
  exists st1,
    Persisted._load_db_config st = (st1, Raise e) /\
    globals st1
      = Persisted.set_db_config
          (Some {| Persisted.endpoint := ep; Persisted.database_name := db;
                   Persisted.secret_arn := arn |}) (globals st).
Proof.
  intros Hcfg Hssm Hep Hdb Harn Hsec.
  unfold Persisted._load_db_config, bind, get_globals. rewrite Hcfg.
  unfold try_except, bind, external. rewrite Hssm.
  unfold lift, dict_getitem. rewrite Hep, Hdb, Harn. simpl.
  rewrite Hsec. simpl. eexists. split; reflexivity.
Qed.

(** When the parameter read itself raises, nothing is cached: the globals
    are as before the load. *)
Lemma load_db_config_parameter_failure (st : Runtime Persisted.Globals)
    (w : ext) (e : exn) :
  Persisted._db_config (globals st) = None ->
  ssm_get_parameters Persisted.PARAMETER_NAMES (world st) = (w, Raise e) ->
  exists st1,
    Persisted._load_db_config st = (st1, Raise e) /\
    globals st1 = globals st.
Proof.
  intros Hcfg Hssm.
  unfold Persisted._load_db_config, bind, get_globals. rewrite Hcfg.
  unfold try_except, bind, external. rewrite Hssm.
  eexists. split; reflexivity.
Qed.

(** A load that succeeds caches the configuration and the credentials. *)
Lemma load_db_config_success (st : Runtime Persisted.Globals)
    (w1 w2 : ext) (response : list (string * string)) (ep db arn : string)
    (secret : string) (credentials : pyval) :
  Persisted._db_config (globals st) = None ->
  ssm_get_parameters Persisted.PARAMETER_NAMES (world st)
    = (w1, Ok response) ->
  dict_get "/agentcore/rds/endpoint" (dict_of_pairs response) = Some ep ->
  dict_get "/agentcore/rds/database" (dict_of_pairs response) = Some db ->
  dict_get "/agentcore/rds/secret-arn" (dict_of_pairs response) = Some arn ->
  secrets_get_secret_value arn w1 = (w2, Ok secret) ->
  json_loads secret = Ok credentials ->
  let cfg := {| Persisted.endpoint := ep; Persisted.database_name := db;
                Persisted.secret_arn := arn |} in
  exists st1,
    Persisted._load_db_config st = (st1, Ok (cfg, credentials)) /\
    globals st1
      = Persisted.set_db_credentials credentials
          (Persisted.set_db_config (Some cfg) (globals st)).
Proof.
  intros Hcfg Hssm Hep Hdb Harn Hsec Hjson cfg.
  unfold Persisted._load_db_config, bind, get_globals. rewrite Hcfg.
  unfold try_except, bind, external. rewrite Hssm.
  unfold lift, dict_getitem. rewrite Hep, Hdb, Harn. simpl.
  rewrite Hsec. simpl. rewrite Hjson. simpl.
  eexists. split; reflexivity.
Qed.

(** A configuration cached without credentials: every later use of the
    tool fails on the missing credentials, with no read of the parameters
    or of the secret, and changes nothing but the log. *)
Lemma status_on_config_without_credentials (st : Runtime Persisted.Globals)
    (cfg : Persisted.db_config) (reference_no : string) :
  Persisted._db_connection (globals st) = None ->
  Persisted._db_config (globals st) = Some cfg ->
  Persisted._db_credentials (globals st) = PNone ->
  Persisted.get_shipment_status reference_no st
    = (record (EvLogError ("Error in get_shipment_status: TypeError: "
                           ++ "'NoneType' object is not subscriptable"))
         (record (EvLogError ("Database connection failed: TypeError: "
                              ++ "'NoneType' object is not subscriptable"))
            st),
       Ok ("Error retrieving shipment status: "
           ++ "'NoneType' object is not subscriptable")).
Proof.
  intros Hconn Hcfg Hcred.
  unfold Persisted.get_shipment_status, try_except, bind.
  unfold Persisted.get_db_connection, bind, get_globals. rewrite Hconn.
  unfold try_except, bind.
  unfold Persisted._load_db_config, bind, get_globals. rewrite Hcfg.
  unfold ret. simpl. rewrite Hcred. reflexivity.
Qed.

(** C7 (the code departs from it): when the parameters are read and the
    secret read then raises, the tool answers with the error text, but the
    configuration stays cached without credentials
    ([_db_config] assigned, [_db_credentials] still [None]); from then on,
    whatever the services do, [get_shipment_status] reads neither the
    parameters nor the secret again and answers with the error text of the
    missing credentials. *)
Theorem secret_failure_leaves_config_cached
    (st : Runtime Persisted.Globals) (w1 w2 : ext)
    (response : list (string * string)) (ep db arn : string) (e : exn)
    (reference_no : string) :
  Persisted._db_connection (globals st) = None ->
  Persisted._db_config (globals st) = None ->
  Persisted._db_credentials (globals st) = PNone ->
  ssm_get_parameters Persisted.PARAMETER_NAMES (world st)
    = (w1, Ok response) ->
  dict_get "/agentcore/rds/endpoint" (dict_of_pairs response) = Some ep ->
  dict_get "/agentcore/rds/database" (dict_of_pairs response) = Some db ->
  dict_get "/agentcore/rds/secret-arn" (dict_of_pairs response) = Some arn ->
  secrets_get_secret_value arn w1 = (w2, Raise e) ->
  exists st1,
    Persisted.get_shipment_status reference_no st
      = (st1, Ok ("Error retrieving shipment status: " ++ exn_str e)) /\
    Persisted._db_config (globals st1)
      = Some {| Persisted.endpoint := ep; Persisted.database_name := db;
                Persisted.secret_arn := arn |} /\
    Persisted._db_credentials (globals st1) = PNone /\
    Persisted._db_connection (globals st1) = None /\
    forall (st2 : Runtime Persisted.Globals) (reference_no' : string),
      globals st2 = globals st1 ->
      exists st3,
        Persisted.get_shipment_status reference_no' st2
          = (st3, Ok ("Error retrieving shipment status: "
                      ++ "'NoneType' object is not subscriptable")) /\
        globals st3 = globals st1 /\
        world st3 = world st2 /\
        exists logs,
          trace st3 = (trace st2 ++ logs)%list /\
          filter Ops.is_call logs = [].
Proof.
  intros Hcon Hcfg Hcred Hssm Hep Hdb Harn Hsec.
  destruct (load_db_config_secret_failure st Hcfg Hssm Hep Hdb Harn Hsec)
    as (st1 & Hload & Hg1).
  assert (Hconn : Persisted.get_db_connection st
                  = (record (EvLogError ("Database connection failed: "
                                         ++ exn_type_name e ++ ": "
                                         ++ exn_str e)) st1, Raise e)).
  { unfold Persisted.get_db_connection, bind, get_globals.
    rewrite Hcon. unfold try_except, bind. rewrite Hload.
    reflexivity. }
  eexists. split; [rewrite (status_without_connection _ _ Hconn);
                   reflexivity|].
  simpl. rewrite Hg1. simpl.
  split; [reflexivity|]. split; [exact Hcred|]. split; [exact Hcon|].
  intros st2 reference_no' Hg2. eexists. split.
  - apply status_on_config_without_credentials with
      (cfg := {| Persisted.endpoint := ep; Persisted.database_name := db;
                 Persisted.secret_arn := arn |});
      rewrite Hg2; simpl; rewrite ?Hg1; simpl;
      [exact Hcon | reflexivity | exact Hcred].
  - split; [exact Hg2|]. split; [reflexivity|].
    eexists [_; _]. split; [simpl; rewrite <- app_assoc|]; reflexivity.
Qed.

(** The entrypoint on a mapping: it returns a text, whatever the model, the
    agent and the store do. *)
Lemma logistics_query_mapping_total (d : list (string * pyval))
    (st : Runtime Persisted.Globals) :
  exists st' s, Persisted.logistics_query (PDict d) st = (st', Ok s).
Proof.
  unfold Persisted.logistics_query, bind, lift, py_get. cbv beta iota.
  destruct (negb _).
  - eexists; eexists; reflexivity.
  - apply try_except_total. intros e st0. eexists; eexists; reflexivity.
Qed.

Lemma mock_logistics_query_mapping_total (shipments : dict (dict string))
    (d : list (string * pyval)) (st : Runtime Mock.Globals) :
  exists st' s, Mock.logistics_query shipments (PDict d) st = (st', Ok s).
Proof.
  unfold Mock.logistics_query, bind, lift, py_get. cbv beta iota.
  destruct (negb _).
  - eexists; eexists; reflexivity.
  - apply try_except_total. intros e st0. eexists; eexists; reflexivity.
Qed.

(** C6 (the code departs from it): the entrypoint returns a text for every
    payload that is a mapping; for every other payload (a string, a list,
    a number, a boolean, null) the [AttributeError] of [payload.get]
    leaves the function, in both variants, with nothing logged. *)
Theorem entrypoint_text_only_for_mappings (payload : pyval)
    (shipments : dict (dict string)) (mst : Runtime Mock.Globals)
    (pst : Runtime Persisted.Globals) :
  match payload with
  | PDict _ =>
      (exists st' s, Persisted.logistics_query payload pst = (st', Ok s)) /\
      (exists st' s,
          Mock.logistics_query shipments payload mst = (st', Ok s))
  | _ =>
      Persisted.logistics_query payload pst
        = (pst, Raise (Exn "AttributeError"
                         ("'" ++ py_type_name payload
                              ++ "' object has no attribute 'get'"))) /\
      Mock.logistics_query shipments payload mst
        = (mst, Raise (Exn "AttributeError"
                         ("'" ++ py_type_name payload
                              ++ "' object has no attribute 'get'")))
  end.
Proof.
  destruct payload; try (split; reflexivity).
  split.
  - apply logistics_query_mapping_total.
  - apply mock_logistics_query_mapping_total.
Qed.

(** C8: a request whose question is missing, [None] or the empty string is
    answered with the usage hint, in both variants, and the runtime is left
    as it was: no call to the model, the agent, the tools or the store was
    recorded, and no global was assigned. *)
Theorem empty_question_gets_usage_hint (d : list (string * pyval))
    (shipments : dict (dict string)) (mst : Runtime Mock.Globals)
    (pst : Runtime Persisted.Globals) :
  dict_get "query" d = None \/
  dict_get "query" d = Some PNone \/
  dict_get "query" d = Some (PStr EmptyString) ->
  Mock.logistics_query shipments (PDict d) mst = (mst, Ok USAGE_HINT) /\
  Persisted.logistics_query (PDict d) pst = (pst, Ok USAGE_HINT).
Proof.
  intros H.
  unfold Mock.logistics_query, Persisted.logistics_query, bind, lift, py_get.
  destruct H as [H|[H|H]]; rewrite H; split; reflexivity.
Qed.

End PersistedProperties.

(** ** Rules for what a computation leaves in place *)

Section SteadyRules.
Context `{X : Externals}.
Variable G : Type.
Variable keep : G -> G -> Prop.
Variable allowed : event -> bool.
Hypothesis keep_refl : forall g, keep g g.
Hypothesis keep_trans :
  forall g1 g2 g3, keep g1 g2 -> keep g2 g3 -> keep g1 g3.

Lemma extends_refl (st : Runtime G) : Cache.extends keep allowed st st.
Proof.
  split; [apply keep_refl|]. exists []. rewrite app_nil_r. split; reflexivity.
Qed.

Lemma extends_trans (st1 st2 st3 : Runtime G) :
  Cache.extends keep allowed st1 st2 ->
  Cache.extends keep allowed st2 st3 ->
  Cache.extends keep allowed st1 st3.
Proof.
  intros [Hk1 (evs1 & Ht1 & Ha1)] [Hk2 (evs2 & Ht2 & Ha2)].
  split; [eapply keep_trans; eassumption|].
  exists (evs1 ++ evs2)%list. split.
  - rewrite Ht2, Ht1, app_assoc. reflexivity.
  - rewrite forallb_app, Ha1, Ha2. reflexivity.
Qed.

Lemma extends_record (ev : event) (st : Runtime G) :
  allowed ev = true -> Cache.extends keep allowed st (record ev st).
Proof.
  intros H. split; [apply keep_refl|]. exists [ev]. simpl. rewrite H.
  split; reflexivity.
Qed.

Lemma extends_after_call (ev : event) (w : ext) (st : Runtime G) :
  allowed ev = true -> Cache.extends keep allowed st (after_call ev w st).
Proof.
  intros H. split; [apply keep_refl|]. exists [ev]. simpl. rewrite H.
  split; reflexivity.
Qed.

Lemma steady_ret {A} (a : A) : Cache.steady keep allowed (ret a).
Proof. intros st. apply extends_refl. Qed.

Lemma steady_raise {A} (e : exn) :
  Cache.steady keep allowed (raise (A := A) e).
Proof. intros st. apply extends_refl. Qed.

Lemma steady_lift {A} (r : res A) : Cache.steady keep allowed (lift r).
Proof. intros st. apply extends_refl. Qed.

Lemma steady_get_globals : Cache.steady keep allowed get_globals.
Proof. intros st. apply extends_refl. Qed.

Lemma steady_bind {A B} (c : M G A) (f : A -> M G B) :
  Cache.steady keep allowed c ->
  (forall a, Cache.steady keep allowed (f a)) ->
  Cache.steady keep allowed (bind c f).
Proof.
  intros Hc Hf st. unfold bind. specialize (Hc st).
  destruct (c st) as [st1 [a|e]]; simpl in *.
  - eapply extends_trans; [exact Hc | apply Hf].
  - exact Hc.
Qed.

Lemma steady_try {A} (c : M G A) (h : exn -> M G A) :
  Cache.steady keep allowed c ->
  (forall e, Cache.steady keep allowed (h e)) ->
  Cache.steady keep allowed (try_except c h).
Proof.
  intros Hc Hh st. unfold try_except. specialize (Hc st).
  destruct (c st) as [st1 [a|e]]; simpl in *.
  - exact Hc.
  - eapply extends_trans; [exact Hc | apply Hh].
Qed.

Lemma steady_external {A} (ev : event) (f : ext -> ext * res A) :
  allowed ev = true -> Cache.steady keep allowed (external ev f).
Proof.
  intros H st. unfold external. destruct (f (world st)) as [w r]. simpl.
  apply extends_after_call. exact H.
Qed.

Lemma steady_modify (f : G -> G) :
  (forall g, keep g (f g)) -> Cache.steady keep allowed (modify_globals f).
Proof.
  intros H st. split; [apply H|]. exists []. simpl. rewrite app_nil_r.
  split; reflexivity.
Qed.

Lemma steady_logger_error (msg : string) :
  allowed (EvLogError msg) = true ->
  Cache.steady keep allowed (logger_error msg).
Proof. intros H st. apply extends_record. exact H. Qed.

Lemma steady_logger_info (msg : string) :
  allowed (EvLogInfo msg) = true ->
  Cache.steady keep allowed (logger_info msg).
Proof. intros H st. apply extends_record. exact H. Qed.

(** The reasoning loop leaves in place what the two tools leave in place. *)
Lemma steady_run_plan (tool1 : string -> M G string) (tool2 : M G string)
    (p : plan) :
  (forall r, Cache.steady keep allowed (tool1 r)) ->
  Cache.steady keep allowed tool2 ->
  Cache.steady keep allowed (run_plan tool1 tool2 p).
Proof.
  intros H1 H2. induction p as [r|reference_no k IH|k IH]; simpl.
  - apply steady_lift.
  - apply steady_bind; [apply H1 | exact IH].
  - apply steady_bind; [exact H2 | exact IH].
Qed.

Lemma steady_agent_run (tool1 : string -> M G string) (tool2 : M G string)
    (a : agent) (query : pyval) :
  allowed (EvAgentCall query) = true ->
  (forall r, Cache.steady keep allowed (tool1 r)) ->
  Cache.steady keep allowed tool2 ->
  Cache.steady keep allowed (agent_run tool1 tool2 a query).
Proof.
  intros Ha H1 H2 st. unfold agent_run.
  destruct (agent_call a query (world st)) as [w p].
  eapply extends_trans; [apply extends_after_call; exact Ha|].
  apply steady_run_plan; assumption.
Qed.

End SteadyRules.

(** ** The caches of the model and of the agent *)

Section AgentCache.
Context `{X : Externals}.

Lemma same_agent_refl (g : Persisted.Globals) : Cache.same_agent g g.
Proof. split; reflexivity. Qed.

Lemma same_agent_trans (g1 g2 g3 : Persisted.Globals) :
  Cache.same_agent g1 g2 -> Cache.same_agent g2 g3 -> Cache.same_agent g1 g3.
Proof.
  intros [H1 H2] [H3 H4]. split; congruence.
Qed.

Lemma same_agent_mock_refl (g : Mock.Globals) : Cache.same_agent_mock g g.
Proof. split; reflexivity. Qed.

Lemma same_agent_mock_trans (g1 g2 g3 : Mock.Globals) :
  Cache.same_agent_mock g1 g2 -> Cache.same_agent_mock g2 g3 ->
  Cache.same_agent_mock g1 g3.
Proof.
  intros [H1 H2] [H3 H4]. split; congruence.
Qed.

Ltac steady_side :=
  try solve [ exact same_agent_refl | exact same_agent_trans
            | exact same_agent_mock_refl | exact same_agent_mock_trans
            | reflexivity
            | intros; split; reflexivity ].

Ltac steady_auto :=
  repeat first
    [ apply steady_ret; steady_side
    | apply steady_raise; steady_side
    | apply steady_lift; steady_side
    | apply steady_get_globals; steady_side
    | apply steady_external; steady_side
    | apply steady_logger_error; steady_side
    | apply steady_logger_info; steady_side
    | apply steady_modify; steady_side
    | apply steady_bind; steady_side; [ | intros ]
    | apply steady_try; steady_side; [ | intros ]
    | match goal with
      | |- Cache.steady _ _ (match ?x with _ => _ end) => destruct x
      end
    | progress cbv zeta ].

(** The tools of the database variant assign neither the model nor the
    agent, and construct neither. *)
Lemma steady_get_db_connection :
  Cache.steady Cache.same_agent Cache.not_init Persisted.get_db_connection.
Proof.
  unfold Persisted.get_db_connection, Persisted._load_db_config.
  steady_auto.
Qed.

Lemma steady_get_shipment_status (reference_no : string) :
  Cache.steady Cache.same_agent Cache.not_init
    (Persisted.get_shipment_status reference_no).
Proof.
  unfold Persisted.get_shipment_status.
  apply steady_try; steady_side; [|intros; steady_auto].
  apply steady_bind; steady_side; [apply steady_get_db_connection|].
  intros c. steady_auto.
Qed.

Lemma steady_find_delayed_shipments :
  Cache.steady Cache.same_agent Cache.not_init
    Persisted.find_delayed_shipments.
Proof.
  unfold Persisted.find_delayed_shipments.
  apply steady_try; steady_side; [|intros; steady_auto].
  apply steady_bind; steady_side; [apply steady_get_db_connection|].
  intros c. steady_auto.
Qed.

Lemma steady_mock_get_shipment_status (shipments : dict (dict string))
    (reference_no : string) :
  Cache.steady Cache.same_agent_mock Cache.not_init
    (Mock.get_shipment_status shipments reference_no).
Proof. unfold Mock.get_shipment_status. steady_auto. Qed.

Lemma steady_mock_find_delayed_shipments (shipments : dict (dict string)) :
  Cache.steady Cache.same_agent_mock Cache.not_init
    (Mock.find_delayed_shipments shipments).
Proof. unfold Mock.find_delayed_shipments. steady_auto. Qed.

Lemma initialize_agent_cached (st : Runtime Persisted.Globals) (a : agent) :
  Persisted._agent (globals st) = Some a ->
  Persisted._initialize_agent st = (st, Ok a).
Proof.
  intros H. unfold Persisted._initialize_agent, bind, get_globals.
  rewrite H. reflexivity.
Qed.

Lemma mock_initialize_agent_cached (st : Runtime Mock.Globals) (a : agent) :
  Mock._agent (globals st) = Some a ->
  Mock._initialize_agent st = (st, Ok a).
Proof.
  intros H. unfold Mock._initialize_agent, bind, get_globals.
  rewrite H. reflexivity.
Qed.

(** The entrypoint once the agent is had, in terms of what the agent's call
    gives. *)
Lemma logistics_query_after_init (d : list (string * pyval))
    (st st1 : Runtime Persisted.Globals) (a : agent) :
  truthy (Cache.question d) = true ->
  Persisted._initialize_agent st = (st1, Ok a) ->
  Persisted.logistics_query (PDict d) st =
    match agent_run Persisted.get_shipment_status
            Persisted.find_delayed_shipments a (Cache.question d) st1 with
    | (st2, Ok m) =>
        match message_text m with
        | Ok t => (st2, Ok t)
        | Raise e =>
            (record (EvLogError ("Query failed: " ++ exn_type_name e ++ ": "
                                   ++ exn_str e)) st2,
             Ok ("Query failed: " ++ exn_str e))
        end
    | (st2, Raise e) =>
        (record (EvLogError ("Query failed: " ++ exn_type_name e ++ ": "
                               ++ exn_str e)) st2,
         Ok ("Query failed: " ++ exn_str e))
    end.
Proof.
  intros Hq Hi.
  unfold Persisted.logistics_query, bind, lift, py_get. cbv beta iota.
  fold (Cache.question d). rewrite Hq.
  change (negb true) with false. cbv beta iota.
  unfold try_except. cbv beta. rewrite Hi. cbv beta iota.
  destruct (agent_run _ _ a (Cache.question d) st1) as [st2 [m|e]];
    [|reflexivity].
  unfold lift. destruct (message_text m); reflexivity.
Qed.

Lemma mock_logistics_query_after_init (shipments : dict (dict string))
    (d : list (string * pyval)) (st st1 : Runtime Mock.Globals) (a : agent) :
  truthy (Cache.question d) = true ->
  Mock._initialize_agent st = (st1, Ok a) ->
  Mock.logistics_query shipments (PDict d) st =
    match agent_run (Mock.get_shipment_status shipments)
            (Mock.find_delayed_shipments shipments) a (Cache.question d)
            st1 with
    | (st2, Ok m) =>
        match message_text m with
        | Ok t => (st2, Ok t)
        | Raise e =>
            (record (EvLogError ("Query failed: " ++ exn_type_name e ++ ": "
                                   ++ exn_str e)) st2,
             Ok ("Query failed: " ++ exn_str e))
        end
    | (st2, Raise e) =>
        (record (EvLogError ("Query failed: " ++ exn_type_name e ++ ": "
                               ++ exn_str e)) st2,
         Ok ("Query failed: " ++ exn_str e))
    end.
Proof.
  intros Hq Hi.
  unfold Mock.logistics_query, bind, lift, py_get. cbv beta iota.
  fold (Cache.question d). rewrite Hq.
  change (negb true) with false. cbv beta iota.
  unfold try_except. cbv beta. rewrite Hi. cbv beta iota.
  destruct (agent_run _ _ a (Cache.question d) st1) as [st2 [m|e]];
    [|reflexivity].
  unfold lift. destruct (message_text m); reflexivity.
Qed.

(** The call of the agent records the question first and then only what the
    tools record. *)
Lemma agent_run_trace {G : Type} (keep : G -> G -> Prop)
    (keep_refl : forall g, keep g g)
    (keep_trans : forall g1 g2 g3, keep g1 g2 -> keep g2 g3 -> keep g1 g3)
    (tool1 : string -> M G string) (tool2 : M G string) (a : agent)
    (query : pyval) (st : Runtime G) :
  (forall r, Cache.steady keep Cache.not_init (tool1 r)) ->
  Cache.steady keep Cache.not_init tool2 ->
  keep (globals st) (globals (fst (agent_run tool1 tool2 a query st))) /\
  exists rest,
    trace (fst (agent_run tool1 tool2 a query st))
      = (trace st ++ EvAgentCall query :: rest)%list /\
    forallb Cache.not_init rest = true.
Proof.
  intros H1 H2. unfold agent_run.
  destruct (agent_call a query (world st)) as [w p].
  assert (Hs : Cache.steady keep Cache.not_init (run_plan tool1 tool2 p))
    by (apply steady_run_plan; assumption).
  destruct (Hs (after_call (EvAgentCall query) w st))
    as [Hk (rest & Ht & Hr)].
  split; [exact Hk|]. exists rest. split; [|exact Hr].
  rewrite Ht. simpl. rewrite <- app_assoc. reflexivity.
Qed.

Ltac break_goal :=
  repeat match goal with
         | |- context [match ?x with _ => _ end] =>
             lazymatch x with
             | context [match _ with _ => _ end] => fail
             | _ => destruct x; simpl
             end
         end.

Ltac unfold_monad :=
  unfold bind, get_globals, try_except, external, lift, modify_globals,
    logger_info, logger_error, ret, raise; simpl.

(** A model initialisation that raises has assigned nothing; one that
    returns a model has cached it. In both cases it records no call of the
    agent and leaves the cached agent as it is. *)
Lemma get_openai_model_outcome (st : Runtime Persisted.Globals) :
  match Persisted._get_openai_model st with
  | (st1, Raise e) => globals st1 = globals st
  | (st1, Ok m) =>
      Persisted._openai_model (globals st1) = Some m /\
      Persisted._agent (globals st1) = Persisted._agent (globals st)
  end /\
  exists evs,
    trace (fst (Persisted._get_openai_model st)) = (trace st ++ evs)%list /\
    existsb Cache.is_agent_call evs = false.
Proof.
  unfold Persisted._get_openai_model. unfold_monad.
  destruct (Persisted._openai_model (globals st)) eqn:Hm; simpl.
  - split; [split; [exact Hm | reflexivity]|].
    exists []. rewrite app_nil_r. split; reflexivity.
  - break_goal;
      (split; [first [reflexivity | split; reflexivity]|]);
      eexists; rewrite <- ?app_assoc; simpl; split; reflexivity.
Qed.

Lemma mock_get_openai_model_outcome (st : Runtime Mock.Globals) :
  match Mock._get_openai_model st with
  | (st1, Raise e) => globals st1 = globals st
  | (st1, Ok m) =>
      Mock._openai_model (globals st1) = Some m /\
      Mock._agent (globals st1) = Mock._agent (globals st)
  end /\
  exists evs,
    trace (fst (Mock._get_openai_model st)) = (trace st ++ evs)%list /\
    existsb Cache.is_agent_call evs = false.
Proof.
  unfold Mock._get_openai_model. unfold_monad.
  destruct (Mock._openai_model (globals st)) eqn:Hm; simpl.
  - split; [split; [exact Hm | reflexivity]|].
    exists []. rewrite app_nil_r. split; reflexivity.
  - break_goal;
      (split; [first [reflexivity | split; reflexivity]|]);
      eexists; rewrite <- ?app_assoc; simpl; split; reflexivity.
Qed.

(** The agent initialisation started without a cached agent: when it
    raises, still no agent is cached; when it returns an agent, that agent
    is cached. It records no call of the agent. *)
Lemma initialize_agent_outcome (st : Runtime Persisted.Globals) :
  Persisted._agent (globals st) = None ->
  match Persisted._initialize_agent st with
  | (st1, Raise e) => Persisted._agent (globals st1) = None
  | (st1, Ok a) => Persisted._agent (globals st1) = Some a
  end /\
  exists evs,
    trace (fst (Persisted._initialize_agent st)) = (trace st ++ evs)%list /\
    existsb Cache.is_agent_call evs = false.
Proof.
  intros H. unfold Persisted._initialize_agent.
  unfold bind, get_globals. rewrite H.
  destruct (get_openai_model_outcome st) as [Hout (evs & Ht & He)].
  destruct (Persisted._get_openai_model st) as [st1 [m|e]]; simpl in *.
  - destruct Hout as [_ Ha]. unfold_monad.
    destruct (Agent m Persisted.SYSTEM_PROMPT (world st1)) as [w [a|e]];
      simpl.
    + split; [reflexivity|]. eexists. rewrite Ht, <- app_assoc.
      split; [reflexivity|]. rewrite existsb_app, He. reflexivity.
    + split; [rewrite Ha; exact H|]. eexists. rewrite Ht, <- app_assoc.
      split; [reflexivity|]. rewrite existsb_app, He. reflexivity.
  - split; [rewrite Hout; exact H|]. exists evs. split; assumption.
Qed.

Lemma mock_initialize_agent_outcome (st : Runtime Mock.Globals) :
  Mock._agent (globals st) = None ->
  match Mock._initialize_agent st with
  | (st1, Raise e) => Mock._agent (globals st1) = None
  | (st1, Ok a) => Mock._agent (globals st1) = Some a
  end /\
  exists evs,
    trace (fst (Mock._initialize_agent st)) = (trace st ++ evs)%list /\
    existsb Cache.is_agent_call evs = false.
Proof.
  intros H. unfold Mock._initialize_agent.
  unfold bind, get_globals. rewrite H.
  destruct (mock_get_openai_model_outcome st) as [Hout (evs & Ht & He)].
  destruct (Mock._get_openai_model st) as [st1 [m|e]]; simpl in *.
  - destruct Hout as [_ Ha]. unfold_monad.
    destruct (Agent m Mock.SYSTEM_PROMPT (world st1)) as [w [a|e]];
      simpl.
    + split; [reflexivity|]. eexists. rewrite Ht, <- app_assoc.
      split; [reflexivity|]. rewrite existsb_app, He. reflexivity.
    + split; [rewrite Ha; exact H|]. eexists. rewrite Ht, <- app_assoc.
      split; [reflexivity|]. rewrite existsb_app, He. reflexivity.
  - split; [rewrite Hout; exact H|]. exists evs. split; assumption.
Qed.

(** X1: once an agent is cached, every request that is a mapping is
    answered with a text and keeps that agent cached; no model and no agent
    is constructed again; and when the request carries a question, the
    first thing recorded is the call of the cached agent with that
    question as it was sent. In both variants. *)
Theorem cached_agent_is_reused (a : agent) (d : list (string * pyval)) :
  (forall st : Runtime Persisted.Globals,
      Persisted._agent (globals st) = Some a ->
      exists st' s evs,
        Persisted.logistics_query (PDict d) st = (st', Ok s) /\
        Persisted._agent (globals st') = Some a /\
        trace st' = (trace st ++ evs)%list /\
        forallb Cache.not_init evs = true /\
        (truthy (Cache.question d) = true ->
         exists rest, evs = EvAgentCall (Cache.question d) :: rest))
  /\
  (forall (shipments : dict (dict string)) (st : Runtime Mock.Globals),
      Mock._agent (globals st) = Some a ->
      exists st' s evs,
        Mock.logistics_query shipments (PDict d) st = (st', Ok s) /\
        Mock._agent (globals st') = Some a /\
        trace st' = (trace st ++ evs)%list /\
        forallb Cache.not_init evs = true /\
        (truthy (Cache.question d) = true ->
         exists rest, evs = EvAgentCall (Cache.question d) :: rest)).
Proof.
  split.
  - intros st Ha. destruct (truthy (Cache.question d)) eqn:Hq.
    + pose proof (initialize_agent_cached st Ha) as Hi.
      rewrite logistics_query_after_init with (st1 := st) (a := a);
        [|exact Hq | exact Hi].
      destruct (@agent_run_trace _ Cache.same_agent same_agent_refl
                  same_agent_trans Persisted.get_shipment_status
                  Persisted.find_delayed_shipments a (Cache.question d) st
                  steady_get_shipment_status steady_find_delayed_shipments)
        as [[Hk _] (rest & Ht & Hr)].
      destruct (agent_run Persisted.get_shipment_status
                  Persisted.find_delayed_shipments a (Cache.question d) st)
        as [st2 [m|e]]; simpl in Hk, Ht.
      * destruct (message_text m) as [t|e].
        -- exists st2, t, (EvAgentCall (Cache.question d) :: rest).
           split; [reflexivity|]. split; [rewrite Hk; exact Ha|].
           split; [exact Ht|]. split; [exact Hr|]. intros _. eauto.
        -- eexists. eexists.
           eexists (EvAgentCall (Cache.question d)
                      :: rest ++ [EvLogError _])%list.
           split; [reflexivity|]. split; [simpl; rewrite Hk; exact Ha|].
           split; [simpl; rewrite Ht, <- app_assoc; reflexivity|].
           split; [simpl; rewrite forallb_app, Hr; reflexivity|].
           intros _. eauto.
      * eexists. eexists.
        eexists (EvAgentCall (Cache.question d)
                   :: rest ++ [EvLogError _])%list.
        split; [reflexivity|]. split; [simpl; rewrite Hk; exact Ha|].
        split; [simpl; rewrite Ht, <- app_assoc; reflexivity|].
        split; [simpl; rewrite forallb_app, Hr; reflexivity|].
        intros _. eauto.
    + exists st, USAGE_HINT, []. split.
      * unfold Persisted.logistics_query, bind, lift, py_get.
        cbv beta iota. fold (Cache.question d). rewrite Hq. reflexivity.
      * split; [exact Ha|]. rewrite app_nil_r.
        split; [reflexivity|]. split; [reflexivity|]. discriminate.
  - intros shipments st Ha. destruct (truthy (Cache.question d)) eqn:Hq.
    + pose proof (mock_initialize_agent_cached st Ha) as Hi.
      rewrite mock_logistics_query_after_init with (st1 := st) (a := a);
        [|exact Hq | exact Hi].
      destruct (@agent_run_trace _ Cache.same_agent_mock same_agent_mock_refl
                  same_agent_mock_trans (Mock.get_shipment_status shipments)
                  (Mock.find_delayed_shipments shipments) a
                  (Cache.question d) st
                  (steady_mock_get_shipment_status shipments)
                  (steady_mock_find_delayed_shipments shipments))
        as [[Hk _] (rest & Ht & Hr)].
      destruct (agent_run (Mock.get_shipment_status shipments)
                  (Mock.find_delayed_shipments shipments) a
                  (Cache.question d) st)
        as [st2 [m|e]]; simpl in Hk, Ht.
      * destruct (message_text m) as [t|e].
        -- exists st2, t, (EvAgentCall (Cache.question d) :: rest).
           split; [reflexivity|]. split; [rewrite Hk; exact Ha|].
           split; [exact Ht|]. split; [exact Hr|]. intros _. eauto.
        -- eexists. eexists.
           eexists (EvAgentCall (Cache.question d)
                      :: rest ++ [EvLogError _])%list.
           split; [reflexivity|]. split; [simpl; rewrite Hk; exact Ha|].
           split; [simpl; rewrite Ht, <- app_assoc; reflexivity|].
           split; [simpl; rewrite forallb_app, Hr; reflexivity|].
           intros _. eauto.
      * eexists. eexists.
        eexists (EvAgentCall (Cache.question d)
                   :: rest ++ [EvLogError _])%list.
        split; [reflexivity|]. split; [simpl; rewrite Hk; exact Ha|].
        split; [simpl; rewrite Ht, <- app_assoc; reflexivity|].
        split; [simpl; rewrite forallb_app, Hr; reflexivity|].
        intros _. eauto.
    + exists st, USAGE_HINT, []. split.
      * unfold Mock.logistics_query, bind, lift, py_get.
        cbv beta iota. fold (Cache.question d). rewrite Hq. reflexivity.
      * split; [exact Ha|]. rewrite app_nil_r.
        split; [reflexivity|]. split; [reflexivity|]. discriminate.
Qed.

Lemma initialize_agent_returns_cached (st st1 : Runtime Persisted.Globals)
    (a : agent) :
  Persisted._initialize_agent st = (st1, Ok a) ->
  Persisted._agent (globals st1) = Some a.
Proof.
  intros Hi. destruct (Persisted._agent (globals st)) as [a0|] eqn:Ha.
  - rewrite (initialize_agent_cached st Ha) in Hi.
    injection Hi as <- <-. exact Ha.
  - destruct (initialize_agent_outcome st Ha) as [Hout _].
    rewrite Hi in Hout. exact Hout.
Qed.

Lemma mock_initialize_agent_returns_cached (st st1 : Runtime Mock.Globals)
    (a : agent) :
  Mock._initialize_agent st = (st1, Ok a) ->
  Mock._agent (globals st1) = Some a.
Proof.
  intros Hi. destruct (Mock._agent (globals st)) as [a0|] eqn:Ha.
  - rewrite (mock_initialize_agent_cached st Ha) in Hi.
    injection Hi as <- <-. exact Ha.
  - destruct (mock_initialize_agent_outcome st Ha) as [Hout _].
    rewrite Hi in Hout. exact Hout.
Qed.

(** The entrypoint when the initialisation of the agent raises. *)
Lemma logistics_query_init_failure (d : list (string * pyval))
    (st st1 : Runtime Persisted.Globals) (e : exn) :
  truthy (Cache.question d) = true ->
  Persisted._initialize_agent st = (st1, Raise e) ->
  Persisted.logistics_query (PDict d) st =
    (record (EvLogError ("Query failed: " ++ exn_type_name e ++ ": "
                           ++ exn_str e)) st1,
     Ok ("Query failed: " ++ exn_str e)).
Proof.
  intros Hq Hi.
  unfold Persisted.logistics_query, bind, lift, py_get. cbv beta iota.
  fold (Cache.question d). rewrite Hq.
  change (negb true) with false. cbv beta iota.
  unfold try_except. cbv beta. rewrite Hi. reflexivity.
Qed.

Lemma mock_logistics_query_init_failure (shipments : dict (dict string))
    (d : list (string * pyval)) (st st1 : Runtime Mock.Globals) (e : exn) :
  truthy (Cache.question d) = true ->
  Mock._initialize_agent st = (st1, Raise e) ->
  Mock.logistics_query shipments (PDict d) st =
    (record (EvLogError ("Query failed: " ++ exn_type_name e ++ ": "
                           ++ exn_str e)) st1,
     Ok ("Query failed: " ++ exn_str e)).
Proof.
  intros Hq Hi.
  unfold Mock.logistics_query, bind, lift, py_get. cbv beta iota.
  fold (Cache.question d). rewrite Hq.
  change (negb true) with false. cbv beta iota.
  unfold try_except. cbv beta. rewrite Hi. reflexivity.
Qed.

(** X2: when the initialisation of the model or of the agent raises during
    a request that carries a question, the request is answered with
    ["Query failed: "] and the exception's message, after being logged; the
    agent is never called, and no agent is cached, so the next request
    initialises again; when it is the model initialisation that raised, no
    global at all was assigned. In both variants. *)
Theorem initialisation_fault_is_text_and_uncached
    (d : list (string * pyval)) (e : exn) :
  (forall st st1 : Runtime Persisted.Globals,
      truthy (Cache.question d) = true ->
      Persisted._initialize_agent st = (st1, Raise e) ->
      Persisted.logistics_query (PDict d) st
        = (record (EvLogError ("Query failed: " ++ exn_type_name e ++ ": "
                                 ++ exn_str e)) st1,
           Ok ("Query failed: " ++ exn_str e)) /\
      Persisted._agent (globals st1) = None /\
      (exists evs,
          trace st1 = (trace st ++ evs)%list /\
          existsb Cache.is_agent_call evs = false) /\
      (forall st0 e0,
          Persisted._get_openai_model st = (st0, Raise e0) ->
          globals st0 = globals st))
  /\
  (forall (shipments : dict (dict string)) (st st1 : Runtime Mock.Globals),
      truthy (Cache.question d) = true ->
      Mock._initialize_agent st = (st1, Raise e) ->
      Mock.logistics_query shipments (PDict d) st
        = (record (EvLogError ("Query failed: " ++ exn_type_name e ++ ": "
                                 ++ exn_str e)) st1,
           Ok ("Query failed: " ++ exn_str e)) /\
      Mock._agent (globals st1) = None /\
      (exists evs,
          trace st1 = (trace st ++ evs)%list /\
          existsb Cache.is_agent_call evs = false) /\
      (forall st0 e0,
          Mock._get_openai_model st = (st0, Raise e0) ->
          globals st0 = globals st)).
Proof.
  split.
  - intros st st1 Hq Hi.
    split; [apply logistics_query_init_failure; assumption|].
    assert (Ha : Persisted._agent (globals st) = None).
    { destruct (Persisted._agent (globals st)) as [a0|] eqn:Ha;
        [|reflexivity].
      rewrite (initialize_agent_cached st Ha) in Hi. discriminate. }
    destruct (initialize_agent_outcome st Ha) as [Hout Hev].
    rewrite Hi in Hout, Hev. simpl in Hev.
    split; [exact Hout|]. split; [exact Hev|].
    intros st0 e0 Hm.
    destruct (get_openai_model_outcome st) as [Hm' _].
    rewrite Hm in Hm'. exact Hm'.
  - intros shipments st st1 Hq Hi.
    split; [apply mock_logistics_query_init_failure; assumption|].
    assert (Ha : Mock._agent (globals st) = None).
    { destruct (Mock._agent (globals st)) as [a0|] eqn:Ha;
        [|reflexivity].
      rewrite (mock_initialize_agent_cached st Ha) in Hi. discriminate. }
    destruct (mock_initialize_agent_outcome st Ha) as [Hout Hev].
    rewrite Hi in Hout, Hev. simpl in Hev.
    split; [exact Hout|]. split; [exact Hev|].
    intros st0 e0 Hm.
    destruct (mock_get_openai_model_outcome st) as [Hm' _].
    rewrite Hm in Hm'. exact Hm'.
Qed.

(** X3: when the initialisation returns an agent, the request is answered
    with a text and that agent is the cached one when the request ends,
    whatever the reasoning loop and the tools did in between. In both
    variants. *)
Theorem initialised_agent_stays_cached (d : list (string * pyval))
    (a : agent) :
  (forall st st1 : Runtime Persisted.Globals,
      truthy (Cache.question d) = true ->
      Persisted._initialize_agent st = (st1, Ok a) ->
      exists st' s,
        Persisted.logistics_query (PDict d) st = (st', Ok s) /\
        Persisted._agent (globals st') = Some a)
  /\
  (forall (shipments : dict (dict string)) (st st1 : Runtime Mock.Globals),
      truthy (Cache.question d) = true ->
      Mock._initialize_agent st = (st1, Ok a) ->
      exists st' s,
        Mock.logistics_query shipments (PDict d) st = (st', Ok s) /\
        Mock._agent (globals st') = Some a).
Proof.
  split.
  - intros st st1 Hq Hi.
    pose proof (initialize_agent_returns_cached st Hi) as Ha.
    rewrite logistics_query_after_init with (st1 := st1) (a := a);
      [|exact Hq | exact Hi].
    destruct (@agent_run_trace _ Cache.same_agent same_agent_refl
                same_agent_trans Persisted.get_shipment_status
                Persisted.find_delayed_shipments a (Cache.question d) st1
                steady_get_shipment_status steady_find_delayed_shipments)
      as [[Hk _] _].
    destruct (agent_run Persisted.get_shipment_status
                Persisted.find_delayed_shipments a (Cache.question d) st1)
      as [st2 [m|e]]; simpl in Hk.
    + destruct (message_text m); eexists; eexists;
        (split; [reflexivity|]); simpl; rewrite Hk; exact Ha.
    + eexists; eexists. split; [reflexivity|]. simpl. rewrite Hk. exact Ha.
  - intros shipments st st1 Hq Hi.
    pose proof (mock_initialize_agent_returns_cached st Hi) as Ha.
    rewrite mock_logistics_query_after_init with (st1 := st1) (a := a);
      [|exact Hq | exact Hi].
    destruct (@agent_run_trace _ Cache.same_agent_mock same_agent_mock_refl
                same_agent_mock_trans (Mock.get_shipment_status shipments)
                (Mock.find_delayed_shipments shipments) a
                (Cache.question d) st1
                (steady_mock_get_shipment_status shipments)
                (steady_mock_find_delayed_shipments shipments))
      as [[Hk _] _].
    destruct (agent_run (Mock.get_shipment_status shipments)
                (Mock.find_delayed_shipments shipments) a
                (Cache.question d) st1)
      as [st2 [m|e]]; simpl in Hk.
    + destruct (message_text m); eexists; eexists;
        (split; [reflexivity|]); simpl; rewrite Hk; exact Ha.
    + eexists; eexists. split; [reflexivity|]. simpl. rewrite Hk. exact Ha.
Qed.

(** X4: what the entrypoint returns when the agent's call comes back with a
    message: the text of the first content block and nothing of the later
    ones; with an empty content list, or a first block without text, the
    text ["Query failed: ..."] of the [IndexError] or [KeyError], which is
    logged. When the call raises, ["Query failed: "] and its message. *)
Theorem answer_is_first_text_block (d : list (string * pyval))
    (st st1 st2 : Runtime Persisted.Globals) (a : agent)
    (r : res message) :
  truthy (Cache.question d) = true ->
  Persisted._initialize_agent st = (st1, Ok a) ->
  agent_run Persisted.get_shipment_status Persisted.find_delayed_shipments
    a (Cache.question d) st1 = (st2, r) ->
  Persisted.logistics_query (PDict d) st =
    match r with
    | Ok m =>
        match content m with
        | [] =>
            (record (EvLogError
                       "Query failed: IndexError: list index out of range")
               st2,
             Ok "Query failed: list index out of range")
        | first :: _ =>
            match text first with
            | Some t => (st2, Ok t)
            | None =>
                (record (EvLogError "Query failed: KeyError: 'text'") st2,
                 Ok "Query failed: 'text'")
            end
        end
    | Raise e =>
        (record (EvLogError ("Query failed: " ++ exn_type_name e ++ ": "
                               ++ exn_str e)) st2,
         Ok ("Query failed: " ++ exn_str e))
    end.
Proof.
  intros Hq Hi Hrun.
  rewrite logistics_query_after_init with (st1 := st1) (a := a);
    [|exact Hq | exact Hi].
  rewrite Hrun. destruct r as [m|e]; [|reflexivity].
  unfold message_text. destruct (content m) as [|first rest];
    [reflexivity|].
  destruct (text first); reflexivity.
Qed.

(** ** The connection cache *)

(** A handle returned by [get_db_connection] is the cached one afterwards;
    a call that raises leaves the connection cache as it was. *)
Lemma get_db_connection_outcome (st : Runtime Persisted.Globals) :
  match Persisted.get_db_connection st with
  | (st1, Ok c) => Persisted._db_connection (globals st1) = Some c
  | (st1, Raise e) =>
      Persisted._db_connection (globals st1)
        = Persisted._db_connection (globals st)
  end.
Proof.
  unfold Persisted.get_db_connection, Persisted._load_db_config.
  unfold_monad.
  destruct (Persisted._db_connection (globals st)) eqn:Hc; simpl;
    [exact Hc|].
  break_goal; rewrite ?Hc; reflexivity.
Qed.

(** [get_db_connection] when the configuration and the credentials are
    cached and no connection is: only the connection is attempted. *)
Lemma get_db_connection_configured (st : Runtime Persisted.Globals)
    (cfg : Persisted.db_config) (user password : pyval) :
  Persisted._db_connection (globals st) = None ->
  Persisted._db_config (globals st) = Some cfg ->
  py_getitem (Persisted._db_credentials (globals st)) "username" = Ok user ->
  py_getitem (Persisted._db_credentials (globals st)) "password"
    = Ok password ->
  Persisted.get_db_connection st =
    match pg8000_Connection (Persisted.endpoint cfg)
            (Persisted.database_name cfg) user password 30 (world st) with
    | (w, Ok c) =>
        ({| globals := Persisted.set_db_connection (Some c) (globals st);
            world := w;
            trace := (trace st
                        ++ [EvConnect (Persisted.endpoint cfg)
                              (Persisted.database_name cfg) user password])
                     %list |},
         Ok c)
    | (w, Raise e) =>
        (record (EvLogError ("Database connection failed: "
                               ++ exn_type_name e ++ ": " ++ exn_str e))
           (after_call (EvConnect (Persisted.endpoint cfg)
                          (Persisted.database_name cfg) user password) w st),
         Raise e)
    end.
Proof.
  intros Hc Hcfg Hu Hp.
  unfold Persisted.get_db_connection, Persisted._load_db_config.
  unfold_monad. rewrite Hc, Hcfg. simpl. rewrite Hu, Hp. simpl.
  destruct (pg8000_Connection _ _ user password 30 (world st))
    as [w [c|e]]; reflexivity.
Qed.

(** X5: once a tool has got a connection, that handle is cached: the tool
    answers with a text, and from then on every sequence of tool uses sends
    one query per use on that same handle and nothing else; no second
    connection is opened for the rest of the process. *)
Theorem connection_is_opened_once (o : Ops.op)
    (st st1 : Runtime Persisted.Globals) (c : conn) :
  Persisted.get_db_connection st = (st1, Ok c) ->
  exists st' out,
    Ops.run_op o st = (st', Ok out) /\
    Persisted._db_connection (globals st') = Some c /\
    forall (later : list Ops.op) (st2 : Runtime Persisted.Globals),
      globals st2 = globals st' ->
      exists st3 outs evs,
        Ops.run_ops later st2 = (st3, Ok outs) /\
        length outs = length later /\
        Persisted._db_connection (globals st3) = Some c /\
        trace st3 = (trace st2 ++ evs)%list /\
        filter Ops.is_call evs
          = map (fun o' => EvRun c (Ops.op_query o') (Ops.op_params o'))
              later.
Proof.
  intros Hc.
  pose proof (get_db_connection_outcome st) as Hout. rewrite Hc in Hout.
  assert (Hrun : exists st' out,
             Ops.run_op o st = (st', Ok out) /\ globals st' = globals st1).
  { destruct o as [reference_no|]; simpl.
    - destruct (conn_run c Persisted.STATUS_QUERY
                  [("reference_no", reference_no)] (world st1))
        as [w r] eqn:Hr.
      rewrite (status_after_run _ _ Hc Hr).
      destruct r as [[|first rest]|e]; eexists; eexists; split; reflexivity.
    - destruct (conn_run c Persisted.RISK_QUERY [] (world st1))
        as [w r] eqn:Hr.
      rewrite (delayed_after_run _ Hc Hr).
      destruct r as [[|first rest]|e]; eexists; eexists; split; reflexivity. }
  destruct Hrun as (st' & out & Hrun & Hg).
  exists st', out. split; [exact Hrun|].
  split; [rewrite Hg; exact Hout|].
  intros later st2 Hg2.
  assert (H2 : Persisted._db_connection (globals st2) = Some c)
    by (rewrite Hg2, Hg; exact Hout).
  destruct (run_ops_on_cached later st2 H2)
    as (st3 & outs & evs & Hruns & Hlen & Hg3 & Ht3 & Hevs).
  exists st3, outs, evs. repeat split; try assumption.
  rewrite Hg3. exact H2.
Qed.

(** X6: the store faults during [find_delayed_shipments] (no connection can
    be had, or the risk query raises): the tool returns the text ["Error
    finding delayed shipments: "] followed by the fault's message, after
    logging it, and does not raise. *)
Theorem delayed_store_fault_is_text (st : Runtime Persisted.Globals)
    (e : exn) :
  Cache.delayed_fault st e ->
  exists st',
    Persisted.find_delayed_shipments st
      = (st', Ok ("Error finding delayed shipments: " ++ exn_str e)) /\
    contains "Error finding delayed shipments"
      ("Error finding delayed shipments: " ++ exn_str e) = true /\
    In (EvLogError ("Error in find_delayed_shipments: " ++ exn_type_name e
                      ++ ": " ++ exn_str e)) (trace st').
Proof.
  intros [(st1 & Hc)|(st1 & c & w & Hc & Hr)]; eexists.
  - unfold Persisted.find_delayed_shipments, try_except, bind.
    rewrite Hc. simpl.
    split; [reflexivity|]. split; [reflexivity|].
    apply in_or_app. right. left. reflexivity.
  - rewrite (delayed_after_run _ Hc Hr).
    split; [reflexivity|]. split; [reflexivity|].
    simpl. apply in_or_app. right. left. reflexivity.
Qed.

(** X7: the configuration loads and the connection is then refused. The
    tool answers with the error text; the configuration and the
    credentials stay cached and no connection is. Every later use of the
    tool then starts with one new connection attempt and reads neither the
    parameters nor a secret again; when that attempt gives a handle, the
    handle is cached and the query runs on it. *)
Theorem connect_failure_retries_connect_only
    (st : Runtime Persisted.Globals) (w1 w2 w3 : ext)
    (response : list (string * string)) (ep db arn secret : string)
    (credentials user password : pyval) (e : exn) (reference_no : string) :
  Persisted._db_connection (globals st) = None ->
  Persisted._db_config (globals st) = None ->
  ssm_get_parameters Persisted.PARAMETER_NAMES (world st)
    = (w1, Ok response) ->
  dict_get "/agentcore/rds/endpoint" (dict_of_pairs response) = Some ep ->
  dict_get "/agentcore/rds/database" (dict_of_pairs response) = Some db ->
  dict_get "/agentcore/rds/secret-arn" (dict_of_pairs response) = Some arn ->
  secrets_get_secret_value arn w1 = (w2, Ok secret) ->
  json_loads secret = Ok credentials ->
  py_getitem credentials "username" = Ok user ->
  py_getitem credentials "password" = Ok password ->
  pg8000_Connection ep db user password 30 w2 = (w3, Raise e) ->
  exists st1,
    Persisted.get_shipment_status reference_no st
      = (st1, Ok ("Error retrieving shipment status: " ++ exn_str e)) /\
    Persisted._db_config (globals st1)
      = Some {| Persisted.endpoint := ep; Persisted.database_name := db;
                Persisted.secret_arn := arn |} /\
    Persisted._db_credentials (globals st1) = credentials /\
    Persisted._db_connection (globals st1) = None /\
    forall (st2 : Runtime Persisted.Globals) (reference_no' : string),
      globals st2 = globals st1 ->
      exists st3 s evs,
        Persisted.get_shipment_status reference_no' st2 = (st3, Ok s) /\
        trace st3
          = (trace st2 ++ EvConnect ep db user password :: evs)%list /\
        existsb Cache.is_config_read evs = false /\
        forall w c,
          pg8000_Connection ep db user password 30 (world st2)
            = (w, Ok c) ->
          Persisted._db_connection (globals st3) = Some c /\
          exists logs,
            evs = EvRun c Persisted.STATUS_QUERY
                    [("reference_no", reference_no')] :: logs /\
            filter Ops.is_call logs = [].
Proof.
  intros Hc Hcfg Hssm Hep Hdb Harn Hsec Hjson Hu Hp Hconn.
  assert (Hget : exists stc,
             Persisted.get_db_connection st = (stc, Raise e) /\
             globals stc
             = Persisted.set_db_credentials credentials
                 (Persisted.set_db_config
                    (Some {| Persisted.endpoint := ep;
                             Persisted.database_name := db;
                             Persisted.secret_arn := arn |}) (globals st))).
  { unfold Persisted.get_db_connection, Persisted._load_db_config.
    unfold_monad. rewrite Hc, Hcfg. simpl. rewrite Hssm. simpl.
    unfold dict_getitem. rewrite Hep, Hdb, Harn. simpl.
    rewrite Hsec. simpl. rewrite Hjson. simpl. rewrite Hu, Hp. simpl.
    rewrite Hconn. simpl. eexists. split; reflexivity. }
  destruct Hget as (stc & Hget & Hg).
  eexists. split; [rewrite (status_without_connection _ _ Hget);
                   reflexivity|].
  simpl. rewrite Hg. simpl.
  split; [reflexivity|]. split; [reflexivity|]. split; [exact Hc|].
  intros st2 reference_no' Hg2. simpl in Hg2. rewrite ?Hg in Hg2.
  assert (Hget2 := @get_db_connection_configured st2
            {| Persisted.endpoint := ep; Persisted.database_name := db;
               Persisted.secret_arn := arn |} user password).
  rewrite Hg2 in Hget2. simpl in Hget2.
  specialize (Hget2 Hc eq_refl Hu Hp).
  destruct (pg8000_Connection ep db user password 30 (world st2))
    as [w [c|e']] eqn:Hconn2.
  - destruct (conn_run c Persisted.STATUS_QUERY
                [("reference_no", reference_no')] w) as [w' r] eqn:Hr.
    rewrite (status_after_run _ _ Hget2 Hr).
    destruct r as [[|first rest]|e']; simpl;
      eexists; eexists; eexists;
      (split; [reflexivity|]);
      (split; [simpl; rewrite <- ?app_assoc; reflexivity|]);
      (split; [reflexivity|]);
      intros w0 c0 H0; injection H0 as <- <-;
      (split; [reflexivity|]); eexists; split; reflexivity.
  - rewrite (status_without_connection _ _ Hget2).
    eexists; eexists; eexists.
    split; [reflexivity|].
    split; [simpl; rewrite <- ?app_assoc; reflexivity|].
    split; [reflexivity|]. intros w0 c0 H0. discriminate.
Qed.

End AgentCache.

(** ** The two in-memory tools on any directory *)

Section MockDirectory.
Context `{X : Externals}.

Lemma dict_get_unique {V} (l : dict V) (k : string) (v : V) :
  NoDup (map fst l) -> In (k, v) l -> dict_get k l = Some v.
Proof.
  induction l as [|[k' v'] l IH]; simpl; intros Hnd Hin.
  - contradiction.
  - inversion Hnd as [|? ? Hnotin Hnd']; subst.
    destruct Hin as [Heq|Hin].
    + injection Heq as -> ->. rewrite String.eqb_refl. reflexivity.
    + destruct (String.eqb k k') eqn:E.
      * apply String.eqb_eq in E. subst k'.
        exfalso. apply Hnotin. apply in_map_iff. exists (k, v). auto.
      * apply IH; assumption.
Qed.

(** The loop appends one entry per AT_RISK item, in the order of the dict,
    each made from its item. *)
Lemma collect_delayed_entries (items : list (string * dict string)) :
  forall acc delayed,
    Mock.collect_delayed items acc = Ok delayed ->
    exists added,
      delayed = (acc ++ added)%list /\
      Forall2 Listing.entry_of (filter Mock.at_risk_item items) added.
Proof.
  induction items as [|[ref_no shipment] rest IH]; intros acc delayed H.
  - simpl in H. injection H as <-. exists []. rewrite app_nil_r.
    split; [reflexivity | constructor].
  - simpl in H. unfold Mock.at_risk_item at 1. simpl.
    destruct (opt_str_eqb (dict_get "status" shipment) "AT_RISK") eqn:Hs.
    + unfold dict_getitem in H.
      destruct (dict_get "status" shipment) as [status|] eqn:E1;
        [|discriminate].
      destruct (dict_get "current_location" shipment) eqn:E2;
        [|discriminate].
      destruct (dict_get "event" shipment) eqn:E3; [|discriminate].
      destruct (dict_get "occurred_at" shipment) eqn:E4; [|discriminate].
      destruct (dict_get "details" shipment) eqn:E5; [|discriminate].
      simpl in H. apply IH in H. destruct H as (added & -> & Hall).
      eexists (_ :: added). rewrite <- app_assoc. simpl.
      split; [reflexivity|]. constructor; [|exact Hall].
      split; [reflexivity|]. split; [reflexivity|].
      intros field [<-|[<-|[<-|[<-|[<-|[]]]]]]; simpl;
        rewrite ?E1, ?E2, ?E3, ?E4, ?E5; split;
        first [reflexivity | discriminate].
    + apply IH in H. destruct H as (added & -> & Hall).
      exists added. auto.
Qed.

(** X8: on any directory (a dict, so with distinct keys) for which the
    at-risk listing succeeds, the listing has one entry per AT_RISK item,
    in the order of the dict, carrying the item's key as reference and the
    record's status, location, event, time and details; and every listed
    reference is known to [get_shipment_status], which returns the encoded
    record of that key, a record whose status is AT_RISK. *)
Theorem mock_listed_shipments_are_known (shipments : dict (dict string))
    (delayed : list (dict string)) (st : Runtime Mock.Globals) :
  NoDup (map fst shipments) ->
  Mock.collect_delayed shipments [] = Ok delayed ->
  Forall2 Listing.entry_of (filter Mock.at_risk_item shipments) delayed /\
  forall d,
    In d delayed ->
    exists ref_no shipment,
      dict_get "reference_no" d = Some ref_no /\
      dict_get ref_no shipments = Some shipment /\
      dict_get "status" shipment = Some "AT_RISK" /\
      Mock.get_shipment_status shipments ref_no st
        = (st, Ok (json_dumps (json_of_dict shipment))).
Proof.
  intros Hnd Hcol.
  destruct (collect_delayed_entries shipments [] Hcol) as (added & -> & Hall).
  simpl. split; [exact Hall|].
  intros d Hin.
  assert (Hkv : exists kv,
             In kv (filter Mock.at_risk_item shipments) /\
             Listing.entry_of kv d).
  { clear Hcol. induction Hall as [|kv d' l l' Hent Hall IH].
    - contradiction.
    - destruct Hin as [<-|Hin].
      + exists kv. split; [left; reflexivity | exact Hent].
      + destruct (IH Hin) as (kv' & Hin' & Hent').
        exists kv'. split; [right; exact Hin' | exact Hent']. }
  destruct Hkv as ([ref_no shipment] & Hf & (_ & Href & _)).
  apply filter_In in Hf. destruct Hf as [Hin' Hrisk].
  pose proof (dict_get_unique shipments ref_no shipment Hnd Hin') as Hget.
  exists ref_no, shipment. split; [exact Href|]. split; [exact Hget|].
  split.
  - unfold Mock.at_risk_item in Hrisk. simpl in Hrisk.
    destruct (dict_get "status" shipment) as [s0|]; [|discriminate].
    simpl in Hrisk. apply String.eqb_eq in Hrisk. subst. reflexivity.
  - apply mock_status_of_body.
    unfold Mock.get_shipment_status_body, dict_contains, dict_getitem.
    rewrite Hget. reflexivity.
Qed.

End MockDirectory.

(** ** The validation of the environment in [app.py] *)

Lemma unset_false (o : option string) :
  CdkApp.unset o = false -> exists v, o = Some v /\ v <> EmptyString.
Proof.
  destruct o as [v|]; simpl; intros H; [|discriminate].
  exists v. split; [reflexivity|]. intros ->. discriminate.
Qed.

Lemma provided_not_unset (environ : dict string) (name : string) :
  CdkApp.provided environ name ->
  CdkApp.unset (dict_get name environ) = false.
Proof.
  intros (v & -> & Hv). simpl. apply String.eqb_neq. exact Hv.
Qed.

Ltac split_unset environ :=
  repeat match goal with
         | |- context [CdkApp.unset (dict_get ?n environ)] =>
             let E := fresh "E" in
             destruct (CdkApp.unset (dict_get n environ)) eqn:E
         end.

(** X9: [app.py] goes on to build the stack exactly when the account and
    the six infrastructure variables are all set to non-empty values. The
    stack then gets those values as they are, the two subnets in the order
    subnet 1, subnet 2, and the region of [CDK_DEFAULT_REGION], or
    [us-east-1] when that variable is not set (an empty region is passed on
    as it is). *)
Theorem app_builds_iff_environment_complete (environ : dict string) :
  (forall args,
      CdkApp.app environ = Ok args ->
      Forall (CdkApp.provided environ)
        ("CDK_DEFAULT_ACCOUNT" :: CdkApp.REQUIRED_NAMES) /\
      args =
        {| CdkApp.vpc_id := dict_get "AGENTCORE_VPC_ID" environ;
           CdkApp.private_subnet_ids :=
             [ dict_get "AGENTCORE_SUBNET_1" environ;
               dict_get "AGENTCORE_SUBNET_2" environ ];
           CdkApp.runtime_security_group_id :=
             dict_get "AGENTCORE_RUNTIME_SG_ID" environ;
           CdkApp.db_secret_arn := dict_get "AGENTCORE_DB_SECRET_ARN" environ;
           CdkApp.openai_secret_arn :=
             dict_get "AGENTCORE_OPENAI_SECRET_ARN" environ;
           CdkApp.account := dict_get "CDK_DEFAULT_ACCOUNT" environ;
           CdkApp.region :=
             match dict_get "CDK_DEFAULT_REGION" environ with
             | Some r => r
             | None => "us-east-1"
             end |})
  /\
  (Forall (CdkApp.provided environ)
     ("CDK_DEFAULT_ACCOUNT" :: CdkApp.REQUIRED_NAMES) ->
   exists args, CdkApp.app environ = Ok args).
Proof.
  split.
  - intros args. unfold CdkApp.app. cbv zeta. simpl filter.
    split_unset environ; simpl; intros H; try discriminate.
    injection H as <-. split; [|reflexivity].
    unfold CdkApp.REQUIRED_NAMES.
    repeat (constructor; [apply unset_false; assumption|]). constructor.
  - intros H. unfold CdkApp.REQUIRED_NAMES in H.
    repeat match goal with
           | H : Forall _ (_ :: _) |- _ =>
               let Hp := fresh "Hp" in
               inversion H as [|? ? Hp ?]; subst; clear H;
               apply provided_not_unset in Hp
           end.
    unfold CdkApp.app. cbv zeta. simpl filter.
    repeat match goal with
           | Hp : CdkApp.unset _ = false |- _ => rewrite Hp; clear Hp
           end.
    simpl. eexists. reflexivity.
Qed.

(** X10: when [app.py] stops, it is with a [ValueError]. A missing or
    empty account is reported first and alone; otherwise the message lists
    the infrastructure variables that are unset or empty, all of them and
    no other, in the order of [required_vars], separated by a comma and a
    space. *)
Theorem app_reports_what_is_missing (environ : dict string) (e : exn) :
  CdkApp.app environ = Raise e ->
  exn_type_name e = "ValueError" /\
  if CdkApp.unset (dict_get "CDK_DEFAULT_ACCOUNT" environ)
  then exn_str e = CdkApp.ACCOUNT_MESSAGE
  else
    filter (fun n => CdkApp.unset (dict_get n environ)) CdkApp.REQUIRED_NAMES
      <> [] /\
    exn_str e
      = CdkApp.missing_message
          (filter (fun n => CdkApp.unset (dict_get n environ))
             CdkApp.REQUIRED_NAMES).
Proof.
  unfold CdkApp.app, CdkApp.REQUIRED_NAMES. cbv zeta. simpl filter.
  split_unset environ; simpl; intros H; try discriminate;
    injection H as <-; (split; [reflexivity|]);
    first [ reflexivity | split; [discriminate | reflexivity] ].
Qed.

(** ** The members of the zip file of [create_zip.py] *)






























(** ** The role of the runtime and the parameters the agent reads *)

Lemma string_app_inv_head (a b c : string) : a ++ b = a ++ c -> b = c.
Proof.
  induction a as [|x a IH]; simpl; intros H; [exact H|].
  injection H as H. apply IH. exact H.
Qed.

Lemma parameter_arn_injective (region account n1 n2 : string) :
  Stack.parameter_arn region account n1
  = Stack.parameter_arn region account n2 ->
  n1 = n2.
Proof.
  unfold Stack.parameter_arn. intros H.
  repeat match type of H with
         | ?a ++ _ = ?a ++ _ => apply string_app_inv_head in H
         end.
  exact H.
Qed.

(** The resources on which the role allows [ssm:GetParameters]: the three
    parameters, in the region and the account of the stack. *)
Lemma ssm_resources_allowed
    (region account db_secret_arn openai_secret_arn resource : string) :
  Stack.allows
    (Stack.runtime_role_statements region account db_secret_arn
       openai_secret_arn)
    "ssm:GetParameters" resource <->
  exists name,
    In name Persisted.PARAMETER_NAMES /\
    resource = Stack.parameter_arn region account name.
Proof.
  split.
  - intros (st & Hst & Hact & Hres).
    simpl in Hst.
    destruct Hst as [<-|[<-|[<-|[<-|[<-|[<-|[<-|[]]]]]]]]; simpl in Hact;
      repeat match goal with
             | H : _ \/ _ |- _ => destruct H as [H|H]
             | H : False |- _ => contradiction
             end;
      try discriminate.
    simpl in Hres.
    destruct Hres as [<-|[<-|[<-|[]]]];
      [ exists "/agentcore/rds/endpoint"
      | exists "/agentcore/rds/database"
      | exists "/agentcore/rds/secret-arn" ];
      (split; [simpl; tauto | reflexivity]).
  - intros (name & Hin & ->).
    exists (nth 5 (Stack.runtime_role_statements region account
                     db_secret_arn openai_secret_arn)
              {| Stack.actions := []; Stack.resources := [];
                 Stack.conditions := [] |}).
    split; [simpl; tauto|]. split; [simpl; tauto|].
    simpl in Hin. destruct Hin as [<-|[<-|[<-|[]]]]; simpl; tauto.
Qed.

(** Two texts without a colon that are followed by a colon and more: when
    the whole is the same, so are the parts. *)
Lemma colon_separates (a b x y : string) :
  Stack.has_colon a = false -> Stack.has_colon b = false ->
  a ++ ":" ++ x = b ++ ":" ++ y -> a = b /\ x = y.
Proof.
  revert b. induction a as [|c a IH]; intros [|d b] Ha Hb H; simpl in *.
  - injection H as ->. split; reflexivity.
  - injection H as <- _. discriminate.
  - injection H as -> _. discriminate.
  - apply orb_false_iff in Ha, Hb. destruct Ha as [_ Ha], Hb as [_ Hb].
    injection H as -> H. destruct (IH b Ha Hb H) as [-> ->].
    split; reflexivity.
Qed.

(** X14: the role that the stack gives the runtime and the parameters
    that [_load_db_config] reads. The agent always reads them in
    [us-east-1] ([AWS_REGION]), the role names them in the region of the
    stack. When the stack is in [us-east-1], the role allows
    [ssm:GetParameters] on each parameter read and on no other parameter
    of that region and account; when it is in any other region, the role
    allows the action on none of the parameters read. *)
Theorem role_allows_parameter_reads_in_agent_region_only
    (region account db_secret_arn openai_secret_arn : string) :
  Stack.has_colon region = false ->
  let statements :=
    Stack.runtime_role_statements region account db_secret_arn
      openai_secret_arn in
  (region = Stack.AWS_REGION ->
   forall name,
     In name Persisted.PARAMETER_NAMES <->
     Stack.allows statements "ssm:GetParameters"
       (Stack.parameter_arn Stack.AWS_REGION account name)) /\
  (region <> Stack.AWS_REGION ->
   forall name,
     ~ Stack.allows statements "ssm:GetParameters"
         (Stack.parameter_arn Stack.AWS_REGION account name)).
Proof.
  intros Hregion statements. subst statements. split.
  - intros -> name. rewrite ssm_resources_allowed. split.
    + intros Hin. exists name. split; [exact Hin | reflexivity].
    + intros (name' & Hin & Heq).
      apply parameter_arn_injective in Heq. subst name'. exact Hin.
  - intros Hother name Hallows.
    apply ssm_resources_allowed in Hallows.
    destruct Hallows as (name' & _ & Heq).
    unfold Stack.parameter_arn in Heq.
    apply string_app_inv_head in Heq.
    apply colon_separates in Heq;
      [|reflexivity | exact Hregion].
    destruct Heq as [Heq _]. apply Hother. symmetry. exact Heq.
Qed.

(** ** The request of the client script *)

Lemma string_length_app (a b : string) :
  String.length (a ++ b) = String.length a + String.length b.
Proof. induction a as [|c a IH]; simpl; [reflexivity | now rewrite IH]. Qed.

(** X15: the request [invoke_agent.py] sends. The session id is the text
    of the UUID (36 characters) with 13 more, 49 in all, above the 33 that
    the service asks for. The runtime ARN is the value of
    [AGENT_RUNTIME_ARN] when that is set and not empty; when it is unset or
    empty the ARN is made from [CDK_DEFAULT_ACCOUNT], and with no account
    set it holds the text [None] in the account's place. It is never
    empty. The payload has a non-empty question under the key that the
    entry point reads. *)
Theorem client_request_shape (environ : dict string) (uuid4 : string) :
  String.length uuid4 = 36 ->
  let r := InvokeAgent.invocation environ uuid4 in
  String.length (InvokeAgent.runtimeSessionId r) = 49 /\
  33 <= String.length (InvokeAgent.runtimeSessionId r) /\
  InvokeAgent.agentRuntimeArn r <> EmptyString /\
  (CdkApp.unset (dict_get "AGENT_RUNTIME_ARN" environ) = false ->
   dict_get "AGENT_RUNTIME_ARN" environ
     = Some (InvokeAgent.agentRuntimeArn r)) /\
  (CdkApp.unset (dict_get "AGENT_RUNTIME_ARN" environ) = true ->
   InvokeAgent.agentRuntimeArn r
     = "arn:aws:bedrock-agentcore:us-east-1:"
         ++ InvokeAgent.format (dict_get "CDK_DEFAULT_ACCOUNT" environ)
         ++ ":runtime/RUNTIME_ID" /\
   (dict_get "CDK_DEFAULT_ACCOUNT" environ = None ->
    InvokeAgent.agentRuntimeArn r
      = "arn:aws:bedrock-agentcore:us-east-1:None:runtime/RUNTIME_ID")) /\
  truthy (Cache.question (InvokeAgent.payload r)) = true.
Proof.
  intros Hlen r. subst r. simpl.
  unfold InvokeAgent.session_id, InvokeAgent.runtime_arn. cbv zeta.
  rewrite string_length_app, Hlen. simpl String.length.
  split; [reflexivity|]. split; [lia|].
  destruct (dict_get "AGENT_RUNTIME_ARN" environ) as [s|] eqn:Hs; simpl.
  - destruct (String.eqb s EmptyString) eqn:He.
    + split; [discriminate|]. split; [discriminate|].
      split; [|reflexivity]. intros _. split; [reflexivity|].
      intros ->. reflexivity.
    + split; [intros ->; discriminate|]. split; [reflexivity|].
      split; [discriminate | reflexivity].
  - split; [discriminate|]. split; [discriminate|].
    split; [|reflexivity]. intros _. split; [reflexivity|].
    intros ->. reflexivity.
Qed.

(** The sample store answers in SQL. *)
Lemma sample_store_speaks_sql (c : nat) (w : Demo.services) :
  @Store.speaks_sql SqlSamples.sql_store c w Demo.db.
Proof.
  intros text params q w' rows Hq Hrun. simpl in Hrun.
  destruct (Demo.queries_up w); [|discriminate].
  injection Hrun as _ Hrows.
  apply execute_result with (text := text); assumption.
Qed.

(** ** The properties on the small instance *)

#[local] Existing Instance Demo.externals.

(** C2 on the sample tables, with the store that runs the text of the
    query: three of the four entries of the view are AT_RISK; they come
    back with the later ETA first and the entry without ETA last. The
    in-memory tool on a directory without an AT_RISK entry. *)
Lemma find_delayed_is_ordered_or_sentinel_witness :
  (exists entries st',
      map Persisted.select_risk entries
        = [ [ SqlText "ACME-REF-1004"; SqlTimestamp 1700000700000000;
              SqlNull; SqlText "AT_RISK" ];
            [ SqlText "ACME-REF-1002"; SqlTimestamp 1700000100000000;
              SqlNull; SqlText "AT_RISK" ];
            [ SqlText "ACME-REF-1003"; SqlNull; SqlNull;
              SqlText "AT_RISK" ] ] /\
      StronglySorted Persisted.eta_before entries /\
      Persisted.find_delayed_shipments (SqlSamples.sql_fresh Demo.all_up)
        = (st', Ok (json_dumps
                      (@Persisted.json_of_rows SqlSamples.sql_store
                         (map Persisted.select_risk entries)))))
  /\
  @Mock.find_delayed_shipments Demo.externals
    [("SHIP-REF-1002", [("status", "DELIVERED")])]
    (Demo.fresh_mock Demo.all_up)
    = (Demo.fresh_mock Demo.all_up, Ok "No delayed shipments found").
Proof.
  split.
  - destruct (@find_delayed_is_ordered_or_sentinel SqlSamples.sql_store)
      as (Hp & _).
    destruct (Hp Demo.db (SqlSamples.sql_fresh Demo.all_up)
                (fst (Persisted.get_db_connection
                        (SqlSamples.sql_fresh Demo.all_up)))
                7 Demo.all_up
                [ [ SqlText "ACME-REF-1004"; SqlTimestamp 1700000700000000;
                    SqlNull; SqlText "AT_RISK" ];
                  [ SqlText "ACME-REF-1002"; SqlTimestamp 1700000100000000;
                    SqlNull; SqlText "AT_RISK" ];
                  [ SqlText "ACME-REF-1003"; SqlNull; SqlNull;
                    SqlText "AT_RISK" ] ]
                eq_refl (@sample_store_speaks_sql 7 Demo.all_up) eq_refl)
      as (entries & Hrows & _ & Hsorted & _ & Hrun & _).
    exists entries. eexists.
    split; [symmetry; exact Hrows|]. split; [exact Hsorted|].
    rewrite Hrun. destruct entries; [discriminate Hrows | reflexivity].
  - destruct (@find_delayed_is_ordered_or_sentinel Demo.externals)
      as (_ & Hm & _).
    apply (proj1 (Hm [("SHIP-REF-1002", [("status", "DELIVERED")])]
                    (Demo.fresh_mock Demo.all_up))).
    reflexivity.
Defined.

(** C3 on the fixture, and on the sample tables with the store that runs
    the text of the query. *)
Lemma known_reference_returns_its_record_witness :
  (exists shipment,
      dict_get "SHIP-REF-1003" (Mock.MOCK_SHIPMENTS 0 0 0) = Some shipment /\
      Mock.get_shipment_status (Mock.MOCK_SHIPMENTS 0 0 0) "SHIP-REF-1003"
        (Demo.fresh_mock Demo.all_up)
        = (Demo.fresh_mock Demo.all_up,
           Ok (json_dumps (json_of_dict shipment))) /\
      dict_get "reference_no" shipment = Some "SHIP-REF-1003")
  /\
  (exists st2 first,
      In first (map Persisted.select_status (Persisted.joined Demo.db)) /\
      Persisted.get_shipment_status "ACME-REF-1001"
        (SqlSamples.sql_fresh Demo.all_up)
        = (st2, Ok (json_dumps
                      (@Persisted.json_of_row SqlSamples.sql_store first)))
      /\
      nth_error first 0 = Some (SqlText "ACME-REF-1001")).
Proof.
  split.
  - destruct (@known_reference_returns_its_record Demo.externals)
      as [Hm _].
    apply Hm. reflexivity.
  - destruct (@known_reference_returns_its_record SqlSamples.sql_store)
      as [_ Hp].
    apply (Hp Demo.db "ACME-REF-1001" (SqlSamples.sql_fresh Demo.all_up)
             (fst (Persisted.get_db_connection
                     (SqlSamples.sql_fresh Demo.all_up)))
             7 Demo.all_up
             [ [ SqlText "ACME-REF-1001"; SqlText "IN_TRANSIT";
                 SqlText "DEPARTED"; SqlText "Port of Los Angeles";
                 SqlText "USLAX"; SqlTimestamp 1700000000000000;
                 SqlNull ] ]
             eq_refl (@sample_store_speaks_sql 7 Demo.all_up) eq_refl).
    do 2 eexists.
    split; [left; reflexivity|]. split; [left; reflexivity|].
    split; reflexivity.
Defined.

(** C4 on the fixture and on the sample tables. *)
Lemma unknown_reference_is_not_found_witness :
  Mock.get_shipment_status (Mock.MOCK_SHIPMENTS 0 0 0) "SHIP-REF-9999"
    (Demo.fresh_mock Demo.all_up)
    = (Demo.fresh_mock Demo.all_up, Ok "Shipment SHIP-REF-9999 not found")
  /\
  snd (Persisted.get_shipment_status "ACME-REF-9999" (Demo.fresh Demo.all_up))
    = Ok "Shipment ACME-REF-9999 not found".
Proof.
  destruct (@unknown_reference_is_not_found Demo.externals)
    as (Hm & Hp & _).
  split.
  - apply Hm. reflexivity.
  - rewrite (Hp Demo.db "ACME-REF-9999" (Demo.fresh Demo.all_up)
               (fst (Persisted.get_db_connection (Demo.fresh Demo.all_up)))
               7 Demo.all_up eq_refl eq_refl eq_refl).
    reflexivity.
Defined.

(** C5 with a store that refuses the query. *)
Lemma status_store_fault_is_text_witness :
  exists st',
    Persisted.get_shipment_status "ACME-REF-1001"
      (Demo.fresh Demo.queries_down)
      = (st', Ok "Error retrieving shipment status: database unreachable") /\
    contains "Error retrieving shipment status"
      "Error retrieving shipment status: database unreachable" = true /\
    In (EvLogError
          "Error in get_shipment_status: ConnectionError: database unreachable")
       (trace st').
Proof.
  apply (@status_store_fault_is_text Demo.externals
           (Demo.fresh Demo.queries_down) "ACME-REF-1001"
           (Demo.unreachable "database")).
  right. eexists. exists 7, Demo.queries_down. split; reflexivity.
Defined.

(** C7: the secret store is down at the first request and up again at the
    second; the second request still fails, and calls no service. *)
Lemma secret_failure_leaves_config_cached_witness :
  exists st1 st3,
    Persisted.get_shipment_status "ACME-REF-1001"
      (Demo.fresh Demo.secrets_down)
      = (st1, Ok "Error retrieving shipment status: secret store unreachable")
    /\
    Persisted.get_shipment_status "ACME-REF-1001"
      (Demo.later (globals st1) Demo.all_up)
      = (st3, Ok ("Error retrieving shipment status: "
                  ++ "'NoneType' object is not subscriptable")) /\
    filter Ops.is_call (trace st3) = [] /\
    snd (Persisted.get_shipment_status "ACME-REF-1001"
           (Demo.fresh Demo.all_up))
      <> snd (Persisted.get_shipment_status "ACME-REF-1001"
                (Demo.later (globals st1) Demo.all_up)).
Proof.
  destruct (@secret_failure_leaves_config_cached Demo.externals
              (Demo.fresh Demo.secrets_down) Demo.secrets_down
              Demo.secrets_down
              [ ("/agentcore/rds/endpoint", "db.internal");
                ("/agentcore/rds/database", "logistics");
                ("/agentcore/rds/secret-arn", "arn:demo") ]
              "db.internal" "logistics" "arn:demo"
              (Demo.unreachable "secret store") "ACME-REF-1001"
              eq_refl eq_refl eq_refl eq_refl eq_refl eq_refl eq_refl
              eq_refl)
    as (st1 & H1 & _ & _ & _ & Hlater).
  destruct (Hlater (Demo.later (globals st1) Demo.all_up)
              "ACME-REF-1001" eq_refl)
    as (st3 & H3 & _ & _ & logs & Ht & Hl).
  exists st1, st3.
  split; [exact H1|]. split; [exact H3|]. split.
  - rewrite Ht. exact Hl.
  - rewrite H3. simpl. discriminate.
Defined.

(** C8 with an empty question and with no question. *)
Lemma empty_question_gets_usage_hint_witness :
  Persisted.logistics_query (PDict [("query", PStr EmptyString)])
    (Demo.fresh Demo.all_up)
    = (Demo.fresh Demo.all_up, Ok USAGE_HINT) /\
  Mock.logistics_query (Mock.MOCK_SHIPMENTS 0 0 0) (PDict [])
    (Demo.fresh_mock Demo.all_up)
    = (Demo.fresh_mock Demo.all_up, Ok USAGE_HINT).
Proof.
  split.
  - apply (@empty_question_gets_usage_hint Demo.externals
             [("query", PStr EmptyString)] [] (Demo.fresh_mock Demo.all_up)
             (Demo.fresh Demo.all_up)).
    right. right. reflexivity.
  - apply (@empty_question_gets_usage_hint Demo.externals
             [] (Mock.MOCK_SHIPMENTS 0 0 0) (Demo.fresh_mock Demo.all_up)
             (Demo.fresh Demo.all_up)).
    left. reflexivity.
Defined.

(** C9 with an established connection and a store that refuses queries:
    both tools keep going to the same handle. *)
Lemma query_fault_keeps_connection_witness :
  exists st',
    Persisted.get_shipment_status "ACME-REF-1001"
      (Demo.connected Demo.queries_down)
      = (st', Ok "Error retrieving shipment status: database unreachable") /\
    Persisted._db_connection (globals st') = Some 7 /\
    exists st3 outs evs,
      Ops.run_ops [Ops.OpDelayed; Ops.OpStatus "ACME-REF-1002"] st'
        = (st3, Ok outs) /\
      trace st3 = (trace st' ++ evs)%list /\
      filter Ops.is_call evs
        = [ EvRun 7 Persisted.RISK_QUERY [];
            EvRun 7 Persisted.STATUS_QUERY
              [("reference_no", "ACME-REF-1002")] ].
Proof.
  destruct (@query_fault_keeps_connection Demo.externals
              (Ops.OpStatus "ACME-REF-1001")
              (Demo.connected Demo.queries_down) 7 Demo.queries_down
              (Demo.unreachable "database") eq_refl eq_refl)
    as (Hrun & _ & Hc & Hlater).
  eexists. split; [exact Hrun|]. split; [exact Hc|].
  destruct (Hlater [Ops.OpDelayed; Ops.OpStatus "ACME-REF-1002"] _ eq_refl)
    as (st3 & outs & evs & Hruns & _ & _ & Ht & Hevs).
  exists st3, outs, evs.
  split; [exact Hruns|]. split; [exact Ht | exact Hevs].
Defined.

(** ** Further properties on the small instance and the samples *)

(** X1 after a first answered request. *)
Lemma cached_agent_is_reused_witness :
  exists st' s rest,
    Persisted.logistics_query (PDict [("query", PStr "again")]) Samples.warm
      = (st', Ok s) /\
    Persisted._agent (globals st') = Some tt /\
    trace st'
      = (trace Samples.warm ++ EvAgentCall (PStr "again") :: rest)%list /\
    forallb Cache.not_init rest = true.
Proof.
  destruct (@cached_agent_is_reused Demo.externals tt
              [("query", PStr "again")]) as [Hp _].
  destruct (Hp Samples.warm eq_refl)
    as (st' & s & evs & H1 & H2 & H3 & H4 & H5).
  destruct (H5 eq_refl) as (rest & ->).
  exists st', s, rest.
  split; [exact H1|]. split; [exact H2|]. split; [exact H3|].
  simpl in H4. exact H4.
Defined.

(** X2 with the secret store down. *)
Lemma initialisation_fault_is_text_and_uncached_witness :
  snd (Persisted.logistics_query (PDict [("query", PStr "hello")])
         (Demo.fresh Demo.secrets_down))
    = Ok "Query failed: secret store unreachable" /\
  globals (fst (Persisted.logistics_query (PDict [("query", PStr "hello")])
                  (Demo.fresh Demo.secrets_down)))
    = Persisted.initial_globals.
Proof.
  destruct (@initialisation_fault_is_text_and_uncached Demo.externals
              [("query", PStr "hello")] (Demo.unreachable "secret store"))
    as [Hp _].
  destruct (Hp (Demo.fresh Demo.secrets_down)
              (fst (Persisted._initialize_agent
                      (Demo.fresh Demo.secrets_down)))
              eq_refl eq_refl) as (H1 & _).
  rewrite H1. split; reflexivity.
Defined.

(** X3 at the first request of a process. *)
Lemma initialised_agent_stays_cached_witness :
  exists st' s,
    Persisted.logistics_query (PDict [("query", PStr "hello")])
      (Demo.fresh Demo.all_up) = (st', Ok s) /\
    Persisted._agent (globals st') = Some tt.
Proof.
  destruct (@initialised_agent_stays_cached Demo.externals
              [("query", PStr "hello")] tt) as [Hp _].
  apply (Hp (Demo.fresh Demo.all_up)
           (fst (Persisted._initialize_agent (Demo.fresh Demo.all_up))));
    reflexivity.
Defined.

(** X4 with the sample agent, which answers with the text of the at-risk
    tool. *)
Lemma answer_is_first_text_block_witness :
  snd (Persisted.logistics_query (PDict [("query", PStr "hello")])
         (Demo.fresh Demo.all_up))
  = Ok (json_dumps (Persisted.json_of_rows
                      (Persisted.risk_query_rows Demo.db))).
Proof.
  rewrite (@answer_is_first_text_block Demo.externals
             [("query", PStr "hello")] (Demo.fresh Demo.all_up)
             (fst (Persisted._initialize_agent (Demo.fresh Demo.all_up)))
             (fst (agent_run Persisted.get_shipment_status
                     Persisted.find_delayed_shipments
                     (tt : @agent Demo.externals) (PStr "hello")
                     (fst (Persisted._initialize_agent
                             (Demo.fresh Demo.all_up)))))
             tt
             (snd (agent_run Persisted.get_shipment_status
                     Persisted.find_delayed_shipments
                     (tt : @agent Demo.externals) (PStr "hello")
                     (fst (Persisted._initialize_agent
                             (Demo.fresh Demo.all_up)))))
             eq_refl eq_refl eq_refl).
  reflexivity.
Defined.

(** X5 from a fresh process. *)
Lemma connection_is_opened_once_witness :
  exists st' out,
    Persisted.get_shipment_status "ACME-REF-1001" (Demo.fresh Demo.all_up)
      = (st', Ok out) /\
    Persisted._db_connection (globals st') = Some 7 /\
    exists st3 outs evs,
      Ops.run_ops [Ops.OpDelayed; Ops.OpStatus "ACME-REF-1002"] st'
        = (st3, Ok outs) /\
      trace st3 = (trace st' ++ evs)%list /\
      filter Ops.is_call evs
        = [ EvRun 7 Persisted.RISK_QUERY [];
            EvRun 7 Persisted.STATUS_QUERY
              [("reference_no", "ACME-REF-1002")] ].
Proof.
  destruct (@connection_is_opened_once Demo.externals
              (Ops.OpStatus "ACME-REF-1001") (Demo.fresh Demo.all_up)
              (fst (Persisted.get_db_connection (Demo.fresh Demo.all_up)))
              7 eq_refl)
    as (st' & out & Hrun & Hc & Hlater).
  exists st', out. split; [exact Hrun|]. split; [exact Hc|].
  destruct (Hlater [Ops.OpDelayed; Ops.OpStatus "ACME-REF-1002"] st' eq_refl)
    as (st3 & outs & evs & Hruns & _ & _ & Ht & Hevs).
  exists st3, outs, evs.
  split; [exact Hruns|]. split; [exact Ht | exact Hevs].
Defined.

(** X6 with a store that refuses the query. *)
Lemma delayed_store_fault_is_text_witness :
  exists st',
    Persisted.find_delayed_shipments (Demo.fresh Demo.queries_down)
      = (st', Ok "Error finding delayed shipments: database unreachable") /\
    contains "Error finding delayed shipments"
      "Error finding delayed shipments: database unreachable" = true /\
    In (EvLogError
          "Error in find_delayed_shipments: ConnectionError: database unreachable")
       (trace st').
Proof.
  apply (@delayed_store_fault_is_text Demo.externals
           (Demo.fresh Demo.queries_down) (Demo.unreachable "database")).
  right. eexists. exists 7, Demo.queries_down. split; reflexivity.
Defined.

(** X7 with a database that refuses the first connection and accepts the
    next. *)
Lemma connect_failure_retries_connect_only_witness :
  exists st1 st3 s logs,
    Persisted.get_shipment_status "ACME-REF-1001"
      (Demo.fresh Samples.database_down)
      = (st1, Ok "Error retrieving shipment status: database unreachable") /\
    Persisted.get_shipment_status "ACME-REF-1001"
      (Demo.later (globals st1) Demo.all_up) = (st3, Ok s) /\
    Persisted._db_connection (globals st3) = Some 7 /\
    trace st3
      = EvConnect "db.internal" "logistics" (PStr "agent") (PStr "pw")
        :: EvRun 7 Persisted.STATUS_QUERY [("reference_no", "ACME-REF-1001")]
        :: logs /\
    filter Ops.is_call logs = [].
Proof.
  destruct (@connect_failure_retries_connect_only Demo.externals
              (Demo.fresh Samples.database_down)
              Samples.database_down Samples.database_down
              Samples.database_down
              [ ("/agentcore/rds/endpoint", "db.internal");
                ("/agentcore/rds/database", "logistics");
                ("/agentcore/rds/secret-arn", "arn:demo") ]
              "db.internal" "logistics" "arn:demo" "arn:demo"
              (PDict [("username", PStr "agent"); ("password", PStr "pw")])
              (PStr "agent") (PStr "pw") (Demo.unreachable "database")
              "ACME-REF-1001"
              eq_refl eq_refl eq_refl eq_refl eq_refl eq_refl eq_refl
              eq_refl eq_refl eq_refl eq_refl)
    as (st1 & H1 & _ & _ & _ & Hlater).
  destruct (Hlater (Demo.later (globals st1) Demo.all_up) "ACME-REF-1001"
              eq_refl)
    as (st3 & s & evs & H3 & Ht & _ & Hok).
  destruct (Hok Demo.all_up 7 eq_refl) as (Hc & logs & -> & Hl).
  exists st1, st3, s, logs.
  split; [exact H1|]. split; [exact H3|]. split; [exact Hc|].
  split; [exact Ht | exact Hl].
Defined.

Lemma fixture_keys_distinct :
  NoDup (map fst (Mock.MOCK_SHIPMENTS 0 0 0)).
Proof.
  simpl. repeat constructor; simpl; intuition discriminate.
Qed.

(** X8 on the fixture: its one listed reference. *)
Lemma mock_listed_shipments_are_known_witness :
  exists shipment,
    dict_get "SHIP-REF-1003" (Mock.MOCK_SHIPMENTS 0 0 0) = Some shipment /\
    dict_get "status" shipment = Some "AT_RISK" /\
    Mock.get_shipment_status (Mock.MOCK_SHIPMENTS 0 0 0) "SHIP-REF-1003"
      (Demo.fresh_mock Demo.all_up)
      = (Demo.fresh_mock Demo.all_up,
         Ok (json_dumps (json_of_dict shipment))).
Proof.
  destruct (@mock_listed_shipments_are_known Demo.externals
              (Mock.MOCK_SHIPMENTS 0 0 0)
              (match Mock.collect_delayed (Mock.MOCK_SHIPMENTS 0 0 0) []
               with
               | Ok delayed => delayed
               | Raise _ => []
               end)
              (Demo.fresh_mock Demo.all_up)
              fixture_keys_distinct eq_refl) as [_ Hknown].
  destruct (Hknown _ (or_introl eq_refl))
    as (ref_no & shipment & Href & Hget & Hstatus & Hrun).
  vm_compute in Href. injection Href as <-.
  exists shipment. split; [exact Hget|]. split; [exact Hstatus | exact Hrun].
Defined.

(** X9 on a complete environment without a region. *)
Lemma app_builds_iff_environment_complete_witness :
  exists args,
    CdkApp.app Samples.environment = Ok args /\
    CdkApp.region args = "us-east-1" /\
    CdkApp.account args = Some "123456789012" /\
    CdkApp.private_subnet_ids args = [Some "subnet-a"; Some "subnet-b"].
Proof.
  destruct (app_builds_iff_environment_complete Samples.environment)
    as [Hargs Hbuilds].
  destruct Hbuilds as [args Happ].
  - repeat constructor; eexists; (split; [reflexivity | discriminate]).
  - exists args. split; [exact Happ|].
    destruct (Hargs args Happ) as [_ ->]. repeat split.
Defined.

(** X10 on an environment with an empty subnet and no OpenAI secret. *)
Lemma app_reports_what_is_missing_witness :
  CdkApp.app Samples.incomplete_environment
    = Raise (Exn "ValueError"
               (CdkApp.missing_message
                  ["AGENTCORE_SUBNET_1"; "AGENTCORE_OPENAI_SECRET_ARN"])) /\
  exn_type_name
    (Exn "ValueError"
       (CdkApp.missing_message
          ["AGENTCORE_SUBNET_1"; "AGENTCORE_OPENAI_SECRET_ARN"]))
    = "ValueError" /\
  filter (fun n => CdkApp.unset (dict_get n Samples.incomplete_environment))
    CdkApp.REQUIRED_NAMES
    = ["AGENTCORE_SUBNET_1"; "AGENTCORE_OPENAI_SECRET_ARN"].
Proof.
  split; [reflexivity|].
  destruct (@app_reports_what_is_missing Samples.incomplete_environment
              (Exn "ValueError"
                 (CdkApp.missing_message
                    ["AGENTCORE_SUBNET_1"; "AGENTCORE_OPENAI_SECRET_ARN"]))
              eq_refl) as [Hty _].
  split; [exact Hty | reflexivity].
Defined.




(** X15 with nothing set in the environment. *)
Lemma client_request_shape_witness :
  String.length
    (InvokeAgent.runtimeSessionId
       (InvokeAgent.invocation [] "123e4567-e89b-42d3-a456-426614174000"))
    = 49 /\
  InvokeAgent.agentRuntimeArn
    (InvokeAgent.invocation [] "123e4567-e89b-42d3-a456-426614174000")
    = "arn:aws:bedrock-agentcore:us-east-1:None:runtime/RUNTIME_ID".
Proof.
  destruct (@client_request_shape []
              "123e4567-e89b-42d3-a456-426614174000" eq_refl)
    as (Hlen & _ & _ & _ & Hmade & _).
  split; [exact Hlen|]. apply Hmade; reflexivity.
Defined.

(** X14 for a stack in another region than the agent reads in. *)
Lemma role_allows_parameter_reads_in_agent_region_only_witness :
  ~ Stack.allows
      (Stack.runtime_role_statements "eu-west-1" "123456789012" "arn:db"
         "arn:openai")
      "ssm:GetParameters"
      (Stack.parameter_arn Stack.AWS_REGION "123456789012"
         "/agentcore/rds/endpoint").
Proof.
  apply (@role_allows_parameter_reads_in_agent_region_only "eu-west-1"
           "123456789012" "arn:db" "arn:openai" eq_refl).
  discriminate.
Defined.
